(** * Asgardeo auth JS SDK: authentication core and crypto utilities

    A shallow embedding of [AuthenticationCore] (authentication-core.ts),
    [CryptoUtils] (crypto-utils.ts) and [HttpsClient]
    (axios-https-client.ts), with the properties of the specification
    stated over it.

    Conventions.
    - A JS string is a [string]: the sequence of its UTF-8 bytes; its
      UTF-16 code units, which [length] counts and the base64 decoder
      reads, are computed from them ([UTF8.units]).
    - A [Buffer] / [Uint8Array] is a [list byte].
    - An optional (possibly [undefined]) property is an [option]; a JS
      object used as a record of strings (provider metadata, session
      data, a response body) is a [gmap string string], a number in it
      being kept as its decimal text.
    - An [async] method is a computation in the monad [M]: it threads the
      [World] (data layer, static members, network log) and either
      resolves ([Ok]) or rejects ([Err]) with an [Exception]. One call
      runs to its settlement; interleavings of concurrent calls are not
      modelled.
    - The libraries the sources call are embedded where their result is
      fixed by a standard (SHA-256, base64, form-urlencoding, JSON) and
      taken as parameters of an [Environment] where it is not (the
      network, the random sources, the URL parser).
    - A text is well-formed UTF-8. Where the code produces bytes that
      are not (a buffer cut inside a character, decoded bytes), they are
      kept as they are, and whatever reads such a sequence as characters
      reads U+FFFD.
    - Of the class [AuthenticationCore], [getOIDCServiceEndpoints] is not
      embedded; of [CryptoUtils], [isValidIdToken]. No property below is
      about them. *)

From Stdlib Require Import ZArith Ascii Strings.Byte Lia.
From Stdlib Require String.
From stdpp Require Import gmap strings list fin_maps pretty.

Local Open Scope Z_scope.

(* ===================================================================== *)
(** * Bytes and strings *)
(* ===================================================================== *)

Definition Z_of_byte (b : byte) : Z := Z.of_N (Byte.to_N b).

Definition byte_of_Z (z : Z) : byte :=
  match Byte.of_N (Z.to_N (z mod 256)) with
  | Some b => b
  | None => x00
  end.

(** [new TextEncoder().encode(s)]: the UTF-8 bytes of [s]. *)
Definition TextEncoder_encode (s : string) : list byte :=
  String.list_byte_of_string s.

Definition ascii_of_Z (z : Z) : ascii := ascii_of_byte (byte_of_Z z).
Definition Z_of_ascii (c : ascii) : Z := Z_of_byte (byte_of_ascii c).

(** [s.replace(/c/g, r)] for a one-character pattern. *)
Fixpoint replace_all (c : ascii) (r : string) (s : string) : string :=
  match s with
  | EmptyString => EmptyString
  | String a s' =>
      if Ascii.eqb a c then r +:+ replace_all c r s'
      else String a (replace_all c r s')
  end.

(** The double-quote character. *)
Definition dquote : ascii := ascii_of_Z 0x22.

(** [c.repeat(n)]. *)
Fixpoint JS_repeat (c : string) (n : nat) : string :=
  match n with
  | O => ""
  | S n' => c +:+ JS_repeat c n'
  end.

(* ===================================================================== *)
(** * Characters and UTF-16 code units of a text *)
(* ===================================================================== *)

Module UTF8.

(** A continuation byte, [10xxxxxx]. *)
Definition is_continuation (c : ascii) : bool :=
  let n := Z_of_ascii c in (0x80 <=? n) && (n <=? 0xBF).

Definition continues (s : string) : bool :=
  match s with
  | String c _ => is_continuation c
  | EmptyString => false
  end.

(** The characters of a text: each byte that is no continuation byte,
    with the continuation bytes that follow it. *)
Fixpoint chars (s : string) : list string :=
  match s with
  | EmptyString => []
  | String c rest =>
      match chars rest with
      | g :: gs => if continues g then String c g :: gs else String c "" :: g :: gs
      | [] => [String c ""]
      end
  end.

(** The UTF-8 bytes of a code point. *)
Definition encode (cp : Z) : string :=
  let tail (shift : Z) := ascii_of_Z (Z.lor 0x80 (Z.land (Z.shiftr cp shift) 63)) in
  if cp <? 0x80 then String (ascii_of_Z cp) ""
  else if cp <? 0x800 then
    String (ascii_of_Z (Z.lor 0xC0 (Z.shiftr cp 6))) (String (tail 0) "")
  else if cp <? 0x10000 then
    String (ascii_of_Z (Z.lor 0xE0 (Z.shiftr cp 12)))
      (String (tail 6) (String (tail 0) ""))
  else
    String (ascii_of_Z (Z.lor 0xF0 (Z.shiftr cp 18)))
      (String (tail 12) (String (tail 6) (String (tail 0) ""))).

(** What an ill-formed sequence reads as: U+FFFD, after the byte itself
    when that is an ASCII byte. *)
Definition replaced (b0 : Z) : list Z :=
  if b0 <? 0x80 then [b0; 0xFFFD] else [0xFFFD].

(** The UTF-16 code units of one character. *)
Definition code_units (char : string) : list Z :=
  let low (b : Z) := Z.land b 63 in
  match Z_of_ascii <$> String.list_ascii_of_string char with
  | [] => []
  | [b0] => if b0 <? 0x80 then [b0] else [0xFFFD]
  | [b0; b1] =>
      if (0xC2 <=? b0) && (b0 <=? 0xDF)
      then [Z.lor (Z.shiftl (Z.land b0 31) 6) (low b1)]
      else replaced b0
  | [b0; b1; b2] =>
      let cp := Z.lor (Z.shiftl (Z.land b0 15) 12) (Z.lor (Z.shiftl (low b1) 6) (low b2)) in
      if (0xE0 <=? b0) && (b0 <=? 0xEF) && (0x800 <=? cp)
         && negb ((0xD800 <=? cp) && (cp <=? 0xDFFF))
      then [cp]
      else replaced b0
  | [b0; b1; b2; b3] =>
      let cp := Z.lor (Z.shiftl (Z.land b0 7) 18)
                  (Z.lor (Z.shiftl (low b1) 12) (Z.lor (Z.shiftl (low b2) 6) (low b3))) in
      if (0xF0 <=? b0) && (b0 <=? 0xF4) && (0x10000 <=? cp) && (cp <=? 0x10FFFF)
      then [0xD800 + Z.shiftr (cp - 0x10000) 10; 0xDC00 + Z.land (cp - 0x10000) 0x3FF]
      else replaced b0
  | b0 :: _ => replaced b0
  end.

(** The UTF-16 code units of a text, and its [length]. *)
Definition units (s : string) : list Z := chars s ≫= code_units.

Definition length (s : string) : nat := List.length (units s).

End UTF8.

(** [String.fromCharCode(b)] for each octet [b], concatenated: the text
    whose characters have the octets as their codes. *)
Definition String_fromCharCodes (octets : list byte) : string :=
  foldr (fun b text => UTF8.encode (Z_of_byte b) +:+ text) "" octets.

(* ===================================================================== *)
(** * SHA-256 (the [fast-sha256] dependency), after FIPS 180-4 *)
(* ===================================================================== *)

Module SHA256.

Definition wrap (x : Z) : Z := x mod 2 ^ 32.
Definition add32 (x y : Z) : Z := wrap (x + y).
Definition rotr (n x : Z) : Z :=
  Z.lor (Z.shiftr x n) (wrap (Z.shiftl x (32 - n))).
Definition not32 (x : Z) : Z := Z.lxor x (2 ^ 32 - 1).

Definition Ch (x y z : Z) : Z := Z.lxor (Z.land x y) (Z.land (not32 x) z).
Definition Maj (x y z : Z) : Z :=
  Z.lxor (Z.lxor (Z.land x y) (Z.land x z)) (Z.land y z).
Definition Sigma0 (x : Z) : Z :=
  Z.lxor (Z.lxor (rotr 2 x) (rotr 13 x)) (rotr 22 x).
Definition Sigma1 (x : Z) : Z :=
  Z.lxor (Z.lxor (rotr 6 x) (rotr 11 x)) (rotr 25 x).
Definition sigma0 (x : Z) : Z :=
  Z.lxor (Z.lxor (rotr 7 x) (rotr 18 x)) (Z.shiftr x 3).
Definition sigma1 (x : Z) : Z :=
  Z.lxor (Z.lxor (rotr 17 x) (rotr 19 x)) (Z.shiftr x 10).

(** The first [count] primes. *)
Definition is_prime (n : Z) : bool :=
  (1 <? n) && forallb (fun d => negb (n mod d =? 0) || (n <? d * d)) (seqZ 2 (n - 2)).

Definition primes (count : nat) : list Z :=
  take count (List.filter is_prime (seqZ 2 400)).

(** The integer cube root: the largest [r] below [2 ^ bits] with
    [r ^ 3 <= n], found bit by bit. *)
Fixpoint cube_root_from (bits : nat) (n r : Z) : Z :=
  match bits with
  | O => r
  | S bits' =>
      let r' := r + 2 ^ Z.of_nat bits' in
      cube_root_from bits' n (if r' * r' * r' <=? n then r' else r)
  end.

Definition cube_root (n : Z) : Z := cube_root_from 40 n 0.

(** The round constants: the first 32 bits of the fractional parts of the
    cube roots of the first 64 primes. *)
Definition K : list Z :=
  (fun p => wrap (cube_root (p * 2 ^ 96))) <$> primes 64.

(** The initial hash value: the first 32 bits of the fractional parts of
    the square roots of the first 8 primes. *)
Definition H0 : list Z :=
  (fun p => wrap (Z.sqrt (p * 2 ^ 64))) <$> primes 8.

(** Big-endian encoding of [x] on [n] bytes. *)
Fixpoint be_bytes (n : nat) (x : Z) : list Z :=
  match n with
  | O => []
  | S n' => (Z.shiftr x (8 * Z.of_nat n')) mod 256 :: be_bytes n' x
  end.

Definition be_word (b0 b1 b2 b3 : Z) : Z :=
  Z.lor (Z.lor (Z.shiftl b0 24) (Z.shiftl b1 16)) (Z.lor (Z.shiftl b2 8) b3).

(** Padding: a one bit, zeros up to 56 mod 64, the bit length on 64 bits. *)
Definition pad (msg : list Z) : list Z :=
  let len := Z.of_nat (length msg) in
  let zeros := Z.to_nat ((55 - len) mod 64) in
  msg ++ 0x80 :: replicate zeros 0 ++ be_bytes 8 (8 * len).

Fixpoint words_of_bytes (bs : list Z) : list Z :=
  match bs with
  | b0 :: b1 :: b2 :: b3 :: rest => be_word b0 b1 b2 b3 :: words_of_bytes rest
  | _ => []
  end.

Fixpoint chunks (fuel : nat) (n : nat) (ws : list Z) : list (list Z) :=
  match fuel, ws with
  | O, _ | _, [] => []
  | S fuel', _ => take n ws :: chunks fuel' n (drop n ws)
  end.

Definition nthZ (l : list Z) (i : nat) : Z := nth i l 0.

(** The message schedule, kept newest-first: [rev_w] holds
    [W(t-1); W(t-2); ...]. *)
Fixpoint schedule (k : nat) (rev_w : list Z) : list Z :=
  match k with
  | O => rev_w
  | S k' =>
      let wt := add32 (add32 (sigma1 (nthZ rev_w 1)) (nthZ rev_w 6))
                      (add32 (sigma0 (nthZ rev_w 14)) (nthZ rev_w 15)) in
      schedule k' (wt :: rev_w)
  end.

Definition message_schedule (block : list Z) : list Z :=
  rev (schedule 48 (rev block)).

Record regs := Regs { ra : Z; rb : Z; rc : Z; rd : Z; re : Z; rf : Z; rg : Z; rh : Z }.

Definition round (s : regs) (kw : Z * Z) : regs :=
  let '(k, w) := kw in
  let t1 := add32 (add32 (add32 (rh s) (Sigma1 (re s))) (Ch (re s) (rf s) (rg s)))
                  (add32 k w) in
  let t2 := add32 (Sigma0 (ra s)) (Maj (ra s) (rb s) (rc s)) in
  Regs (add32 t1 t2) (ra s) (rb s) (rc s) (add32 (rd s) t1) (re s) (rf s) (rg s).

Definition regs_of (h : list Z) : regs :=
  Regs (nthZ h 0) (nthZ h 1) (nthZ h 2) (nthZ h 3)
       (nthZ h 4) (nthZ h 5) (nthZ h 6) (nthZ h 7).

Definition compress (h : list Z) (block : list Z) : list Z :=
  let s := foldl round (regs_of h) (zip K (message_schedule block)) in
  [ add32 (nthZ h 0) (ra s); add32 (nthZ h 1) (rb s);
    add32 (nthZ h 2) (rc s); add32 (nthZ h 3) (rd s);
    add32 (nthZ h 4) (re s); add32 (nthZ h 5) (rf s);
    add32 (nthZ h 6) (rg s); add32 (nthZ h 7) (rh s) ].

Definition digest_words (msg : list Z) : list Z :=
  let ws := words_of_bytes (pad msg) in
  foldl compress H0 (chunks (length ws) 16 ws).

(** [sha256(bytes)]: the 32-byte digest. *)
Definition sha256 (msg : list byte) : list byte :=
  byte_of_Z <$> (digest_words (Z_of_byte <$> msg) ≫= be_bytes 4).

End SHA256.

(* ===================================================================== *)
(** * Base64 ([Buffer.toString("base64")]) and the [base64url] package *)
(* ===================================================================== *)

Module Base64.

Definition alphabet : string :=
  "ABCDEFGHIJKLMNOPQRSTUVWXYZabcdefghijklmnopqrstuvwxyz0123456789+/".

Definition digit (i : Z) : ascii :=
  match String.get (Z.to_nat i) alphabet with
  | Some c => c
  | None => "="%char
  end.

Fixpoint encode (bs : list Z) : string :=
  match bs with
  | [] => ""
  | [b0] =>
      String (digit (Z.shiftr b0 2))
        (String (digit (Z.shiftl (Z.land b0 3) 4)) "==")
  | [b0; b1] =>
      String (digit (Z.shiftr b0 2))
        (String (digit (Z.lor (Z.shiftl (Z.land b0 3) 4) (Z.shiftr b1 4)))
           (String (digit (Z.shiftl (Z.land b1 15) 2)) "="))
  | b0 :: b1 :: b2 :: rest =>
      String (digit (Z.shiftr b0 2))
        (String (digit (Z.lor (Z.shiftl (Z.land b0 3) 4) (Z.shiftr b1 4)))
           (String (digit (Z.lor (Z.shiftl (Z.land b1 15) 2) (Z.shiftr b2 6)))
              (String (digit (Z.land b2 63)) (encode rest))))
  end.

(** [buf.toString("base64")]. *)
Definition Buffer_toString_base64 (buf : list byte) : string :=
  encode (Z_of_byte <$> buf).

(** The value of a character in the standard or in the URL-safe
    alphabet. *)
Definition sextet (c : ascii) : option Z :=
  let n := Z_of_ascii c in
  if (0x41 <=? n) && (n <=? 0x5A) then Some (n - 0x41)
  else if (0x61 <=? n) && (n <=? 0x7A) then Some (n - 0x61 + 26)
  else if (0x30 <=? n) && (n <=? 0x39) then Some (n - 0x30 + 52)
  else if (n =? 0x2B) || (n =? 0x2D) then Some 62
  else if (n =? 0x2F) || (n =? 0x5F) then Some 63
  else None.

(** The decoder of [Buffer.from(s, "base64")] never throws: it accepts
    both alphabets, skips every other character and ends at the first
    padding character. It looks each UTF-16 code unit of [s] up in a
    table of 256 entries, by the low eight bits of the unit
    ([table_index]): a character outside Latin-1 is read as the
    character of its low byte. *)
Definition table_index (s : string) : string :=
  String.string_of_list_ascii (ascii_of_Z <$> UTF8.units s).

Fixpoint sextets (s : string) : list Z :=
  match s with
  | EmptyString => []
  | String c s' =>
      if Ascii.eqb c "=" then []
      else match sextet c with
           | Some v => v :: sextets s'
           | None => sextets s'
           end
  end.

Fixpoint bytes_of_sextets (l : list Z) : list Z :=
  match l with
  | a :: b :: c :: d :: rest =>
      Z.lor (Z.shiftl a 2) (Z.shiftr b 4)
      :: Z.lor (Z.shiftl (Z.land b 15) 4) (Z.shiftr c 2)
      :: Z.lor (Z.shiftl (Z.land c 3) 6) d
      :: bytes_of_sextets rest
  | [a; b; c] =>
      [ Z.lor (Z.shiftl a 2) (Z.shiftr b 4);
        Z.lor (Z.shiftl (Z.land b 15) 4) (Z.shiftr c 2) ]
  | [a; b] => [ Z.lor (Z.shiftl a 2) (Z.shiftr b 4) ]
  | _ => []
  end.

(** [Buffer.from(s, "base64")]. *)
Definition Buffer_from_base64 (s : string) : list byte :=
  byte_of_Z <$> bytes_of_sextets (sextets (table_index s)).

End Base64.

(** The argument of [base64url.encode]: a [Buffer] or a string. *)
Inductive BufferOrString :=
  | IsBuffer (buf : list byte)
  | IsString (s : string).

Module base64url.

(** [fromBase64]: strip the padding, then [+] to [-] and [/] to [_]. *)
Definition fromBase64 (b64 : string) : string :=
  replace_all "/" "_" (replace_all "+" "-" (replace_all "=" "" b64)).

(** [base64url.encode(input)] with the default ["utf8"] encoding. *)
Definition encode (input : BufferOrString) : string :=
  match input with
  | IsBuffer buf => fromBase64 (Base64.Buffer_toString_base64 buf)
  | IsString s =>
      fromBase64 (Base64.Buffer_toString_base64 (TextEncoder_encode s))
  end.

(** [buffer.write(input)] on a zero-filled buffer with [room] bytes:
    the characters of [input] are written while they fit whole, and the
    rest of the buffer stays zero. *)
Fixpoint Buffer_write (chars : list string) (room : nat) : string :=
  match chars with
  | [] => JS_repeat (String zero "") room
  | char :: chars' =>
      if (String.length char <=? room)%nat
      then char +:+ Buffer_write chars' (room - String.length char)
      else JS_repeat (String zero "") room
  end.

(** The first [n] bytes of a buffer. *)
Fixpoint Buffer_prefix (n : nat) (buffer : string) : string :=
  match n, buffer with
  | S n', String c rest => String c (Buffer_prefix n' rest)
  | _, _ => ""
  end.

(** [padString(input)] (pad-string.js of the [base64url] package). The
    length is [input.length], in UTF-16 code units; a buffer of that
    length plus the padding is allocated, [input] is written to it in
    UTF-8, and the padding characters are written at the byte offsets
    from [input.length] on, over whatever bytes of [input] lie there.
    For a text of ASCII characters this appends the padding. *)
Definition padString (input : string) : string :=
  let segmentLength := 4%nat in
  let stringLength := UTF8.length input in
  let diff := (stringLength mod segmentLength)%nat in
  if Nat.eqb diff 0 then input
  else
    let padLength := (segmentLength - diff)%nat in
    let paddedStringLength := (stringLength + padLength)%nat in
    let buffer := Buffer_write (UTF8.chars input) paddedStringLength in
    Buffer_prefix stringLength buffer +:+ JS_repeat "=" padLength.

(** [toBase64]. *)
Definition toBase64 (s : string) : string :=
  replace_all "_" "/" (replace_all "-" "+" (padString s)).

(** [buf.toString("utf8")]. An ill-formed UTF-8 sequence, which
    JavaScript replaces by U+FFFD, is kept as it is. *)
Definition Buffer_toString_utf8 (buf : list byte) : string :=
  String.string_of_list_byte buf.

(** [base64url.decode(s)] for a string [s], with the ["utf8"] encoding. *)
Definition decode (s : string) : string :=
  Buffer_toString_utf8 (Base64.Buffer_from_base64 (toBase64 s)).

End base64url.

(* ===================================================================== *)
(** * CryptoUtils: PKCE primitives *)
(* ===================================================================== *)

Module CryptoUtils.

(** [base64URLEncode(value)] (crypto-utils.ts, line 40). *)
Definition base64URLEncode (value : BufferOrString) : string :=
  replace_all "=" ""
    (replace_all "/" "_" (replace_all "+" "-" (base64url.encode value))).

(** [getCodeChallenge(verifier)] (crypto-utils.ts, line 68). *)
Definition getCodeChallenge (verifier : string) : string :=
  base64URLEncode (IsBuffer (SHA256.sha256 (TextEncoder_encode verifier))).

End CryptoUtils.



(* ===================================================================== *)
(** * JavaScript string and array primitives used by the sources *)
(* ===================================================================== *)

Module JS.

Definition string_of_codes (cs : list Z) : string :=
  foldr (fun c s => String (ascii_of_Z c) s) "" cs.

Fixpoint string_rev_onto (s acc : string) : string :=
  match s with
  | EmptyString => acc
  | String a s' => string_rev_onto s' (String a acc)
  end.

Definition string_rev (s : string) : string := string_rev_onto s "".

(** The code points of [WhiteSpace] and [LineTerminator] (ECMA-262), in
    UTF-8: what [String.prototype.trim] removes. *)
Definition whitespace : list string :=
  string_of_codes <$>
    [ [0x09]; [0x0A]; [0x0B]; [0x0C]; [0x0D]; [0x20];
      [0xC2; 0xA0]; [0xE1; 0x9A; 0x80];
      [0xE2; 0x80; 0x80]; [0xE2; 0x80; 0x81]; [0xE2; 0x80; 0x82];
      [0xE2; 0x80; 0x83]; [0xE2; 0x80; 0x84]; [0xE2; 0x80; 0x85];
      [0xE2; 0x80; 0x86]; [0xE2; 0x80; 0x87]; [0xE2; 0x80; 0x88];
      [0xE2; 0x80; 0x89]; [0xE2; 0x80; 0x8A];
      [0xE2; 0x80; 0xA8]; [0xE2; 0x80; 0xA9]; [0xE2; 0x80; 0xAF];
      [0xE2; 0x81; 0x9F]; [0xE3; 0x80; 0x80]; [0xEF; 0xBB; 0xBF] ].

Fixpoint drop_prefix (p s : string) : option string :=
  match p, s with
  | EmptyString, _ => Some s
  | String a p', String b s' => if Ascii.eqb a b then drop_prefix p' s' else None
  | String _ _, EmptyString => None
  end.

Fixpoint drop_any_prefix (ps : list string) (s : string) : option string :=
  match ps with
  | [] => None
  | p :: ps' =>
      match drop_prefix p s with
      | Some s' => Some s'
      | None => drop_any_prefix ps' s
      end
  end.

Fixpoint strip (fuel : nat) (ps : list string) (s : string) : string :=
  match fuel with
  | O => s
  | S fuel' =>
      match drop_any_prefix ps s with
      | Some s' => strip fuel' ps s'
      | None => s
      end
  end.

Definition trimStart (s : string) : string :=
  strip (String.length s) whitespace s.

Definition trimEnd (s : string) : string :=
  string_rev (strip (String.length s) (string_rev <$> whitespace) (string_rev s)).

(** [s.trim()]. *)
Definition trim (s : string) : string := trimEnd (trimStart s).

(** [!x || x.trim().length === 0] for an optional string [x]: the guard
    every endpoint and token check of the sources uses. *)
Definition blank (x : option string) : bool :=
  match x with
  | None => true
  | Some s => String.eqb s "" || Nat.eqb (String.length (trim s)) 0
  end.

(** Truthiness of an optional string: [undefined] and [""] are falsy. *)
Definition truthy (x : option string) : bool :=
  match x with
  | None => false
  | Some s => negb (String.eqb s "")
  end.

(** A template-literal hole [${x}] holding an optional string. *)
Definition interpolate (x : option string) : string :=
  match x with
  | None => "undefined"
  | Some s => s
  end.

(** [arr.join(sep)]. *)
Fixpoint join (sep : string) (arr : list string) : string :=
  match arr with
  | [] => ""
  | [x] => x
  | x :: rest => x +:+ sep +:+ join sep rest
  end.

(** [arr.includes(x)]. *)
Definition includes (arr : list string) (x : string) : bool :=
  existsb (String.eqb x) arr.

(** [s.split(sep)] for a one-character separator. *)
Fixpoint split_onto (sep : ascii) (s : string) (cur : string) : list string :=
  match s with
  | EmptyString => [string_rev cur]
  | String a s' =>
      if Ascii.eqb a sep then string_rev cur :: split_onto sep s' ""
      else split_onto sep s' (String a cur)
  end.

Definition split (sep : ascii) (s : string) : list string := split_onto sep s "".

End JS.




(* ===================================================================== *)
(** * The WHATWG [URL] object, as far as the sources use it *)
(* ===================================================================== *)

Module URL.

(** A parsed URL: everything before the query, the list behind
    [searchParams], and the fragment (with its [#], or empty). *)
Record t := Make {
  base : string;
  searchParams : list (string * string);
  hash : string
}.

(** [url.searchParams.append(name, value)]. *)
Definition append (name value : string) (u : t) : t :=
  Make (base u) (searchParams u ++ [(name, value)]) (hash u).

(** [url.searchParams.get(name)]: the first value under [name]. *)
Fixpoint get_from (ps : list (string * string)) (name : string) : option string :=
  match ps with
  | [] => None
  | (k, v) :: ps' => if String.eqb k name then Some v else get_from ps' name
  end.

Definition get (u : t) (name : string) : option string :=
  get_from (searchParams u) name.

Definition hex_digit (i : Z) : ascii :=
  match String.get (Z.to_nat i) "0123456789ABCDEF" with
  | Some c => c
  | None => "0"%char
  end.

(** The application/x-www-form-urlencoded byte serializer: letters,
    digits and [*-._] stay, a space becomes [+], every other byte is
    percent-encoded. *)
Definition urlencode_byte (c : ascii) : string :=
  let n := Z_of_ascii c in
  if ((0x30 <=? n) && (n <=? 0x39)) || ((0x41 <=? n) && (n <=? 0x5A))
     || ((0x61 <=? n) && (n <=? 0x7A))
     || (n =? 0x2A) || (n =? 0x2D) || (n =? 0x2E) || (n =? 0x5F)
  then String c ""
  else if n =? 0x20 then "+"
  else String "%" (String (hex_digit (Z.shiftr n 4)) (String (hex_digit (Z.land n 15)) "")).

Fixpoint urlencode (s : string) : string :=
  match s with
  | EmptyString => ""
  | String c s' => urlencode_byte c +:+ urlencode s'
  end.

Definition serialize (ps : list (string * string)) : string :=
  JS.join "&" ((fun kv => urlencode kv.1 +:+ "=" +:+ urlencode kv.2) <$> ps).

(** [url.toString()], after [searchParams] has been written to. *)
Definition toString (u : t) : string :=
  match searchParams u with
  | [] => base u +:+ hash u
  | ps => base u +:+ "?" +:+ serialize ps +:+ hash u
  end.

End URL.


(* ===================================================================== *)
(** * Data model *)
(* ===================================================================== *)

(** [AuthClientConfig]. [endpoints] holds the explicit endpoint overrides,
    keyed like the provider metadata; [baseUrl] is the configured base URL
    of the provider. *)
Record AuthClientConfig := {
  clientID : string;
  clientSecret : option string;
  signInRedirectURL : string;
  signOutRedirectURL : option string;
  scope : option (list string);
  responseMode : option string;
  prompt : option string;
  enablePKCE : bool;
  sendCookiesInRequests : bool;
  certificate : option string;
  overrideWellEndpointConfig : bool;
  endpoints : option (gmap string string);
  baseUrl : string
}.

Definition set_scope (sc : list string) (c : AuthClientConfig) : AuthClientConfig :=
  {| clientID := clientID c; clientSecret := clientSecret c;
     signInRedirectURL := signInRedirectURL c;
     signOutRedirectURL := signOutRedirectURL c;
     scope := Some sc;
     responseMode := responseMode c; prompt := prompt c;
     enablePKCE := enablePKCE c;
     sendCookiesInRequests := sendCookiesInRequests c;
     certificate := certificate c;
     overrideWellEndpointConfig := overrideWellEndpointConfig c;
     endpoints := endpoints c; baseUrl := baseUrl c |}.

(** A value kept in temporary data: a string or a boolean. *)
Inductive StoreValue :=
  | VStr (s : string)
  | VBool (b : bool).

Definition StoreValue_truthy (v : option StoreValue) : bool :=
  match v with
  | None => false
  | Some (VStr s) => negb (String.eqb s "")
  | Some (VBool b) => b
  end.

(** A template-literal hole [${v}] holding a temporary-data value. *)
Definition StoreValue_interpolate (v : option StoreValue) : string :=
  match v with
  | None => "undefined"
  | Some (VStr s) => s
  | Some (VBool true) => "true"
  | Some (VBool false) => "false"
  end.

(** A value of [AuthorizationURLParams]: a string or a boolean. *)
Inductive ParamValue :=
  | PStr (s : string)
  | PBool (b : bool).

(** [value != ""] (loose inequality: [false] equals the empty string). *)
Definition ParamValue_ne_empty (v : ParamValue) : bool :=
  match v with
  | PStr s => negb (String.eqb s "")
  | PBool b => b
  end.

Definition ParamValue_toString (v : ParamValue) : string :=
  match v with
  | PStr s => s
  | PBool true => "true"
  | PBool false => "false"
  end.

(** [TokenResponse], the typed result of a token request. *)
Record TokenResponse := {
  accessToken : option string;
  idToken : option string;
  expiresIn : option string;
  tokenScope : option string;
  refreshToken : option string;
  tokenType : option string
}.

(** The [https.Agent] and the axios instance of the transport client. *)
Record Agent := { ca : string }.

Record AxiosInstance := {
  defaults_httpsAgent : option Agent;
  defaults_withCredentials : bool
}.

Inductive Method := GET | POST.

(** A request as it leaves the transport client. *)
Record Request := {
  method : Method;
  url : string;
  data : option string;
  headers : list (string * string);
  withCredentials : bool;
  agent : option Agent
}.

(** What the transport answers: a response (status, parsed body) or an
    [AxiosError] (code, message, response when there is one). *)
Inductive HttpResult :=
  | Fulfilled (status : Z) (body : gmap string string)
  | Rejected (code : option string) (message : string)
      (response : option (Z * gmap string string)).

(** ** Exceptions

    The exception classes are declared outside the sources at hand; each
    constructor keeps the arguments of the class constructor in source
    order. The fifth argument of [AsgardeoAuthException] receives a text in
    authentication-core.ts and the caught error in crypto-utils.ts. *)
#[local] Set Warnings "-register-all".
Inductive Exception :=
  | AsgardeoAuthException (code file method : string)
      (message : option string) (description : option (string + Exception))
      (error : option Exception)
  | AsgardeoAuthNetworkException (code file method message description : string)
      (networkErrorCode : string) (networkErrorMessage : option string)
      (networkErrorStatus : option Z)
      (networkErrorData : option (gmap string string))
  | AxiosError (code : option string) (message : string)
      (response : option (Z * gmap string string))
  | TypeError (message : string)
  | SyntaxError (message : string).

(** [error?.code], [error?.message], [error?.response?.status] and
    [error?.response?.data], as the [catch] handlers read them. *)
Definition Exception_code (e : Exception) : option string :=
  match e with
  | AsgardeoAuthException c _ _ _ _ _ => Some c
  | AsgardeoAuthNetworkException c _ _ _ _ _ _ _ _ => Some c
  | AxiosError c _ _ => c
  | TypeError _ | SyntaxError _ => None
  end.

Definition Exception_message (e : Exception) : option string :=
  match e with
  | AsgardeoAuthException _ _ _ m _ _ => m
  | AsgardeoAuthNetworkException _ _ _ m _ _ _ _ _ => Some m
  | AxiosError _ m _ => Some m
  | TypeError m | SyntaxError m => Some m
  end.

Definition Exception_response (e : Exception) : option (Z * gmap string string) :=
  match e with
  | AxiosError _ _ r => r
  | _ => None
  end.

(** The error kinds of the specification. *)
Definition is_AsgardeoAuthException (c : string) (e : Exception) : Prop :=
  match e with
  | AsgardeoAuthException c' _ _ _ _ _ => c' = c
  | _ => False
  end.

Definition is_AsgardeoAuthNetworkException (c : string) (e : Exception) : Prop :=
  match e with
  | AsgardeoAuthNetworkException c' _ _ _ _ _ _ _ _ => c' = c
  | _ => False
  end.

(* ===================================================================== *)
(** * The world an operation runs in, and the monad of async methods *)
(* ===================================================================== *)

(** The store behind one [DataLayer] instance, addressed by [instanceID]. *)
Record DataLayerStore := {
  instanceID : nat;
  configData : AuthClientConfig;
  oidcProviderMetaData : gmap string string;
  sessionData : gmap string string;
  temporaryData : gmap string StoreValue
}.

(** [HttpsClient]: the data layer it was built for (by identity), its axios
    instance and its agent. *)
Record HttpsClient_t := {
  client_dataLayer : nat;
  axiosInstance : AxiosInstance;
  httpsAgent : option Agent
}.

(** - [dataLayer]: the store of [this._dataLayer];
    - [httpsClient]: the static member [HttpsClient.httpsClient], shared by
      the whole process;
    - [network]: the requests issued so far, oldest first;
    - [random_calls]: how many times a random source was drawn from. *)
Record World := {
  dataLayer : DataLayerStore;
  httpsClient : option HttpsClient_t;
  network : list Request;
  random_calls : nat
}.

Definition set_dataLayer (d : DataLayerStore) (w : World) : World :=
  {| dataLayer := d; httpsClient := httpsClient w;
     network := network w; random_calls := random_calls w |}.

Definition set_httpsClient (c : option HttpsClient_t) (w : World) : World :=
  {| dataLayer := dataLayer w; httpsClient := c;
     network := network w; random_calls := random_calls w |}.

Definition set_network (n : list Request) (w : World) : World :=
  {| dataLayer := dataLayer w; httpsClient := httpsClient w;
     network := n; random_calls := random_calls w |}.

Definition set_random_calls (k : nat) (w : World) : World :=
  {| dataLayer := dataLayer w; httpsClient := httpsClient w;
     network := network w; random_calls := k |}.

Definition set_configData (c : AuthClientConfig) (d : DataLayerStore) : DataLayerStore :=
  {| instanceID := instanceID d; configData := c;
     oidcProviderMetaData := oidcProviderMetaData d;
     sessionData := sessionData d; temporaryData := temporaryData d |}.

Definition set_oidcProviderMetaData (m : gmap string string) (d : DataLayerStore)
  : DataLayerStore :=
  {| instanceID := instanceID d; configData := configData d;
     oidcProviderMetaData := m;
     sessionData := sessionData d; temporaryData := temporaryData d |}.

Definition set_sessionData (s : gmap string string) (d : DataLayerStore)
  : DataLayerStore :=
  {| instanceID := instanceID d; configData := configData d;
     oidcProviderMetaData := oidcProviderMetaData d;
     sessionData := s; temporaryData := temporaryData d |}.

Definition set_temporaryData (t : gmap string StoreValue) (d : DataLayerStore)
  : DataLayerStore :=
  {| instanceID := instanceID d; configData := configData d;
     oidcProviderMetaData := oidcProviderMetaData d;
     sessionData := sessionData d; temporaryData := t |}.

(** The three random sources [getCodeVerifier] chooses from. *)
Inductive RandomSource := secure_random_bytes | randombytes | WordArray_random.

(** What lies outside the sources: the network, the random sources, the
    URL parser of the platform, and the constants and data-layer policy
    the sources import.
    - [transport history request]: the transport's answer to [request]
      after the requests of [history];
    - [random_bytes source k n]: the [n] bytes the [k]-th draw yields;
    - [URL_parse s]: [new URL(s)], [None] when it throws;
    - [SIGN_OUT_SUCCESS_PARAM]: the fixed sign-out success marker;
    - [SERVICE_RESOURCES]: the fixed path suffix of each metadata name,
      [WELL_KNOWN_SUFFIX] that of the discovery document;
    - [config_by_reference]: whether [getConfigData] hands out the stored
      object itself (so that a mutation of it is kept) or a copy. *)
Record Environment := {
  transport : list Request -> Request -> HttpResult;
  random_bytes : RandomSource -> nat -> nat -> list byte;
  URL_parse : string -> option URL.t;
  SIGN_OUT_SUCCESS_PARAM : string;
  SERVICE_RESOURCES : gmap string string;
  WELL_KNOWN_SUFFIX : string;
  config_by_reference : bool
}.

Inductive Result (A : Type) :=
  | Ok (a : A)
  | Err (e : Exception).
Arguments Ok {A} a.
Arguments Err {A} e.

(** An async method: from the world before to its settlement (fulfilled or
    rejected) and the world after. *)
Definition M (A : Type) : Type := World -> Result A * World.

Definition resolve {A} (a : A) : M A := fun w => (Ok a, w).

Definition reject {A} (e : Exception) : M A := fun w => (Err e, w).

(** [await m] followed by [k]; also [m.then(k)]. *)
Definition and_then {A B} (m : M A) (k : A -> M B) : M B :=
  fun w =>
    match m w with
    | (Ok a, w') => k a w'
    | (Err e, w') => (Err e, w')
    end.

(** [m.catch(handler)], and [try { m } catch (e) { handler }]. *)
Definition catch {A} (m : M A) (handler : Exception -> M A) : M A :=
  fun w =>
    match m w with
    | (Ok a, w') => (Ok a, w')
    | (Err e, w') => handler e w'
    end.

Definition gets {A} (f : World -> A) : M A := fun w => (Ok (f w), w).

Definition modify (f : World -> World) : M unit := fun w => (Ok tt, f w).

#[global] Instance M_ret : MRet M := @resolve.
#[global] Instance M_bind : MBind M := fun A B k m => and_then m k.

(** Running an operation: its settlement and the world it leaves. *)
Definition settled {A} (r : Result A * World) : Result A := r.1.
Definition world_after {A} (r : Result A * World) : World := r.2.

(* ===================================================================== *)
(** * Constants *)
(* ===================================================================== *)

(** Modelled from the spec: the constants module is not part of the
    sources at hand. The mandatory scope is "openid"; the keys are
    the field names the data model gives to temporary data, session data
    and provider metadata. *)
Definition OIDC_SCOPE : string := "openid".
Definition PKCE_CODE_VERIFIER : string := "pkce_code_verifier".
Definition OP_CONFIG_INITIATED : string := "op_config_initiated".
Definition SESSION_STATE : string := "session_state".
Definition AUTHORIZATION_ENDPOINT : string := "authorization_endpoint".

(* ===================================================================== *)
(** * The data layer *)
(* ===================================================================== *)

(** Modelled from the spec: the [DataLayer] class is an external
    collaborator of which only the contract is given: a key-value store
    per instance with read-after-write within a call chain. *)
Module DataLayer.

Definition getConfigData : M AuthClientConfig :=
  gets (fun w => configData (dataLayer w)).

Definition setConfigData (c : AuthClientConfig) : M unit :=
  modify (fun w => set_dataLayer (set_configData c (dataLayer w)) w).

Definition getOIDCProviderMetaData : M (gmap string string) :=
  gets (fun w => oidcProviderMetaData (dataLayer w)).

Definition getOIDCProviderMetaDataParameter (name : string) : M (option string) :=
  gets (fun w => oidcProviderMetaData (dataLayer w) !! name).

Definition setOIDCProviderMetaData (m : gmap string string) : M unit :=
  modify (fun w => set_dataLayer (set_oidcProviderMetaData m (dataLayer w)) w).

Definition getSessionData : M (gmap string string) :=
  gets (fun w => sessionData (dataLayer w)).

Definition setSessionData (s : gmap string string) : M unit :=
  modify (fun w => set_dataLayer (set_sessionData s (dataLayer w)) w).

Definition setSessionDataParameter (key value : string) : M unit :=
  modify (fun w =>
    set_dataLayer
      (set_sessionData (<[key := value]> (sessionData (dataLayer w))) (dataLayer w)) w).

Definition getTemporaryDataParameter (key : string) : M (option StoreValue) :=
  gets (fun w => temporaryData (dataLayer w) !! key).

Definition setTemporaryDataParameter (key : string) (value : StoreValue) : M unit :=
  modify (fun w =>
    set_dataLayer
      (set_temporaryData (<[key := value]> (temporaryData (dataLayer w))) (dataLayer w)) w).

Definition removeTemporaryDataParameter (key : string) : M unit :=
  modify (fun w =>
    set_dataLayer
      (set_temporaryData (delete key (temporaryData (dataLayer w))) (dataLayer w)) w).

End DataLayer.

(* ===================================================================== *)
(** * HttpsClient (axios-https-client.ts) *)
(* ===================================================================== *)

Module HttpsClient.

(** [axios.create({ httpsAgent, withCredentials })]. *)
Definition axios_create (a : option Agent) (credentials : bool) : AxiosInstance :=
  {| defaults_httpsAgent := a; defaults_withCredentials := credentials |}.

(** What [getInstance] builds from a data layer when there is no instance
    yet (lines 44 to 60). *)
Definition create (d : DataLayerStore) : HttpsClient_t :=
  let configData := configData d in
  if JS.truthy (certificate configData) then
    let httpsAgent := {| ca := JS.interpolate (certificate configData) |} in
    {| client_dataLayer := instanceID d;
       axiosInstance := axios_create (Some httpsAgent) (sendCookiesInRequests configData);
       httpsAgent := Some httpsAgent |}
  else
    {| client_dataLayer := instanceID d;
       axiosInstance := axios_create None (sendCookiesInRequests configData);
       httpsAgent := None |}.

(** [HttpsClient.getInstance(dataLayer)], with the data layer of the
    calling context. *)
Definition getInstance : M HttpsClient_t :=
  fun w =>
    match httpsClient w with
    | Some c => (Ok c, w)
    | None =>
        let c := create (dataLayer w) in
        (Ok c, set_httpsClient (Some c) w)
    end.

Definition getAxios (c : HttpsClient_t) : AxiosInstance := axiosInstance c.

Definition getHttpsAgent (c : HttpsClient_t) : option Agent := httpsAgent c.

End HttpsClient.

(* ===================================================================== *)
(** * CryptoUtils: the code verifier *)
(* ===================================================================== *)

Inductive RuntimeEnvironments := Node | Browser | ReactNative.

Module Hex.

Definition digit (i : Z) : ascii :=
  match String.get (Z.to_nat i) "0123456789abcdef" with
  | Some c => c
  | None => "0"%char
  end.

(** [WordArray.toString()]: lower-case hexadecimal. *)
Fixpoint stringify (bs : list byte) : string :=
  match bs with
  | [] => ""
  | b :: bs' =>
      String (digit (Z.shiftr (Z_of_byte b) 4))
        (String (digit (Z.land (Z_of_byte b) 15)) (stringify bs'))
  end.

End Hex.

(** [CryptoUtils.getCodeVerifier(env)] (crypto-utils.ts, line 49); [draw]
    gives the 32 octets each random source yields at this call. The
    source of the Node environment (secure-random-bytes) hands them out
    as a string, one character per octet, which [base64url.encode] then
    reads as UTF-8; [randombytes] hands out a buffer, and the word array
    is turned into its hexadecimal text. *)
Definition getCodeVerifier (draw : RandomSource -> nat -> list byte)
    (env : option RuntimeEnvironments) : string :=
  match env with
  | Some Node =>
      CryptoUtils.base64URLEncode
        (IsString (String_fromCharCodes (draw secure_random_bytes 32%nat)))
  | Some Browser =>
      CryptoUtils.base64URLEncode (IsBuffer (draw randombytes 32%nat))
  | Some ReactNative =>
      CryptoUtils.base64URLEncode
        (IsString (Hex.stringify (draw WordArray_random 32%nat)))
  | None =>
      CryptoUtils.base64URLEncode (IsBuffer (draw randombytes 32%nat))
  end.

(* ===================================================================== *)
(** * The authentication engine (authentication-core.ts) *)
(* ===================================================================== *)

Section AuthenticationCore.

Variable env : Environment.

(** ** The transport: the axios instance of the HttpsClient *)

Definition send (r : Request) : M (Z * gmap string string) :=
  fun w =>
    let w' := set_network (network w ++ [r]) w in
    match transport env (network w) r with
    | Fulfilled status body => (Ok (status, body), w')
    | Rejected c m resp => (Err (AxiosError c m resp), w')
    end.

(** [instance.get(url)]. *)
Definition axios_get (instance : AxiosInstance) (target : string)
  : M (Z * gmap string string) :=
  send {| method := GET; url := target; data := None; headers := [];
          withCredentials := defaults_withCredentials instance;
          agent := defaults_httpsAgent instance |}.

(** [instance.post(url, body, { headers, withCredentials })]. *)
Definition axios_post (instance : AxiosInstance) (target body : string)
    (hs : list (string * string)) (credentials : bool)
  : M (Z * gmap string string) :=
  send {| method := POST; url := target; data := Some body; headers := hs;
          withCredentials := credentials;
          agent := defaults_httpsAgent instance |}.

(** ** AuthenticationUtils and AuthenticationHelper *)

(** Modelled from the spec: [AuthenticationUtils.getTokenRequestHeaders]
    is not part of the sources at hand; token requests are sent with the
    form content type. *)
Definition getTokenRequestHeaders : list (string * string) :=
  [("Content-Type", "application/x-www-form-urlencoded")].

(** Modelled from the spec: [AuthenticationHelper.resolveWellKnownEndpoint]
    is not part of the sources at hand; the discovery URL is the base URL
    followed by the fixed discovery suffix. *)
Definition resolveWellKnownEndpoint : M string :=
  configData ← DataLayer.getConfigData;
  resolve (baseUrl configData +:+ WELL_KNOWN_SUFFIX env).

(** Modelled from the spec: [AuthenticationHelper.resolveEndpoints] is not
    part of the sources at hand; the parsed metadata is merged with the
    explicit endpoint overrides of the configuration, overrides taking
    precedence. *)
Definition resolveEndpoints (response : gmap string string)
  : M (gmap string string) :=
  configData ← DataLayer.getConfigData;
  resolve (match endpoints configData with
           | Some overrides => overrides ∪ response
           | None => response
           end).

(** Modelled from the spec: [AuthenticationHelper.resolveFallbackEndpoints]
    is not part of the sources at hand; each endpoint name maps to the
    configured base URL followed by its fixed path suffix. *)
Definition resolveFallbackEndpoints : M (gmap string string) :=
  configData ← DataLayer.getConfigData;
  resolve ((fun suffix => baseUrl configData +:+ suffix) <$> SERVICE_RESOURCES env).

(** Modelled from the spec: [AuthenticationHelper.clearUserSessionData] is
    not part of the sources at hand; it clears all session state. *)
Definition clearUserSessionData : M unit :=
  DataLayer.setSessionData ∅.

(** Modelled from the spec: [AuthenticationHelper.handleTokenResponse] is
    not part of the sources at hand; session materialization stores the
    raw token response body verbatim as the new SessionData and returns
    the typed token result. *)
Definition handleTokenResponse (response : Z * gmap string string)
  : M TokenResponse :=
  DataLayer.setSessionData response.2;;
  resolve {| accessToken := response.2 !! "access_token";
             idToken := response.2 !! "id_token";
             expiresIn := response.2 !! "expires_in";
             tokenScope := response.2 !! "scope";
             refreshToken := response.2 !! "refresh_token";
             tokenType := response.2 !! "token_type" |}.

(** ** The members of the class *)

Definition _config : M AuthClientConfig := DataLayer.getConfigData.

Definition _oidcProviderMetaData : M (gmap string string) :=
  DataLayer.getOIDCProviderMetaData.

Definition _httpsClient : M HttpsClient_t := HttpsClient.getInstance.

(** [new URL(s)]: throws a [TypeError] on an invalid URL. *)
Definition new_URL (s : string) : M URL.t :=
  match URL_parse env s with
  | Some u => resolve u
  | None => reject (TypeError "Invalid URL")
  end.

(** [CryptoUtils.getCodeVerifier()] at the current draw of the random
    sources. *)
Definition draw_code_verifier (e : option RuntimeEnvironments) : M string :=
  fun w =>
    (Ok (getCodeVerifier (fun src n => random_bytes env src (random_calls w) n) e),
     set_random_calls (S (random_calls w)) w).

(** [configData.scope.push(OIDC_SCOPE)]: the array of the local
    [configData] grows; when the data layer hands out its stored object,
    that is the same array. *)
Definition push_scope (configData : AuthClientConfig) (sc : list string)
  : M AuthClientConfig :=
  let configData' := set_scope (sc ++ [OIDC_SCOPE]) configData in
  if config_by_reference env
  then DataLayer.setConfigData configData';; resolve configData'
  else resolve configData'.

(** The loop over [Object.entries(customParams)] (lines 112 to 116). *)
Definition append_customParams (customParams : list (string * ParamValue))
    (u : URL.t) : URL.t :=
  foldl (fun u kv =>
           if negb (String.eqb kv.1 "") && ParamValue_ne_empty kv.2
           then URL.append kv.1 (ParamValue_toString kv.2) u
           else u)
        u customParams.

(** [getAuthorizationURL(config)] up to the final [toString]: the
    [authorizeRequest] URL object (lines 60 to 117). *)
Definition authorizeRequest (config : option (list (string * ParamValue)))
  : M URL.t :=
  authorizeEndpoint ← DataLayer.getOIDCProviderMetaDataParameter AUTHORIZATION_ENDPOINT;
  configData ← _config;
  if JS.blank authorizeEndpoint then
    reject (AsgardeoAuthException
              "AUTH_CORE-GAU-NF01" "authentication-core" "getAuthorizationURL"
              (Some "No authorization endpoint found.")
              (Some (inl ("No authorization endpoint was found in the OIDC provider meta data from the well-known endpoint "
                          +:+ "or the authorization endpoint passed to the SDK is empty.")))
              None)
  else
    authorizeRequest ← new_URL (JS.interpolate authorizeEndpoint);
    let authorizeRequest := URL.append "response_type" "code" authorizeRequest in
    let authorizeRequest := URL.append "client_id" (clientID configData) authorizeRequest in
    '(configData, scope) ←
      match scope configData with
      | Some sc =>
          if (0 <? length sc)%nat then
            if negb (JS.includes sc OIDC_SCOPE) then
              configData' ← push_scope configData sc;
              resolve (configData', JS.join " " (sc ++ [OIDC_SCOPE]))
            else resolve (configData, JS.join " " sc)
          else resolve (configData, OIDC_SCOPE)
      | None => resolve (configData, OIDC_SCOPE)
      end;
    let authorizeRequest := URL.append "scope" scope authorizeRequest in
    let authorizeRequest :=
      URL.append "redirect_uri" (signInRedirectURL configData) authorizeRequest in
    let authorizeRequest :=
      if JS.truthy (responseMode configData)
      then URL.append "response_mode" (JS.interpolate (responseMode configData))
             authorizeRequest
      else authorizeRequest in
    authorizeRequest ←
      (if enablePKCE configData then
         codeVerifier ← draw_code_verifier None;
         let codeChallenge := CryptoUtils.getCodeChallenge codeVerifier in
         DataLayer.setTemporaryDataParameter PKCE_CODE_VERIFIER (VStr codeVerifier);;
         resolve (URL.append "code_challenge" codeChallenge
                    (URL.append "code_challenge_method" "S256" authorizeRequest))
       else resolve authorizeRequest);
    let authorizeRequest :=
      if JS.truthy (prompt configData)
      then URL.append "prompt" (JS.interpolate (prompt configData)) authorizeRequest
      else authorizeRequest in
    let authorizeRequest :=
      match config with
      | Some customParams => append_customParams customParams authorizeRequest
      | None => authorizeRequest
      end in
    resolve authorizeRequest.

(** [getAuthorizationURL(config)] (line 59). *)
Definition getAuthorizationURL (config : option (list (string * ParamValue)))
  : M string :=
  authorizeRequest ← authorizeRequest config;
  resolve (URL.toString authorizeRequest).

(** [x && x.trim().length > 0] for an optional string [x]. *)
Definition has_text (x : option string) : bool :=
  match x with
  | None => false
  | Some s => negb (String.eqb s "") && (0 <? String.length (JS.trim s))%nat
  end.

(** The [catch] handler closing every request chain: whatever was raised
    is wrapped into a network exception. *)
Definition network_exception (code method message description : string)
    (error : Exception) : Exception :=
  AsgardeoAuthNetworkException code "authentication-core" method message description
    (default "" (Exception_code error))
    (Exception_message error)
    (fst <$> Exception_response error)
    (snd <$> Exception_response error).

(** [requestAccessToken(authorizationCode, sessionState)] (line 122). *)
Definition requestAccessToken (authorizationCode : string)
    (sessionState : option string) : M TokenResponse :=
  metadata ← _oidcProviderMetaData;
  let tokenEndpoint := metadata !! "token_endpoint" in
  configData ← _config;
  if JS.blank tokenEndpoint then
    reject (AsgardeoAuthException
              "AUTH_CORE-RAT1-NF01" "authentication-core" "requestAccessToken"
              (Some "Token endpoint not found.")
              (Some (inl ("No token endpoint was found in the OIDC provider meta data returned by the well-known endpoint "
                          +:+ "or the token endpoint passed to the SDK is empty.")))
              None)
  else
    (if JS.truthy sessionState
     then DataLayer.setSessionDataParameter SESSION_STATE (JS.interpolate sessionState)
     else resolve tt);;
    let body := [] in
    let body := body ++ ["client_id=" +:+ clientID configData] in
    let body :=
      if has_text (clientSecret configData)
      then body ++ ["client_secret=" +:+ JS.interpolate (clientSecret configData)]
      else body in
    let code := authorizationCode in
    let body := body ++ ["code=" +:+ code] in
    let body := body ++ ["grant_type=authorization_code"] in
    let body := body ++ ["redirect_uri=" +:+ signInRedirectURL configData] in
    body ←
      (if enablePKCE configData then
         codeVerifier ← DataLayer.getTemporaryDataParameter PKCE_CODE_VERIFIER;
         DataLayer.removeTemporaryDataParameter PKCE_CODE_VERIFIER;;
         resolve (body ++ ["code_verifier=" +:+ StoreValue_interpolate codeVerifier])
       else resolve body);
    httpsClient ← _httpsClient;
    catch
      (response ← axios_post (HttpsClient.getAxios httpsClient)
                     (JS.interpolate tokenEndpoint) (JS.join "&" body)
                     getTokenRequestHeaders (sendCookiesInRequests configData);
       catch (handleTokenResponse response)
         (fun error =>
            reject (AsgardeoAuthException
                      "AUTH_CORE-RAT1-ES02" "authentication-core" "requestAccessToken"
                      None None (Some error))))
      (fun error =>
         reject (network_exception
                   "AUTH_CORE-RAT1-NR03" "requestAccessToken"
                   "Requesting access token failed"
                   "The request to get the access token from the server failed."
                   error)).

(** [refreshAccessToken()] (line 200). *)
Definition refreshAccessToken : M TokenResponse :=
  metadata ← _oidcProviderMetaData;
  let tokenEndpoint := metadata !! "token_endpoint" in
  configData ← _config;
  sessionData ← DataLayer.getSessionData;
  if negb (JS.truthy (sessionData !! "refresh_token")) then
    reject (AsgardeoAuthException
              "AUTH_CORE-RAT2-NF01" "authentication-core" "refreshAccessToken"
              (Some "No refresh token found.")
              (Some (inl ("There was no refresh token found. Asgardeo doesn't return a "
                          +:+ "refresh token if the refresh token grant is not enabled.")))
              None)
  else if JS.blank tokenEndpoint then
    reject (AsgardeoAuthException
              "AUTH_CORE-RAT2-NF02" "authentication-core" "refreshAccessToken"
              (Some "No refresh token endpoint found.")
              (Some (inl ("No refresh token endpoint was in the OIDC provider meta data returned by the well-known "
                          +:+ "endpoint or the refresh token endpoint passed to the SDK is empty.")))
              None)
  else
    let body := [] in
    let body := body ++ ["client_id=" +:+ clientID configData] in
    let body :=
      body ++ ["refresh_token=" +:+ JS.interpolate (sessionData !! "refresh_token")] in
    let body := body ++ ["grant_type=refresh_token"] in
    let body :=
      if has_text (clientSecret configData)
      then body ++ ["client_secret=" +:+ JS.interpolate (clientSecret configData)]
      else body in
    httpsClient ← _httpsClient;
    catch
      (response ← axios_post (HttpsClient.getAxios httpsClient)
                     (JS.interpolate tokenEndpoint) (JS.join "&" body)
                     getTokenRequestHeaders (sendCookiesInRequests configData);
       catch (handleTokenResponse response)
         (fun error =>
            reject (AsgardeoAuthException
                      "AUTH_CORE-RAT2-ES03" "authentication-core" "refreshAccessToken"
                      None None (Some error))))
      (fun error =>
         reject (network_exception
                   "AUTH_CORE-RAT2-NR03" "refreshAccessToken"
                   "Refresh access token request failed."
                   "The request to refresh the access token failed."
                   error)).

(** [revokeAccessToken()] (line 281). *)
Definition revokeAccessToken : M (Z * gmap string string) :=
  metadata ← _oidcProviderMetaData;
  let revokeTokenEndpoint := metadata !! "revocation_endpoint" in
  configData ← _config;
  if JS.blank revokeTokenEndpoint then
    reject (AsgardeoAuthException
              "AUTH_CORE-RAT3-NF01" "authentication-core" "revokeAccessToken"
              (Some "No revoke access token endpoint found.")
              (Some (inl ("No revoke access token endpoint was found in the OIDC provider meta data returned by "
                          +:+ "the well-known endpoint or the revoke access token endpoint passed to the SDK is empty.")))
              None)
  else
    let body := [] in
    let body := body ++ ["client_id=" +:+ clientID configData] in
    sessionData ← DataLayer.getSessionData;
    let body := body ++ ["token=" +:+ JS.interpolate (sessionData !! "access_token")] in
    let body := body ++ ["token_type_hint=access_token"] in
    httpsClient ← _httpsClient;
    catch
      (response ← axios_post (HttpsClient.getAxios httpsClient)
                     (JS.interpolate revokeTokenEndpoint) (JS.join "&" body)
                     getTokenRequestHeaders (sendCookiesInRequests configData);
       if negb (response.1 =? 200) then
         reject (AsgardeoAuthException
                   "AUTH_CORE-RAT3-NR02" "authentication-core" "revokeAccessToken"
                   (Some "Invalid response status received for revoke access token request.")
                   (Some (inl ("The request sent to revoke the access token returned "
                               +:+ pretty response.1 +:+ " , which is invalid.")))
                   None)
       else
         clearUserSessionData;;
         resolve response)
      (fun error =>
         reject (network_exception
                   "AUTH_CORE-RAT3-NR03" "revokeAccessToken"
                   "The request to revoke access token failed."
                   "The request sent to revoke the access token failed."
                   error)).

(** [getOIDCProviderMetaData(forceInit)] (line 486). *)
Definition getOIDCProviderMetaData (forceInit : bool) : M bool :=
  cached ←
    ((if negb forceInit then
        initiated ← DataLayer.getTemporaryDataParameter OP_CONFIG_INITIATED;
        resolve (StoreValue_truthy initiated)
      else resolve false) : M bool);
  if (cached : bool) then resolve true
  else
    wellKnownEndpoint ← resolveWellKnownEndpoint;
    httpsClient ← _httpsClient;
    catch
      (response ← axios_get (HttpsClient.getAxios httpsClient) wellKnownEndpoint;
       if negb (response.1 =? 200) then
         reject (AsgardeoAuthException
                   "AUTH_CORE-GOPM-NR01" "authentication-core" "getOIDCProviderMetaData"
                   (Some "Invalid response status received for OIDC provider meta data request.")
                   (Some (inl ("The request sent to the well-known endpoint to get the OIDC provider meta data returned "
                               +:+ pretty response.1 +:+ " , which is invalid.")))
                   None)
       else
         resolved ← resolveEndpoints response.2;
         DataLayer.setOIDCProviderMetaData resolved;;
         DataLayer.setTemporaryDataParameter OP_CONFIG_INITIATED (VBool true);;
         resolve true)
      (fun _ =>
         fallback ← resolveFallbackEndpoints;
         DataLayer.setOIDCProviderMetaData fallback;;
         DataLayer.setTemporaryDataParameter OP_CONFIG_INITIATED (VBool true);;
         resolve true).

(** [getSignOutURL()] (line 547). *)
Definition getSignOutURL : M string :=
  metadata ← _oidcProviderMetaData;
  let logoutEndpoint := metadata !! "end_session_endpoint" in
  configData ← _config;
  if JS.blank logoutEndpoint then
    reject (AsgardeoAuthException
              "AUTH_CORE-GSOU-NF01" "authentication-core" "getSignOutURL"
              (Some "Sign-out endpoint not found.")
              (Some (inl ("No sign-out endpoint was found in the OIDC provider meta data returned by the well-known endpoint "
                          +:+ "or the sign-out endpoint passed to the SDK is empty.")))
              None)
  else
    sessionData ← DataLayer.getSessionData;
    let idToken := sessionData !! "id_token" in
    if JS.blank idToken then
      reject (AsgardeoAuthException
                "AUTH_CORE-GSOU-NF02" "authentication-core" "getSignOutURL"
                (Some "ID token not found.")
                (Some (inl "No ID token could be found. Either the session information is lost or you have not signed in."))
                None)
    else
      let callbackURL :=
        match signOutRedirectURL configData with
        | Some u => Some u
        | None => Some (signInRedirectURL configData)
        end in
      if JS.blank callbackURL then
        reject (AsgardeoAuthException
                  "AUTH_CORE-GSOU-NF03" "authentication-core" "getSignOutURL"
                  (Some "No sign-out redirect URL found.")
                  (Some (inl ("The sign-out redirect URL cannot be found or the URL passed to the SDK is empty. "
                              +:+ "No sign-in redirect URL has been found either. ")))
                  None)
      else
        let logoutCallback :=
          (JS.interpolate logoutEndpoint +:+ "?")
          +:+ ("id_token_hint=" +:+ JS.interpolate idToken)
          +:+ ("&post_logout_redirect_uri=" +:+ JS.interpolate callbackURL +:+ "&state=")
          +:+ SIGN_OUT_SUCCESS_PARAM env in
        resolve logoutCallback.

(** [signOut()] (line 596). *)
Definition signOut : M string :=
  signOutURL ← getSignOutURL;
  clearUserSessionData;;
  resolve signOutURL.

(** [getAccessToken()], [isAuthenticated()], [getIDToken()],
    [getPKCECode()] and [setPKCECode(pkce)]. *)
Definition getAccessToken : M (option string) :=
  sessionData ← DataLayer.getSessionData;
  resolve (sessionData !! "access_token").

Definition isAuthenticated : M bool :=
  token ← getAccessToken;
  resolve (JS.truthy token).

Definition getIDToken : M (option string) :=
  sessionData ← DataLayer.getSessionData;
  resolve (sessionData !! "id_token").

Definition getPKCECode : M (option StoreValue) :=
  DataLayer.getTemporaryDataParameter PKCE_CODE_VERIFIER.

Definition setPKCECode (pkce : string) : M unit :=
  DataLayer.setTemporaryDataParameter PKCE_CODE_VERIFIER (VStr pkce).

End AuthenticationCore.

(* ===================================================================== *)
(** * [JSON.parse] *)
(* ===================================================================== *)

Module JSON.

(** A parsed JSON text. A number keeps its lexeme; an object keeps its
    members in source order (a property read takes the last one of a
    name). *)
Inductive t :=
  | Null
  | Bool (b : bool)
  | Number (lexeme : string)
  | Str (s : string)
  | Array (elements : list t)
  | Object (members : list (string * t)).

Inductive token :=
  | LBrace | RBrace | LBracket | RBracket | Colon | Comma
  | TStr (s : string)
  | TNum (lexeme : string)
  | TTrue | TFalse | TNull.

(** ** The lexer, one character at a time *)

Inductive num_state :=
  | NMinus | NZero | NInt | NDot | NFrac | NExp | NExpSign | NExpDigits.

Definition num_final (n : num_state) : bool :=
  match n with
  | NZero | NInt | NFrac | NExpDigits => true
  | _ => false
  end.

Definition is_digit (c : ascii) : bool :=
  (0x30 <=? Z_of_ascii c) && (Z_of_ascii c <=? 0x39).

Definition is_digit19 (c : ascii) : bool :=
  (0x31 <=? Z_of_ascii c) && (Z_of_ascii c <=? 0x39).

Definition is_e (c : ascii) : bool := Ascii.eqb c "e" || Ascii.eqb c "E".

Definition is_sign (c : ascii) : bool := Ascii.eqb c "+" || Ascii.eqb c "-".

(** How [c] continues a number, [None] when it cannot. *)
Definition num_step (n : num_state) (c : ascii) : option num_state :=
  match n with
  | NMinus =>
      if Ascii.eqb c "0" then Some NZero
      else if is_digit19 c then Some NInt else None
  | NZero =>
      if Ascii.eqb c "." then Some NDot
      else if is_e c then Some NExp else None
  | NInt =>
      if is_digit c then Some NInt
      else if Ascii.eqb c "." then Some NDot
      else if is_e c then Some NExp else None
  | NDot => if is_digit c then Some NFrac else None
  | NFrac =>
      if is_digit c then Some NFrac
      else if is_e c then Some NExp else None
  | NExp =>
      if is_sign c then Some NExpSign
      else if is_digit c then Some NExpDigits else None
  | NExpSign => if is_digit c then Some NExpDigits else None
  | NExpDigits => if is_digit c then Some NExpDigits else None
  end.

(** - [LStr acc pend]: inside a string; [acc] holds its bytes so far,
      newest first, [pend] a high surrogate read from a [\u] escape and
      not yet paired;
    - [LEsc], [LUni]: after a backslash, and after [\u] with the
      hexadecimal digits read so far;
    - [LNum acc n]: inside a number; [LLit rest tok]: inside a literal
      name of which [rest] is still to come. *)
Inductive lex_state :=
  | LStart
  | LStr (acc : string) (pend : option Z)
  | LEsc (acc : string) (pend : option Z)
  | LUni (acc : string) (pend : option Z) (digits : list Z)
  | LNum (acc : string) (n : num_state)
  | LLit (rest : string) (tok : token).

Definition hex_value (c : ascii) : option Z :=
  let n := Z_of_ascii c in
  if (0x30 <=? n) && (n <=? 0x39) then Some (n - 0x30)
  else if (0x41 <=? n) && (n <=? 0x46) then Some (n - 0x41 + 10)
  else if (0x61 <=? n) && (n <=? 0x66) then Some (n - 0x61 + 10)
  else None.

(** The UTF-8 bytes of a code point (a lone surrogate is written in the
    same three-byte form). *)
Definition utf8_encode (cp : Z) : list Z :=
  if cp <? 0x80 then [cp]
  else if cp <? 0x800 then
    [Z.lor 0xC0 (Z.shiftr cp 6); Z.lor 0x80 (Z.land cp 63)]
  else if cp <? 0x10000 then
    [Z.lor 0xE0 (Z.shiftr cp 12); Z.lor 0x80 (Z.land (Z.shiftr cp 6) 63);
     Z.lor 0x80 (Z.land cp 63)]
  else
    [Z.lor 0xF0 (Z.shiftr cp 18); Z.lor 0x80 (Z.land (Z.shiftr cp 12) 63);
     Z.lor 0x80 (Z.land (Z.shiftr cp 6) 63); Z.lor 0x80 (Z.land cp 63)].

(** Push the bytes [bs] onto the newest-first accumulator. *)
Definition push_bytes (bs : list Z) (acc : string) : string :=
  foldl (fun acc b => String (ascii_of_Z b) acc) acc bs.

Definition flush (pend : option Z) (acc : string) : string :=
  match pend with
  | Some hi => push_bytes (utf8_encode hi) acc
  | None => acc
  end.

Definition is_high_surrogate (u : Z) : bool := (0xD800 <=? u) && (u <=? 0xDBFF).
Definition is_low_surrogate (u : Z) : bool := (0xDC00 <=? u) && (u <=? 0xDFFF).

(** A [\uXXXX] escape has been read as the code unit [u]. *)
Definition code_unit (acc : string) (pend : option Z) (u : Z) : lex_state :=
  match pend with
  | Some hi =>
      if is_low_surrogate u then
        LStr (push_bytes (utf8_encode (0x10000 + (hi - 0xD800) * 0x400 + (u - 0xDC00))) acc)
             None
      else if is_high_surrogate u then LStr (flush pend acc) (Some u)
      else LStr (push_bytes (utf8_encode u) (flush pend acc)) None
  | None =>
      if is_high_surrogate u then LStr acc (Some u)
      else LStr (push_bytes (utf8_encode u) acc) None
  end.

Definition is_ws (c : ascii) : bool :=
  let n := Z_of_ascii c in
  (n =? 0x20) || (n =? 0x09) || (n =? 0x0A) || (n =? 0x0D).

Definition start_step (c : ascii) (toks : list token)
  : option (lex_state * list token) :=
  if is_ws c then Some (LStart, toks)
  else if Ascii.eqb c "{" then Some (LStart, LBrace :: toks)
  else if Ascii.eqb c "}" then Some (LStart, RBrace :: toks)
  else if Ascii.eqb c "[" then Some (LStart, LBracket :: toks)
  else if Ascii.eqb c "]" then Some (LStart, RBracket :: toks)
  else if Ascii.eqb c ":" then Some (LStart, Colon :: toks)
  else if Ascii.eqb c "," then Some (LStart, Comma :: toks)
  else if Ascii.eqb c dquote then Some (LStr "" None, toks)
  else if Ascii.eqb c "-" then Some (LNum "-" NMinus, toks)
  else if Ascii.eqb c "0" then Some (LNum "0" NZero, toks)
  else if is_digit19 c then Some (LNum (String c "") NInt, toks)
  else if Ascii.eqb c "t" then Some (LLit "rue" TTrue, toks)
  else if Ascii.eqb c "f" then Some (LLit "alse" TFalse, toks)
  else if Ascii.eqb c "n" then Some (LLit "ull" TNull, toks)
  else None.

Definition escape_step (acc : string) (pend : option Z) (c : ascii)
  : option lex_state :=
  let plain b := Some (LStr (String (ascii_of_Z b) (flush pend acc)) None) in
  if Ascii.eqb c dquote || Ascii.eqb c "\" || Ascii.eqb c "/"
  then Some (LStr (String c (flush pend acc)) None)
  else if Ascii.eqb c "b" then plain 0x08
  else if Ascii.eqb c "f" then plain 0x0C
  else if Ascii.eqb c "n" then plain 0x0A
  else if Ascii.eqb c "r" then plain 0x0D
  else if Ascii.eqb c "t" then plain 0x09
  else if Ascii.eqb c "u" then Some (LUni acc pend [])
  else None.

Definition lex_step (st : lex_state) (c : ascii) (toks : list token)
  : option (lex_state * list token) :=
  match st with
  | LStart => start_step c toks
  | LStr acc pend =>
      if Ascii.eqb c dquote then
        Some (LStart, TStr (JS.string_rev (flush pend acc)) :: toks)
      else if Ascii.eqb c "\" then Some (LEsc acc pend, toks)
      else if Z_of_ascii c <? 0x20 then None
      else Some (LStr (String c (flush pend acc)) None, toks)
  | LEsc acc pend =>
      match escape_step acc pend c with
      | Some st' => Some (st', toks)
      | None => None
      end
  | LUni acc pend digits =>
      match hex_value c with
      | Some h =>
          match digits with
          | [d0; d1; d2] =>
              Some (code_unit acc pend (((d0 * 16 + d1) * 16 + d2) * 16 + h), toks)
          | _ => Some (LUni acc pend (digits ++ [h]), toks)
          end
      | None => None
      end
  | LNum acc n =>
      match num_step n c with
      | Some n' => Some (LNum (String c acc) n', toks)
      | None =>
          if num_final n then start_step c (TNum (JS.string_rev acc) :: toks)
          else None
      end
  | LLit rest tok =>
      match rest with
      | String r rest' =>
          if Ascii.eqb c r then
            match rest' with
            | EmptyString => Some (LStart, tok :: toks)
            | _ => Some (LLit rest' tok, toks)
            end
          else None
      | EmptyString => None
      end
  end.

(** The tokens of a text, newest first. *)
Fixpoint lex (s : string) (st : lex_state) (toks : list token)
  : option (list token) :=
  match s with
  | EmptyString =>
      match st with
      | LStart => Some toks
      | LNum acc n =>
          if num_final n then Some (TNum (JS.string_rev acc) :: toks) else None
      | _ => None
      end
  | String c s' =>
      match lex_step st c toks with
      | Some (st', toks') => lex s' st' toks'
      | None => None
      end
  end.

(** ** The parser, one token at a time *)

(** An open array with its elements so far, or an open object with its
    members so far and the name waiting for its value; newest first. *)
Inductive frame :=
  | FArr (elements : list t)
  | FObj (members : list (string * t)) (key : option string).

Inductive expect :=
  | EValue | EValueOrClose | EKeyOrClose | EKey | EColon | ECommaOrClose
  | EDone (v : t).

(** A value [v] is complete: it goes into the innermost open container,
    or is the result. *)
Definition deliver (v : t) (stack : list frame) : option (expect * list frame) :=
  match stack with
  | [] => Some (EDone v, [])
  | FArr els :: stack' => Some (ECommaOrClose, FArr (v :: els) :: stack')
  | FObj ms (Some k) :: stack' =>
      Some (ECommaOrClose, FObj ((k, v) :: ms) None :: stack')
  | FObj _ None :: _ => None
  end.

Definition close_array (stack : list frame) : option (expect * list frame) :=
  match stack with
  | FArr els :: stack' => deliver (Array (rev els)) stack'
  | _ => None
  end.

Definition close_object (stack : list frame) : option (expect * list frame) :=
  match stack with
  | FObj ms None :: stack' => deliver (Object (rev ms)) stack'
  | _ => None
  end.

Definition value_step (tok : token) (stack : list frame)
  : option (expect * list frame) :=
  match tok with
  | LBracket => Some (EValueOrClose, FArr [] :: stack)
  | LBrace => Some (EKeyOrClose, FObj [] None :: stack)
  | TStr s => deliver (Str s) stack
  | TNum n => deliver (Number n) stack
  | TTrue => deliver (Bool true) stack
  | TFalse => deliver (Bool false) stack
  | TNull => deliver Null stack
  | _ => None
  end.

Definition key_step (tok : token) (stack : list frame)
  : option (expect * list frame) :=
  match tok, stack with
  | TStr k, FObj ms None :: stack' => Some (EColon, FObj ms (Some k) :: stack')
  | _, _ => None
  end.

Definition parse_step (e : expect) (tok : token) (stack : list frame)
  : option (expect * list frame) :=
  match e with
  | EValue => value_step tok stack
  | EValueOrClose =>
      match tok with
      | RBracket => close_array stack
      | _ => value_step tok stack
      end
  | EKeyOrClose =>
      match tok with
      | RBrace => close_object stack
      | _ => key_step tok stack
      end
  | EKey => key_step tok stack
  | EColon =>
      match tok with
      | Colon => Some (EValue, stack)
      | _ => None
      end
  | ECommaOrClose =>
      match tok, stack with
      | Comma, FArr _ :: _ => Some (EValue, stack)
      | Comma, FObj _ _ :: _ => Some (EKey, stack)
      | RBracket, _ => close_array stack
      | RBrace, _ => close_object stack
      | _, _ => None
      end
  | EDone _ => None
  end.

Fixpoint parse_tokens (toks : list token) (e : expect) (stack : list frame)
  : option t :=
  match toks with
  | [] =>
      match e with
      | EDone v => Some v
      | _ => None
      end
  | tok :: toks' =>
      match parse_step e tok stack with
      | Some (e', stack') => parse_tokens toks' e' stack'
      | None => None
      end
  end.

(** [JSON.parse(text)]; [None] when it throws a [SyntaxError]. *)
Definition parse (text : string) : option t :=
  match lex text LStart [] with
  | Some toks => parse_tokens (rev toks) EValue []
  | None => None
  end.

End JSON.

(* ===================================================================== *)
(** * CryptoUtils: decoding the ID token *)
(* ===================================================================== *)

(** The [try] block of [decodeIDToken] (crypto-utils.ts, lines 173 to
    176). [idToken.split(".")[1]] is [undefined] when the token has no
    dot, and [base64url.decode] then throws a [TypeError]. *)
Definition decodeIDToken_try (idToken : string) : Exception + JSON.t :=
  match JS.split "." idToken !! 1%nat with
  | None => inl (TypeError "Cannot read properties of undefined (reading 'toString')")
  | Some segment =>
      let utf8String := base64url.decode segment in
      match JSON.parse utf8String with
      | Some payload => inr payload
      | None => inl (SyntaxError "Unexpected token in JSON")
      end
  end.

(** [CryptoUtils.decodeIDToken(idToken)] (crypto-utils.ts, line 171). *)
Definition decodeIDToken (idToken : string) : Result JSON.t :=
  match decodeIDToken_try idToken with
  | inr payload => Ok payload
  | inl error =>
      Err (AsgardeoAuthException
             "CRYPTO_UTIL-DIT-IV01" "crypto-utils" "decodeIDToken"
             (Some "Decoding ID token failed.") (Some (inr error)) None)
  end.

(* ===================================================================== *)
(** * Running several calls, and sample data *)
(* ===================================================================== *)

(** Successive calls of [getAuthorizationURL] against one context, one
    per entry of [configs]; the settlements in call order. *)
Fixpoint successive_getAuthorizationURL (env : Environment)
    (configs : list (option (list (string * ParamValue)))) (w : World)
  : list (Result string) * World :=
  match configs with
  | [] => ([], w)
  | config :: configs' =>
      let r := getAuthorizationURL env config w in
      let rs := successive_getAuthorizationURL env configs' (world_after r) in
      (settled r :: rs.1, rs.2)
  end.

(** ** Base64url without padding, as RFC 4648 section 5 words it

    The encoding the claims name, written down on its own: the URL-safe
    alphabet, three bytes to four characters, and no padding for a last
    group of one or two bytes. *)
Module Base64URL.

Definition alphabet : string :=
  "ABCDEFGHIJKLMNOPQRSTUVWXYZabcdefghijklmnopqrstuvwxyz0123456789-_".

Definition digit (i : Z) : ascii :=
  match String.get (Z.to_nat i) alphabet with
  | Some c => c
  | None => "_"%char
  end.

Fixpoint encode (bs : list Z) : string :=
  match bs with
  | [] => ""
  | [b0] =>
      String (digit (Z.shiftr b0 2))
        (String (digit (Z.shiftl (Z.land b0 3) 4)) "")
  | [b0; b1] =>
      String (digit (Z.shiftr b0 2))
        (String (digit (Z.lor (Z.shiftl (Z.land b0 3) 4) (Z.shiftr b1 4)))
           (String (digit (Z.shiftl (Z.land b1 15) 2)) ""))
  | b0 :: b1 :: b2 :: rest =>
      String (digit (Z.shiftr b0 2))
        (String (digit (Z.lor (Z.shiftl (Z.land b0 3) 4) (Z.shiftr b1 4)))
           (String (digit (Z.lor (Z.shiftl (Z.land b1 15) 2) (Z.shiftr b2 6)))
              (String (digit (Z.land b2 63)) (encode rest))))
  end.

Definition encode_bytes (buf : list byte) : string :=
  encode (Z_of_byte <$> buf).

End Base64URL.

(** What the replacements of [fromBase64] followed by those of
    [base64URLEncode] do to a base64 text. *)
Definition to_url_safe (b64 : string) : string :=
  replace_all "=" ""
    (replace_all "/" "_" (replace_all "+" "-" (base64url.fromBase64 b64))).

(** [needle] occurs in [haystack]. *)
Definition contains (needle haystack : string) : Prop :=
  exists before after, haystack = before +:+ needle +:+ after.

(** ** What [getAuthorizationURL] appends and leaves behind, in closed form *)

(** The value of the [scope] parameter (lines 82 to 89). *)
Definition scope_parameter (c : AuthClientConfig) : string :=
  match scope c with
  | Some sc =>
      if (0 <? length sc)%nat then
        if negb (JS.includes sc OIDC_SCOPE) then JS.join " " (sc ++ [OIDC_SCOPE])
        else JS.join " " sc
      else OIDC_SCOPE
  | None => OIDC_SCOPE
  end.

(** The configuration once the mandatory scope has been pushed. *)
Definition config_with_mandatory_scope (c : AuthClientConfig) : AuthClientConfig :=
  match scope c with
  | Some sc =>
      if (0 <? length sc)%nat && negb (JS.includes sc OIDC_SCOPE)
      then set_scope (sc ++ [OIDC_SCOPE]) c
      else c
  | None => c
  end.

(** The verifier a call in world [w] generates. *)
Definition generated_verifier (env : Environment) (w : World) : string :=
  getCodeVerifier (fun src n => random_bytes env src (random_calls w) n) None.

Definition custom_parameters (config : option (list (string * ParamValue)))
  : list (string * string) :=
  match config with
  | Some customParams =>
      customParams ≫= (fun kv =>
        if negb (String.eqb kv.1 "") && ParamValue_ne_empty kv.2
        then [(kv.1, ParamValue_toString kv.2)]
        else [])
  | None => []
  end.

(** The parameters appended to the parsed endpoint, in order. *)
Definition authorize_parameters (env : Environment) (w : World)
    (config : option (list (string * ParamValue))) : list (string * string) :=
  let c := configData (dataLayer w) in
  [("response_type", "code"); ("client_id", clientID c);
   ("scope", scope_parameter c); ("redirect_uri", signInRedirectURL c)]
  ++ (if JS.truthy (responseMode c)
      then [("response_mode", JS.interpolate (responseMode c))] else [])
  ++ (if enablePKCE c
      then [("code_challenge_method", "S256");
            ("code_challenge", CryptoUtils.getCodeChallenge (generated_verifier env w))]
      else [])
  ++ (if JS.truthy (prompt c) then [("prompt", JS.interpolate (prompt c))] else [])
  ++ custom_parameters config.

(** The world a successful call leaves. *)
Definition authorize_world (env : Environment) (w : World) : World :=
  let c := configData (dataLayer w) in
  let w1 :=
    if config_by_reference env
    then set_dataLayer (set_configData (config_with_mandatory_scope c) (dataLayer w)) w
    else w in
  if enablePKCE c then
    let w2 := set_random_calls (S (random_calls w1)) w1 in
    set_dataLayer
      (set_temporaryData
         (<[PKCE_CODE_VERIFIER := VStr (generated_verifier env w)]>
            (temporaryData (dataLayer w2)))
         (dataLayer w2))
      w2
  else w1.

(** A second authentication context of the same process: its own data
    layer, the same static members and network. *)
Definition in_context (d : DataLayerStore) (w : World) : World :=
  set_dataLayer d w.

(** How often [x] occurs in [l]. *)
Definition occurrences (x : string) (l : list string) : nat :=
  length (filter (fun y => String.eqb x y = true) l).

(** Whether the character [c] occurs in [s]. *)
Fixpoint contains_char (c : ascii) (s : string) : bool :=
  match s with
  | EmptyString => false
  | String a s' => Ascii.eqb a c || contains_char c s'
  end.

(** The alphabet of base64url: letters, digits, [-] and [_]. *)
Definition base64url_char (c : ascii) : bool :=
  let n := Z_of_ascii c in
  ((0x41 <=? n) && (n <=? 0x5A)) || ((0x61 <=? n) && (n <=? 0x7A))
  || ((0x30 <=? n) && (n <=? 0x39)) || (n =? 0x2D) || (n =? 0x5F).

Fixpoint valid_base64url (s : string) : bool :=
  match s with
  | EmptyString => true
  | String c s' => base64url_char c && valid_base64url s'
  end.

(** A text of ASCII characters only. *)
Fixpoint ascii_only (s : string) : bool :=
  match s with
  | EmptyString => true
  | String c s' => (Z_of_ascii c <? 0x80) && ascii_only s'
  end.

(** Whether the transport's answer is a failed discovery: an error, or a
    status other than 200. *)
Definition failed (r : HttpResult) : Prop :=
  match r with
  | Fulfilled status _ => status <> 200
  | Rejected _ _ _ => True
  end.

Module Sample.

(** A URL parser for the examples: it accepts a non-empty text without
    query and fragment. *)
Definition parse_URL (s : string) : option URL.t :=
  if String.eqb s "" || negb (Nat.eqb (length (JS.split "?" s)) 1)
     || negb (Nat.eqb (length (JS.split "#" s)) 1)
  then None
  else Some (URL.Make s [] "").

Definition token_body : gmap string string :=
  list_to_map [("access_token", "A"); ("id_token", "ID"); ("token_type", "Bearer");
               ("expires_in", "3600"); ("scope", "openid")].

(** The provider of the examples: the token endpoint answers 200 with a
    token body, the revocation endpoint answers 204, discovery fails. *)
Definition provider (history : list Request) (r : Request) : HttpResult :=
  if String.eqb (url r) "https://idp.example/oauth2/token"
  then Fulfilled 200 token_body
  else if String.eqb (url r) "https://idp.example/oauth2/revoke"
  then Fulfilled 204 ∅
  else Rejected (Some "ECONNREFUSED") "connect ECONNREFUSED" None.

Definition entropy (src : RandomSource) (k n : nat) : list byte :=
  replicate n (byte_of_Z (Z.of_nat k + 7)).

Definition suffixes : gmap string string :=
  list_to_map [("authorization_endpoint", "/oauth2/authorize");
               ("token_endpoint", "/oauth2/token");
               ("revocation_endpoint", "/oauth2/revoke");
               ("end_session_endpoint", "/oidc/logout");
               ("jwks_uri", "/oauth2/jwks")].

Definition env (by_reference : bool) : Environment :=
  {| transport := provider;
     random_bytes := entropy;
     URL_parse := parse_URL;
     SIGN_OUT_SUCCESS_PARAM := "sign_out_success";
     SERVICE_RESOURCES := suffixes;
     WELL_KNOWN_SUFFIX := "/oauth2/token/.well-known/openid-configuration";
     config_by_reference := by_reference |}.

Definition config : AuthClientConfig :=
  {| clientID := "client&id=1";
     clientSecret := Some "s3cr&t";
     signInRedirectURL := "https://app.example/login";
     signOutRedirectURL := None;
     scope := Some ["profile"];
     responseMode := None;
     prompt := None;
     enablePKCE := true;
     sendCookiesInRequests := false;
     certificate := None;
     overrideWellEndpointConfig := false;
     endpoints := None;
     baseUrl := "https://idp.example" |}.

Definition metadata : gmap string string :=
  list_to_map [("authorization_endpoint", "https://idp.example/oauth2/authorize");
               ("token_endpoint", "https://idp.example/oauth2/token");
               ("revocation_endpoint", "https://idp.example/oauth2/revoke");
               ("end_session_endpoint", "https://idp.example/oidc/logout")].

Definition session : gmap string string :=
  list_to_map [("access_token", "AT"); ("id_token", "h.e30.s");
               ("refresh_token", "RT")].

Definition store (s : gmap string string) : DataLayerStore :=
  {| instanceID := 1;
     configData := config;
     oidcProviderMetaData := metadata;
     sessionData := s;
     temporaryData := {[ PKCE_CODE_VERIFIER := VStr "old-verifier" ]} |}.

Definition world (s : gmap string string) : World :=
  {| dataLayer := store s; httpsClient := None; network := []; random_calls := 0 |}.

(** Two contexts with different trust anchors and cookie policies. *)
Definition config_A : AuthClientConfig :=
  {| clientID := "A"; clientSecret := None;
     signInRedirectURL := "https://a.example/login"; signOutRedirectURL := None;
     scope := None; responseMode := None; prompt := None; enablePKCE := true;
     sendCookiesInRequests := true; certificate := Some "CERT-A";
     overrideWellEndpointConfig := false; endpoints := None;
     baseUrl := "https://idp-a.example" |}.

Definition config_B : AuthClientConfig :=
  {| clientID := "B"; clientSecret := None;
     signInRedirectURL := "https://b.example/login"; signOutRedirectURL := None;
     scope := None; responseMode := None; prompt := None; enablePKCE := true;
     sendCookiesInRequests := false; certificate := None;
     overrideWellEndpointConfig := false; endpoints := None;
     baseUrl := "https://idp-b.example" |}.

Definition store_A : DataLayerStore :=
  {| instanceID := 1; configData := config_A; oidcProviderMetaData := ∅;
     sessionData := ∅; temporaryData := ∅ |}.

Definition store_B : DataLayerStore :=
  {| instanceID := 2; configData := config_B; oidcProviderMetaData := ∅;
     sessionData := ∅; temporaryData := ∅ |}.

Definition fresh_process (d : DataLayerStore) : World :=
  {| dataLayer := d; httpsClient := None; network := []; random_calls := 0 |}.

End Sample.

(* ===================================================================== *)
(** * The rest of the authentication engine *)
(* ===================================================================== *)

(** [CustomGrantConfig], as far as [requestCustomGrant] reads it; [data]
    holds the entries of the [data] object in the order of
    [Object.entries]. *)
Record CustomGrantConfig := {
  grant_tokenEndpoint : option string;
  grant_data : list (string * string);
  attachToken : bool;
  returnsSession : bool
}.

(** [Partial<AuthClientConfig>]: each property is there or not. *)
Record PartialConfig := {
  set_clientID : option string;
  set_clientSecret : option string;
  set_signInRedirectURL : option string;
  set_signOutRedirectURL : option string;
  set_scope_list : option (list string);
  set_responseMode : option string;
  set_prompt : option string;
  set_enablePKCE : option bool;
  set_sendCookiesInRequests : option bool;
  set_certificate : option string;
  set_overrideWellEndpointConfig : option bool;
  set_endpoints : option (gmap string string);
  set_baseUrl : option string
}.

(** Modelled from the spec: [DataLayer.setConfigData(partial)] is not part
    of the sources at hand; the properties of the partial configuration
    replace those of the stored one, the others stay. *)
Definition merge_config (p : PartialConfig) (c : AuthClientConfig) : AuthClientConfig :=
  {| clientID := default (clientID c) (set_clientID p);
     clientSecret := from_option Some (clientSecret c) (set_clientSecret p);
     signInRedirectURL := default (signInRedirectURL c) (set_signInRedirectURL p);
     signOutRedirectURL :=
       from_option Some (signOutRedirectURL c) (set_signOutRedirectURL p);
     scope := from_option Some (scope c) (set_scope_list p);
     responseMode := from_option Some (responseMode c) (set_responseMode p);
     prompt := from_option Some (prompt c) (set_prompt p);
     enablePKCE := default (enablePKCE c) (set_enablePKCE p);
     sendCookiesInRequests :=
       default (sendCookiesInRequests c) (set_sendCookiesInRequests p);
     certificate := from_option Some (certificate c) (set_certificate p);
     overrideWellEndpointConfig :=
       default (overrideWellEndpointConfig c) (set_overrideWellEndpointConfig p);
     endpoints := from_option Some (endpoints c) (set_endpoints p);
     baseUrl := default (baseUrl c) (set_baseUrl p) |}.

(** A property value of the user information object: [None] is
    [undefined]. *)
Definition is_empty_claim (v : option JSON.t) : bool :=
  match v with
  | None => true
  | Some (JSON.Str s) => String.eqb s ""
  | Some JSON.Null => true
  | Some _ => false
  end.

Section AuthenticationCoreRest.

Variable env : Environment.

(** [AuthenticationHelper.replaceCustomGrantTemplateTags] and
    [AuthenticationUtils.getAuthenticatedUserInfo] are declared outside
    the sources at hand; they are parameters here. *)
Variable replaceCustomGrantTemplateTags : string -> M string.
Variable getAuthenticatedUserInfo : option string -> Result (gmap string (option JSON.t)).

(** A synchronous call inside an async method: a throw rejects. *)
Definition settle {A} (r : Result A) : M A :=
  match r with
  | Ok a => resolve a
  | Err e => reject e
  end.

(** [CryptoUtils.decodeIDToken(idToken)] when the argument may be
    [undefined]: [idToken.split] then throws inside the [try] block. *)
Definition decodeIDToken_of (idToken : option string) : Result JSON.t :=
  match idToken with
  | Some token => decodeIDToken token
  | None =>
      Err (AsgardeoAuthException
             "CRYPTO_UTIL-DIT-IV01" "crypto-utils" "decodeIDToken"
             (Some "Decoding ID token failed.")
             (Some (inr (TypeError "Cannot read properties of undefined (reading 'split')")))
             None)
  end.

(** [getDecodedIDToken()] (line 475). *)
Definition getDecodedIDToken : M JSON.t :=
  sessionData ← DataLayer.getSessionData;
  let idToken := sessionData !! "id_token" in
  settle (decodeIDToken_of idToken).

(** [Promise.all(entries.map(async ([key, value]) => ...))] (lines 371 to
    375), one entry after the other. *)
Fixpoint substitute_entries (entries : list (string * string)) : M (list string) :=
  match entries with
  | [] => resolve []
  | (key, value) :: rest =>
      newValue ← replaceCustomGrantTemplateTags value;
      others ← substitute_entries rest;
      resolve ((key +:+ "=" +:+ newValue) :: others)
  end.

(** [requestCustomGrant(customGrantParams)] (line 346); the request goes
    through the global axios with the agent of the HttpsClient. *)
Definition requestCustomGrant (customGrantParams : CustomGrantConfig)
  : M (TokenResponse + Z * gmap string string) :=
  oidcProviderMetadata ← _oidcProviderMetaData;
  configData ← _config;
  let tokenEndpoint :=
    if JS.truthy (grant_tokenEndpoint customGrantParams)
       && negb (Nat.eqb (String.length
                           (JS.trim (JS.interpolate (grant_tokenEndpoint customGrantParams))))
                        0)
    then grant_tokenEndpoint customGrantParams
    else oidcProviderMetadata !! "token_endpoint" in
  if JS.blank tokenEndpoint then
    reject (AsgardeoAuthException
              "AUTH_CORE-RCG-NF01" "authentication-core" "requestCustomGrant"
              (Some "Token endpoint not found.")
              (Some (inl ("No token endpoint was found in the OIDC provider meta data returned by the well-known endpoint "
                          +:+ "or the token endpoint passed to the SDK is empty.")))
              None)
  else
    data ← substitute_entries (grant_data customGrantParams);
    httpsClient ← _httpsClient;
    let requestHeaders := getTokenRequestHeaders in
    requestHeaders ←
      ((if attachToken customGrantParams then
          sessionData ← DataLayer.getSessionData;
          resolve (requestHeaders
                   ++ [("Authorization",
                        "Bearer " +:+ JS.interpolate (sessionData !! "access_token"))])
        else resolve requestHeaders) : M (list (string * string)));
    let requestConfig :=
      {| method := POST; url := JS.interpolate tokenEndpoint;
         data := Some (JS.join "&" data); headers := requestHeaders;
         withCredentials := sendCookiesInRequests configData;
         agent := HttpsClient.getHttpsAgent httpsClient |} in
    catch
      (response ← send env requestConfig;
       if negb (response.1 =? 200) then
         reject (AsgardeoAuthException
                   "AUTH_CORE-RCG-NR02" "authentication-core" "requestCustomGrant"
                   (Some "Invalid response status received for the custom grant request.")
                   (Some (inl ("The request sent to get the custom grant returned "
                               +:+ pretty response.1 +:+ " , which is invalid.")))
                   None)
       else if returnsSession customGrantParams then
         catch (tokens ← handleTokenResponse response; resolve (inl tokens))
           (fun error =>
              reject (AsgardeoAuthException
                        "AUTH_CORE-RCG-ES03" "authentication-core" "requestCustomGrant"
                        None None (Some error)))
       else resolve (inr response))
      (fun error =>
         reject (network_exception
                   "AUTH_CORE-RCG-NR04" "requestCustomGrant"
                   "The custom grant request failed."
                   "The request sent to get the custom grant failed."
                   error)).

(** [getBasicUserInfo()] (line 452): the user information derived from
    the ID token, without its empty properties, laid over the allowed
    scopes and the session state. *)
Definition getBasicUserInfo : M (gmap string (option JSON.t)) :=
  sessionData ← DataLayer.getSessionData;
  authenticatedUser ← settle (getAuthenticatedUserInfo (sessionData !! "id_token"));
  let basicUserInfo : gmap string (option JSON.t) :=
    {[ "allowedScopes" := JSON.Str <$> (sessionData !! "scope");
       "sessionState" := JSON.Str <$> (sessionData !! "session_state") ]} in
  let authenticatedUser :=
    filter (fun kv : string * option JSON.t => is_empty_claim kv.2 = false)
           authenticatedUser in
  resolve (authenticatedUser ∪ basicUserInfo).

(** [updateConfig(config)] (line 619). *)
Definition updateConfig (config : PartialConfig) : M unit :=
  stored ← DataLayer.getConfigData;
  DataLayer.setConfigData (merge_config config stored);;
  if default false (set_overrideWellEndpointConfig config) then
    match set_endpoints config with
    | Some _ =>
        resolved ← resolveEndpoints ∅;
        DataLayer.setOIDCProviderMetaData resolved
    | None => resolve tt
    end
  else
    match set_endpoints config with
    | Some _ => getOIDCProviderMetaData env true;; resolve tt
    | None => resolve tt
    end.

End AuthenticationCoreRest.

(* ===================================================================== *)
(** * CryptoUtils: choosing the key of an ID token *)
(* ===================================================================== *)

(** [JWKInterface], as far as [getJWKForTheIdToken] reads it. *)
Record JWKInterface := {
  jwk_kty : string;
  jwk_alg : string;
  jwk_e : string;
  jwk_kid : string;
  jwk_n : string
}.

(** How a function that is not [async] but returns a promise ends: it
    returns a value, returns a rejected promise, or throws. *)
Inductive Outcome (A : Type) :=
  | Returned (a : A)
  | RejectedWith (e : Exception)
  | Thrown (e : Exception).
Arguments Returned {A} a.
Arguments RejectedWith {A} e.
Arguments Thrown {A} e.

Module JSValue.

(** [value.name] for a parsed JSON value: the last member of that name of
    an object, [undefined] ([None]) for an object without it and for
    arrays, strings, numbers and booleans of which [name] is no property;
    reading a property of [null] throws. *)
Fixpoint last_member (name : string) (members : list (string * JSON.t))
  : option JSON.t :=
  match members with
  | [] => None
  | (k, v) :: rest =>
      match last_member name rest with
      | Some v' => Some v'
      | None => if String.eqb k name then Some v else None
      end
  end.

Definition property (name : string) (value : JSON.t) : Result (option JSON.t) :=
  match value with
  | JSON.Null =>
      Err (TypeError ("Cannot read properties of null (reading '" +:+ name +:+ "')"))
  | JSON.Object members => Ok (last_member name members)
  | _ => Ok None
  end.

(** [value === s] for a string [s]. *)
Definition strict_equal_string (value : option JSON.t) (s : string) : bool :=
  match value with
  | Some (JSON.Str s') => String.eqb s' s
  | _ => false
  end.

(** [String(value)], as string concatenation applies it. The decimal
    rendering of a number is left to [number_text]; [null] and
    [undefined] inside an array render as nothing. *)
Fixpoint to_text (number_text : string -> string) (value : JSON.t) : string :=
  match value with
  | JSON.Null => "null"
  | JSON.Bool true => "true"
  | JSON.Bool false => "false"
  | JSON.Number lexeme => number_text lexeme
  | JSON.Str s => s
  | JSON.Array elements =>
      JS.join ","
        ((fix each (l : list JSON.t) : list string :=
            match l with
            | [] => []
            | JSON.Null :: l' => "" :: each l'
            | v :: l' => to_text number_text v :: each l'
            end) elements)
  | JSON.Object _ => "[object Object]"
  end.

Definition concat_text (number_text : string -> string) (value : option JSON.t)
  : string :=
  match value with
  | None => "undefined"
  | Some v => to_text number_text v
  end.

End JSValue.

Section JWK.

(** The decimal text JavaScript gives a number, and the key store of
    node-jose, both outside the sources. *)
Variable number_text : string -> string.
Variable Key : Type.
Variable keystore_get : string -> string -> string -> string -> Key.

(** [JSON.parse(base64url.decode(jwtHeader, "utf8"))]. *)
Definition parse_header (jwtHeader : string) : Result JSON.t :=
  match JSON.parse (base64url.decode jwtHeader) with
  | Some headerJSON => Ok headerJSON
  | None => Err (SyntaxError "Unexpected token in JSON")
  end.

(** [CryptoUtils.getJWKForTheIdToken(jwtHeader, keys)] (crypto-utils.ts,
    line 89): the first key whose [kid] is that of the header is looked
    up in the key store. [headerJSON.kid] is read at the first key, or in
    the failure message when there is no key; reading it throws when the
    header is [null]. *)
Definition getJWKForTheIdToken (jwtHeader : string) (keys : list JWKInterface)
  : Outcome Key :=
  match parse_header jwtHeader with
  | Err e => Thrown e
  | Ok headerJSON =>
      match JSValue.property "kid" headerJSON with
      | Err e => Thrown e
      | Ok kid =>
          match List.find (fun key => JSValue.strict_equal_string kid (jwk_kid key))
                  keys with
          | Some key =>
              Returned (keystore_get (jwk_alg key) (jwk_e key) (jwk_kty key) (jwk_n key))
          | None =>
              RejectedWith
                (AsgardeoAuthException
                   "CRYPTO_UTIL-GTFTIT-IV01" "crypto-utils" "getJWKForTheIdToken"
                   (Some "kid not found.")
                   (Some (inl ("Failed to find the 'kid' specified in the id_token. 'kid' found in the header : "
                               +:+ JSValue.concat_text number_text kid
                               +:+ ", Expected values: "
                               +:+ JS.join ", " (jwk_kid <$> keys))))
                   None)
          end
      end
  end.

End JWK.

(** [CryptoUtils.getSupportedSignatureAlgorithms()]. *)
Definition getSupportedSignatureAlgorithms : list string :=
  ["RS256"; "RS512"; "RS384"; "PS256"].

(* ===================================================================== *)
(** * The sign-out request of the session module (part_001) *)
(* ===================================================================== *)

Section SignOutRequest.

(** The session and provider-configuration stores and their accessors
    ([getEndSessionEndpoint], [getSessionParameter],
    [endAuthenticatedSession], [resetOPConfiguration]) are declared
    outside the sources, and so is the constant [ID_TOKEN]; they are
    parameters over a store of type [Store]. *)
Variable Store : Type.
Variable getEndSessionEndpoint : Store -> option string.
Variable getSessionParameter : string -> Store -> option string.
Variable endAuthenticatedSession : Store -> Store.
Variable resetOPConfiguration : Store -> Store.
Variable sessionStorage_length : Store -> nat.
Variable ID_TOKEN : string.

(** The page: its stores and the address last assigned to
    [window.location.href], if any. *)
Record Page := {
  page_store : Store;
  location_href : option string
}.

(** What [sendSignOutRequest] hands back: a promise rejected with an
    [Error] of the given message, or nothing (the function ends without a
    [return]). *)
Inductive SignOutReturn :=
  | RejectedError (message : string)
  | ReturnedUndefined.

(** [sendSignOutRequest(requestParams, callback)] (part_001, line 32);
    [callbackURL] is [requestParams.callbackURL]. *)
Definition sendSignOutRequest (callbackURL : option string)
    (callback : option (Page -> Page)) (page : Page) : SignOutReturn * Page :=
  let logoutEndpoint := getEndSessionEndpoint (page_store page) in
  if JS.blank logoutEndpoint then (RejectedError "Invalid logout endpoint found.", page)
  else
    let idToken := getSessionParameter ID_TOKEN (page_store page) in
    if JS.blank idToken then (RejectedError "Invalid id_token found.", page)
    else
      let page :=
        {| page_store := resetOPConfiguration (endAuthenticatedSession (page_store page));
           location_href := location_href page |} in
      let page :=
        match callback with
        | Some f => f page
        | None => page
        end in
      (ReturnedUndefined,
       {| page_store := page_store page;
          location_href :=
            Some ((JS.interpolate logoutEndpoint +:+ "?")
                  +:+ ("id_token_hint=" +:+ JS.interpolate idToken)
                  +:+ ("&post_logout_redirect_uri=" +:+ JS.interpolate callbackURL)) |}).

(** How a call of [handleSignOut] ends: with a promise rejected with an
    [Error], or by throwing a [TypeError]. *)
Inductive SignOutEnd :=
  | EndsRejected (message : string)
  | EndsThrowing (message : string).

(** [handleSignOut(requestParams, callback)] (part_001, line 64):
    [.catch] is called on what [sendSignOutRequest] returned. *)
Definition handleSignOut (callbackURL : option string)
    (callback : option (Page -> Page)) (page : Page) : SignOutEnd * Page :=
  if Nat.eqb (sessionStorage_length (page_store page)) 0
  then (EndsRejected "No login sessions.", page)
  else
    match sendSignOutRequest callbackURL callback page with
    | (RejectedError message, page') => (EndsRejected message, page')
    | (ReturnedUndefined, page') =>
        (EndsThrowing "Cannot read properties of undefined (reading 'catch')", page')
    end.

End SignOutRequest.

(* ===================================================================== *)
(** * Further definitions for the statements and examples below *)
(* ===================================================================== *)

(** How many of the octets are above 127. *)
Definition high_octets (octets : list byte) : nat :=
  length (filter (fun b => 0x80 <= Z_of_byte b) octets).

(** The bytes a value stands for. *)
Definition bytes_of_value (value : BufferOrString) : list byte :=
  match value with
  | IsBuffer buf => buf
  | IsString s => TextEncoder_encode s
  end.

(** The letter e with an acute accent, U+00E9; a token and a header
    that hold it. *)
Definition e_acute : string := UTF8.encode 0xE9.

Definition token_with_accents : string :=
  "h.e3" +:+ e_acute +:+ e_acute +:+ "0.s".

Definition header_with_accent : string := e_acute +:+ "eyJraWQiOiJrMiJ9".

(** A configuration whose sign-out redirect URL is there but empty,
    beside a sign-in redirect URL, and a context holding it. *)
Definition config_with_empty_signOutRedirectURL : AuthClientConfig :=
  {| clientID := "client"; clientSecret := None;
     signInRedirectURL := "https://app.example/login";
     signOutRedirectURL := Some "";
     scope := None; responseMode := None; prompt := None; enablePKCE := true;
     sendCookiesInRequests := false; certificate := None;
     overrideWellEndpointConfig := false; endpoints := None;
     baseUrl := "https://idp.example" |}.

Definition world_with_empty_signOutRedirectURL : World :=
  {| dataLayer :=
       {| instanceID := 6; configData := config_with_empty_signOutRedirectURL;
          oidcProviderMetaData := Sample.metadata; sessionData := Sample.session;
          temporaryData := ∅ |};
     httpsClient := None; network := []; random_calls := 0 |}.

Definition config_without_pkce : AuthClientConfig :=
  {| clientID := "B"; clientSecret := None;
     signInRedirectURL := "https://b.example/login"; signOutRedirectURL := None;
     scope := None; responseMode := None; prompt := None; enablePKCE := false;
     sendCookiesInRequests := false; certificate := None;
     overrideWellEndpointConfig := false; endpoints := None;
     baseUrl := "https://idp.example" |}.

Definition world_without_pkce : World :=
  {| dataLayer :=
       {| instanceID := 3; configData := config_without_pkce;
          oidcProviderMetaData := Sample.metadata; sessionData := ∅;
          temporaryData := {[ PKCE_CODE_VERIFIER := VStr "stale" ]} |};
     httpsClient := None; network := []; random_calls := 0 |}.

Definition world_without_endpoints : World :=
  {| dataLayer :=
       {| instanceID := 4; configData := Sample.config;
          oidcProviderMetaData := {[ "token_endpoint" := "   " ]};
          sessionData := Sample.session;
          temporaryData := {[ PKCE_CODE_VERIFIER := VStr "kept" ]} |};
     httpsClient := None; network := []; random_calls := 0 |}.

Definition world_with_unreachable_endpoints : World :=
  {| dataLayer :=
       {| instanceID := 5; configData := Sample.config;
          oidcProviderMetaData :=
            {[ "token_endpoint" := "https://down.example/token";
               "revocation_endpoint" := "https://down.example/revoke" ]};
          sessionData := Sample.session;
          temporaryData := {[ PKCE_CODE_VERIFIER := VStr "kept" ]} |};
     httpsClient := None; network := []; random_calls := 0 |}.

(** The context of configuration B in a process whose client was built
    for configuration A. *)
Definition world_B_after_A : World :=
  {| dataLayer :=
       {| instanceID := 2; configData := Sample.config_B;
          oidcProviderMetaData := Sample.metadata; sessionData := ∅;
          temporaryData := ∅ |};
     httpsClient := Some (HttpsClient.create Sample.store_A);
     network := []; random_calls := 0 |}.

(** Keys for the examples; the key store hands back what it is asked
    for. *)
Definition sample_keys : list JWKInterface :=
  [ {| jwk_kty := "RSA"; jwk_alg := "RS256"; jwk_e := "AQAB"; jwk_kid := "k1";
       jwk_n := "n1" |};
    {| jwk_kty := "RSA"; jwk_alg := "RS384"; jwk_e := "AQAB"; jwk_kid := "k2";
       jwk_n := "n2" |};
    {| jwk_kty := "RSA"; jwk_alg := "RS512"; jwk_e := "AQAB"; jwk_kid := "k2";
       jwk_n := "n3" |} ].

Definition sample_keystore_get (alg e kty n : string) : list string := [alg; e; kty; n].

(** The header [{"alg":"RS256","kid":"k2"}]. *)
Definition sample_header : string := "eyJhbGciOiJSUzI1NiIsImtpZCI6ImsyIn0".

(** A helper for the examples: the tag {{token}} stands for the access
    token; every other value is left as it is. *)
Definition sample_substituted (w : World) (value : string) : string :=
  if String.eqb value "{{token}}"
  then JS.interpolate (sessionData (dataLayer w) !! "access_token")
  else value.

Definition sample_replace (value : string) : M string :=
  fun w => (Ok (sample_substituted w value), w).

Definition sample_grant : CustomGrantConfig :=
  {| grant_tokenEndpoint := Some "https://idp.example/oauth2/revoke";
     grant_data := [("grant_type", "account_switch"); ("token", "{{token}}");
                    ("note", "a&b=c")];
     attachToken := true;
     returnsSession := false |}.

Definition sample_user_info (idToken : option string)
  : Result (gmap string (option JSON.t)) :=
  Ok (list_to_map [("username", Some (JSON.Str "alice")); ("email", Some (JSON.Str ""));
                   ("tenantDomain", None); ("displayName", Some JSON.Null)]).

(** A page for the examples: its store is the session, the logout
    endpoint is fixed. *)
Definition sample_page : Page (gmap string string) :=
  {| page_store := {[ "id_token" := "TOKEN" ]}; location_href := None |}.

Example sha256_abc :
  Z_of_byte <$> SHA256.sha256 (TextEncoder_encode "abc")
  = SHA256.be_bytes 4 0xba7816bf ++ SHA256.be_bytes 4 0x8f01cfea
    ++ SHA256.be_bytes 4 0x414140de ++ SHA256.be_bytes 4 0x5dae2223
    ++ SHA256.be_bytes 4 0xb00361a3 ++ SHA256.be_bytes 4 0x96177a9c
    ++ SHA256.be_bytes 4 0xb410ff61 ++ SHA256.be_bytes 4 0xf20015ad.
Proof. vm_compute. reflexivity. Qed.

(** The test vector of RFC 7636, appendix B. *)
Example getCodeChallenge_rfc7636 :
  CryptoUtils.getCodeChallenge "dBjftJeZ4CVP-mB92K27uhbUJU1p1r_wW1gFWFOEjXk"
  = "E9Melhoa2OwvFrEMTJguCHaoeK1t8URWbuGJSstw-cM".
Proof. vm_compute. reflexivity. Qed.

Example trim_spaces : JS.trim "  a b  " = "a b".
Proof. vm_compute. reflexivity. Qed.

Example blank_spaces : JS.blank (Some "   ") = true.
Proof. vm_compute. reflexivity. Qed.

Example split_dots : JS.split "." "a.b.c" = ["a"; "b"; "c"].
Proof. vm_compute. reflexivity. Qed.

Example urlencode_reserved : URL.urlencode "a&b=c d" = "a%26b%3Dc+d".
Proof. vm_compute. reflexivity. Qed.

(** A call with custom parameters: empty names, empty values and [false]
    are skipped. *)
Example getAuthorizationURL_sample :
  settled (getAuthorizationURL (Sample.env false)
             (Some [("fidp", PStr "google"); ("empty", PStr "");
                    ("flag", PBool false); ("force", PBool true); ("", PStr "x")])
             (Sample.world Sample.session))
  = Ok ("https://idp.example/oauth2/authorize?response_type=code"
        +:+ "&client_id=client%26id%3D1&scope=profile+openid"
        +:+ "&redirect_uri=https%3A%2F%2Fapp.example%2Flogin"
        +:+ "&code_challenge_method=S256"
        +:+ "&code_challenge=3Ev4DHdHPRMPoN6GukAY_pi7IUAF5qWJHRK6kURvnoE"
        +:+ "&fidp=google&force=true").
Proof. vm_compute. reflexivity. Qed.

(** A revocation answered with 204. *)
Example revokeAccessToken_sample :
  settled (revokeAccessToken (Sample.env false) (Sample.world Sample.session))
  = Err (AsgardeoAuthNetworkException "AUTH_CORE-RAT3-NR03" "authentication-core"
           "revokeAccessToken" "The request to revoke access token failed."
           "The request sent to revoke the access token failed."
           "AUTH_CORE-RAT3-NR02"
           (Some "Invalid response status received for revoke access token request.")
           None None).
Proof. vm_compute. reflexivity. Qed.

(** The hexadecimal text of the React Native source is encoded as a
    string. *)
Example getCodeVerifier_ReactNative :
  getCodeVerifier (fun _ n => replicate n (byte_of_Z 255)) (Some ReactNative)
  = base64url.encode (IsString (JS_repeat "ff" 32)).
Proof. vm_compute. reflexivity. Qed.

Example JSON_parse_samples :
  JSON.parse "[1, -0.5e+3, true, null, []]"
  = Some (JSON.Array [JSON.Number "1"; JSON.Number "-0.5e+3"; JSON.Bool true;
                      JSON.Null; JSON.Array []])
  /\ JSON.parse "[1,]" = None /\ JSON.parse "01" = None
  /\ JSON.parse "" = None /\ JSON.parse "{" = None /\ JSON.parse "1 2" = None.
Proof. vm_compute. repeat split. Qed.

(* ===================================================================== *)
(** * Proof support *)
(* ===================================================================== *)

#[global] Arguments CryptoUtils.getCodeChallenge : simpl never.
#[global] Arguments CryptoUtils.base64URLEncode : simpl never.
#[global] Arguments getCodeVerifier : simpl never.
#[global] Arguments generated_verifier : simpl never.
#[global] Arguments SHA256.sha256 : simpl never.
#[global] Arguments URL.toString : simpl never.
#[global] Arguments URL.serialize : simpl never.
#[global] Arguments JS.join : simpl never.
#[global] Arguments JS.trim : simpl never.
#[global] Arguments network_exception : simpl never.

(** Unfold the monad and the data-layer accessors. *)
Ltac run :=
  unfold mbind, M_bind, mret, M_ret, and_then, catch, resolve, reject, gets,
    modify, _config, _oidcProviderMetaData, _httpsClient,
    DataLayer.getConfigData, DataLayer.setConfigData,
    DataLayer.getOIDCProviderMetaData, DataLayer.getOIDCProviderMetaDataParameter,
    DataLayer.setOIDCProviderMetaData, DataLayer.getSessionData,
    DataLayer.setSessionData, DataLayer.setSessionDataParameter,
    DataLayer.getTemporaryDataParameter, DataLayer.setTemporaryDataParameter,
    DataLayer.removeTemporaryDataParameter, settled, world_after in *.

Lemma append_assoc (a b c : string) : (a +:+ b) +:+ c = a +:+ (b +:+ c).
Proof.
  induction a as [|x a IH]; [reflexivity|].
  change (String x ((a +:+ b) +:+ c) = String x (a +:+ (b +:+ c))).
  now rewrite IH.
Qed.

Lemma get_from_app (l1 l2 : list (string * string)) (name : string) :
  URL.get_from (l1 ++ l2) name
  = match URL.get_from l1 name with
    | Some v => Some v
    | None => URL.get_from l2 name
    end.
Proof.
  induction l1 as [|[k v] l1 IH]; simpl; [reflexivity|].
  destruct (String.eqb k name); [reflexivity | exact IH].
Qed.

(* ===================================================================== *)
(** * Properties *)
(* ===================================================================== *)

(** ** Refresh without a refresh token *)

(** C6. In a state whose stored session has no refresh token (the property
    is absent or empty), [refreshAccessToken] rejects with the
    missing-refresh-token exception and leaves the world as it was: no
    request is issued, nothing is written to session or temporary data. *)
Theorem refreshAccessToken_without_refresh_token
    (env : Environment) (w : World) :
  JS.truthy (sessionData (dataLayer w) !! "refresh_token") = false ->
  exists e,
    refreshAccessToken env w = (Err e, w)
    /\ is_AsgardeoAuthException "AUTH_CORE-RAT2-NF01" e
    /\ Exception_message e = Some "No refresh token found."
    /\ network (world_after (refreshAccessToken env w)) = network w
    /\ sessionData (dataLayer (world_after (refreshAccessToken env w)))
       = sessionData (dataLayer w)
    /\ temporaryData (dataLayer (world_after (refreshAccessToken env w)))
       = temporaryData (dataLayer w).
Proof.
  intros Hfalsy.
  unfold refreshAccessToken. run. simpl. rewrite Hfalsy. simpl.
  eexists. repeat split.
Qed.

Lemma refreshAccessToken_without_refresh_token_witness :
  exists e,
    refreshAccessToken (Sample.env false)
      (Sample.world (delete "refresh_token" Sample.session))
    = (Err e, Sample.world (delete "refresh_token" Sample.session))
    /\ is_AsgardeoAuthException "AUTH_CORE-RAT2-NF01" e.
Proof.
  destruct (refreshAccessToken_without_refresh_token (Sample.env false)
              (Sample.world (delete "refresh_token" Sample.session)))
    as (e & Hrun & Hkind & _).
  - vm_compute. reflexivity.
  - exists e. split; [exact Hrun | exact Hkind].
Defined.

(** ** The sign-out URL *)

(** C8, what the code does. [getSignOutURL] checks, in this order, the
    end-session endpoint, the stored ID token and the callback URL; a
    missing or blank one raises its own not-found exception, the three
    being different from each other, and the world is left as it was in
    every case. The callback URL is the sign-out redirect URL whenever
    the configuration has that property, and the sign-in redirect URL
    only when it has not: a sign-out redirect URL that is there but empty
    or blank is not replaced by the sign-in redirect URL, and the call
    fails with AUTH_CORE-GSOU-NF03, whose text says that no sign-in
    redirect URL was found either, whatever the sign-in redirect URL is.
    When all three are there the result is exactly
    endpoint?id_token_hint=token&post_logout_redirect_uri=callback&state=marker. *)
Theorem getSignOutURL_guards_and_callback
    (env : Environment) (w : World) :
  let c := configData (dataLayer w) in
  let logoutEndpoint := oidcProviderMetaData (dataLayer w) !! "end_session_endpoint" in
  let idToken := sessionData (dataLayer w) !! "id_token" in
  exists e1 e2 e3,
    is_AsgardeoAuthException "AUTH_CORE-GSOU-NF01" e1
    /\ is_AsgardeoAuthException "AUTH_CORE-GSOU-NF02" e2
    /\ e3 = AsgardeoAuthException
              "AUTH_CORE-GSOU-NF03" "authentication-core" "getSignOutURL"
              (Some "No sign-out redirect URL found.")
              (Some (inl ("The sign-out redirect URL cannot be found or the URL passed to the SDK is empty. "
                          +:+ "No sign-in redirect URL has been found either. ")))
              None
    /\ e1 <> e2 /\ e1 <> e3 /\ e2 <> e3
    /\ (JS.blank logoutEndpoint = true -> getSignOutURL env w = (Err e1, w))
    /\ (JS.blank logoutEndpoint = false -> JS.blank idToken = true ->
        getSignOutURL env w = (Err e2, w))
    /\ (JS.blank logoutEndpoint = false -> JS.blank idToken = false ->
        forall signOutURL,
          signOutRedirectURL c = Some signOutURL ->
          JS.blank (Some signOutURL) = true ->
          getSignOutURL env w = (Err e3, w))
    /\ (JS.blank logoutEndpoint = false -> JS.blank idToken = false ->
        signOutRedirectURL c = None ->
        JS.blank (Some (signInRedirectURL c)) = true ->
        getSignOutURL env w = (Err e3, w))
    /\ (forall endpoint token callback,
          logoutEndpoint = Some endpoint -> idToken = Some token ->
          JS.blank (Some endpoint) = false -> JS.blank (Some token) = false ->
          (signOutRedirectURL c = Some callback
           \/ (signOutRedirectURL c = None /\ signInRedirectURL c = callback)) ->
          JS.blank (Some callback) = false ->
          getSignOutURL env w
          = (Ok (endpoint +:+ "?id_token_hint=" +:+ token
                 +:+ "&post_logout_redirect_uri=" +:+ callback
                 +:+ "&state=" +:+ SIGN_OUT_SUCCESS_PARAM env), w)).
Proof.
  intros c logoutEndpoint idToken. subst c logoutEndpoint idToken.
  do 3 eexists.
  split; [|split; [|split; [|split; [|split; [|split;
    [|split; [|split; [|split; [|split]]]]]]]]].
  3: reflexivity.
  6: { intros H1. unfold getSignOutURL. run. simpl.
       rewrite H1. reflexivity. }
  6: { intros H1 H2. unfold getSignOutURL. run. simpl.
       rewrite H1. simpl. rewrite H2. reflexivity. }
  6: { intros H1 H2 signOutURL Hthere H3. unfold getSignOutURL. run. simpl.
       rewrite H1. simpl. rewrite H2. simpl. rewrite Hthere, H3. reflexivity. }
  6: { intros H1 H2 Habsent H3. unfold getSignOutURL. run. simpl.
       rewrite H1. simpl. rewrite H2. simpl. rewrite Habsent, H3. reflexivity. }
  6: { intros endpoint token callback He Ht H1 H2 Hcallback H3.
       assert (Hcb : match signOutRedirectURL (configData (dataLayer w)) with
                     | Some u => Some u
                     | None => Some (signInRedirectURL (configData (dataLayer w)))
                     end = Some callback).
       { destruct Hcallback as [-> | [-> ->]]; reflexivity. }
       unfold getSignOutURL. run. simpl.
       rewrite He, H1. simpl. rewrite Ht, H2. simpl. rewrite Hcb, H3.
       simpl. rewrite !append_assoc. reflexivity. }
  1-2: reflexivity.
  all: discriminate.
Qed.

(** At a sign-out redirect URL that is there but empty, beside a sign-in
    redirect URL, an end-session endpoint and a stored ID token: the call
    fails. *)
Lemma getSignOutURL_guards_and_callback_witness :
  signOutRedirectURL (configData (dataLayer world_with_empty_signOutRedirectURL))
  = Some ""
  /\ JS.blank (Some (signInRedirectURL
                      (configData (dataLayer world_with_empty_signOutRedirectURL))))
     = false
  /\ exists e,
       getSignOutURL (Sample.env false) world_with_empty_signOutRedirectURL
       = (Err e, world_with_empty_signOutRedirectURL)
       /\ is_AsgardeoAuthException "AUTH_CORE-GSOU-NF03" e.
Proof.
  split; [reflexivity|]. split; [vm_compute; reflexivity|].
  destruct (getSignOutURL_guards_and_callback (Sample.env false)
              world_with_empty_signOutRedirectURL)
    as (e1 & e2 & e3 & _ & _ & He3 & _ & _ & _ & _ & _ & Hempty & _).
  exists e3. split.
  - apply (Hempty ltac:(vm_compute; reflexivity) ltac:(vm_compute; reflexivity) "");
      reflexivity.
  - rewrite He3. reflexivity.
Defined.

(** ** The transport client *)

(** C7, as the claim states it, fails: with two contexts of distinct
    data-layer identities, different trust anchors and different cookie
    policies, the second context is handed the client built for the
    first, not one built from its own configuration. *)
Lemma HttpsClient_per_data_layer_counterexample :
  let r1 := HttpsClient.getInstance (Sample.fresh_process Sample.store_A) in
  let r2 := HttpsClient.getInstance (in_context Sample.store_B (world_after r1)) in
  instanceID Sample.store_A <> instanceID Sample.store_B
  /\ settled r2 <> Ok (HttpsClient.create Sample.store_B)
  /\ settled r2 = Ok (HttpsClient.create Sample.store_A)
  /\ (exists c, settled r2 = Ok c
                /\ client_dataLayer c = instanceID Sample.store_A
                /\ defaults_withCredentials (axiosInstance c) = true
                /\ sendCookiesInRequests (configData Sample.store_B) = false).
Proof.
  cbv zeta. split; [|split; [|split]].
  - vm_compute. discriminate.
  - vm_compute. discriminate.
  - reflexivity.
  - eexists. split; [reflexivity|]. repeat split.
Qed.

(** C7, amended. The transport client is one instance per process: the
    first context to ask builds it from its own configuration (trust
    anchor from the certificate, cookie policy from
    sendCookiesInRequests); from then on every call, from the same
    context or from a context with another data layer, is handed that
    same instance and the static member does not change. *)
Theorem HttpsClient_single_instance_per_process
    (d1 d2 : DataLayerStore) (w : World) :
  httpsClient w = None ->
  let r1 := HttpsClient.getInstance (in_context d1 w) in
  let r2 := HttpsClient.getInstance (in_context d2 (world_after r1)) in
  settled r1 = Ok (HttpsClient.create d1)
  /\ settled r2 = Ok (HttpsClient.create d1)
  /\ httpsClient (world_after r2) = Some (HttpsClient.create d1)
  /\ client_dataLayer (HttpsClient.create d1) = instanceID d1
  /\ defaults_withCredentials (axiosInstance (HttpsClient.create d1))
     = sendCookiesInRequests (configData d1)
  /\ defaults_httpsAgent (axiosInstance (HttpsClient.create d1))
     = (if JS.truthy (certificate (configData d1))
        then Some {| ca := JS.interpolate (certificate (configData d1)) |}
        else None)
  /\ (forall w' c, httpsClient w' = Some c ->
        HttpsClient.getInstance w' = (Ok c, w')).
Proof.
  intros Hnone. cbv zeta.
  unfold HttpsClient.getInstance, in_context, world_after, settled. simpl.
  rewrite Hnone. simpl.
  repeat split.
  - unfold HttpsClient.create.
    destruct (JS.truthy (certificate (configData d1))); reflexivity.
  - unfold HttpsClient.create.
    destruct (JS.truthy (certificate (configData d1))); reflexivity.
  - unfold HttpsClient.create.
    destruct (JS.truthy (certificate (configData d1))); reflexivity.
  - intros w' c Hc. rewrite Hc. reflexivity.
Qed.

Lemma HttpsClient_single_instance_per_process_witness :
  settled (HttpsClient.getInstance
             (in_context Sample.store_B
                (world_after (HttpsClient.getInstance
                                (in_context Sample.store_A
                                   (Sample.fresh_process Sample.store_B))))))
  = Ok (HttpsClient.create Sample.store_A).
Proof.
  refine (proj1 (proj2 (HttpsClient_single_instance_per_process
                   Sample.store_A Sample.store_B
                   (Sample.fresh_process Sample.store_B) _))).
  reflexivity.
Defined.

(** ** The code challenge is base64url without padding *)

Lemma Z_of_byte_range (b : byte) : 0 <= Z_of_byte b < 256.
Proof.
  unfold Z_of_byte. pose proof (Byte.to_N_bounded b). lia.
Qed.

Lemma lor_below_64 (a b : Z) :
  0 <= a < 64 -> 0 <= b < 64 -> 0 <= Z.lor a b < 64.
Proof.
  intros [Ha0 Ha] [Hb0 Hb]. split; [apply Z.lor_nonneg; split; assumption|].
  destruct (Z.eq_dec a 0) as [-> | Hane]; [rewrite Z.lor_0_l; exact Hb|].
  destruct (Z.eq_dec b 0) as [-> | Hbne]; [rewrite Z.lor_0_r; exact Ha|].
  assert (Hpos : 0 < Z.lor a b).
  { assert (0 <= Z.lor a b) by (apply Z.lor_nonneg; split; assumption).
    assert (Z.lor a b <> 0) by (rewrite Z.lor_eq_0_iff; intros [? _]; contradiction).
    lia. }
  change 64 with (2 ^ 6). apply Z.log2_lt_pow2; [exact Hpos|].
  rewrite Z.log2_lor by assumption.
  apply Z.max_lub_lt; apply Z.log2_lt_pow2; lia.
Qed.

Lemma sextet_ranges (b0 b1 : Z) :
  0 <= b0 < 256 -> 0 <= b1 < 256 ->
  0 <= Z.shiftr b0 2 < 64
  /\ 0 <= Z.shiftl (Z.land b0 3) 4 < 64
  /\ 0 <= Z.lor (Z.shiftl (Z.land b0 3) 4) (Z.shiftr b1 4) < 64
  /\ 0 <= Z.shiftl (Z.land b0 15) 2 < 64
  /\ 0 <= Z.lor (Z.shiftl (Z.land b0 15) 2) (Z.shiftr b1 6) < 64
  /\ 0 <= Z.land b0 63 < 64.
Proof.
  intros H0 H1.
  assert (Hs2 : 0 <= Z.shiftr b0 2 < 64).
  { rewrite Z.shiftr_div_pow2 by lia. change (2 ^ 2) with 4.
    split; [apply Z.div_pos; lia | apply Z.div_lt_upper_bound; lia]. }
  assert (Hl3 : 0 <= Z.shiftl (Z.land b0 3) 4 < 64).
  { change 3 with (Z.ones 2). rewrite Z.land_ones by lia.
    rewrite Z.shiftl_mul_pow2 by lia. change (2 ^ 2) with 4. change (2 ^ 4) with 16.
    pose proof (Z.mod_pos_bound b0 4). lia. }
  assert (Hs4 : 0 <= Z.shiftr b1 4 < 64).
  { rewrite Z.shiftr_div_pow2 by lia. change (2 ^ 4) with 16.
    split; [apply Z.div_pos; lia | apply Z.div_lt_upper_bound; lia]. }
  assert (Hl15 : 0 <= Z.shiftl (Z.land b0 15) 2 < 64).
  { change 15 with (Z.ones 4). rewrite Z.land_ones by lia.
    rewrite Z.shiftl_mul_pow2 by lia. change (2 ^ 4) with 16. change (2 ^ 2) with 4.
    pose proof (Z.mod_pos_bound b0 16). lia. }
  assert (Hs6 : 0 <= Z.shiftr b1 6 < 64).
  { rewrite Z.shiftr_div_pow2 by lia. change (2 ^ 6) with 64.
    split; [apply Z.div_pos; lia | apply Z.div_lt_upper_bound; lia]. }
  assert (Hl63 : 0 <= Z.land b0 63 < 64).
  { change 63 with (Z.ones 6). rewrite Z.land_ones by lia.
    change (2 ^ 6) with 64. apply Z.mod_pos_bound. lia. }
  repeat split; try tauto; apply lor_below_64; assumption.
Qed.

(** A rewriting [f] of base64 texts that turns each digit into the
    URL-safe one and drops the padding yields base64url without padding. *)
Lemma base64_encode_rewritten (f : string -> string) :
  f "" = "" -> f "=" = "" -> f "==" = "" ->
  (forall i s, 0 <= i < 64 ->
               f (String (Base64.digit i) s) = String (Base64URL.digit i) (f s)) ->
  forall (n : nat) (bs : list Z),
    (length bs <= n)%nat ->
    Forall (fun b => 0 <= b < 256) bs ->
    f (Base64.encode bs) = Base64URL.encode bs.
Proof.
  intros Hnil Hpad1 Hpad2 Hdigit.
  induction n as [|n IH]; intros bs Hlen Hbytes.
  - destruct bs; [exact Hnil | simpl in Hlen; lia].
  - destruct bs as [|b0 [|b1 [|b2 rest]]]; [exact Hnil| | |].
    + inversion_clear Hbytes as [|? ? H0 _].
      destruct (sextet_ranges b0 b0 H0 H0) as (R1 & R2 & _).
      cbn [Base64.encode Base64URL.encode].
      rewrite (Hdigit _ _ R1), (Hdigit _ _ R2), Hpad2. reflexivity.
    + inversion_clear Hbytes as [|? ? H0 Hrest].
      inversion_clear Hrest as [|? ? H1 _].
      destruct (sextet_ranges b0 b1 H0 H1) as (R1 & _ & R3 & _).
      destruct (sextet_ranges b1 b1 H1 H1) as (_ & _ & _ & R4 & _).
      cbn [Base64.encode Base64URL.encode].
      rewrite (Hdigit _ _ R1), (Hdigit _ _ R3), (Hdigit _ _ R4), Hpad1.
      reflexivity.
    + inversion_clear Hbytes as [|? ? H0 Hrest].
      inversion_clear Hrest as [|? ? H1 Hrest'].
      inversion_clear Hrest' as [|? ? H2 Hrest''].
      destruct (sextet_ranges b0 b1 H0 H1) as (R1 & _ & R3 & _).
      destruct (sextet_ranges b1 b2 H1 H2) as (_ & _ & _ & _ & R5 & _).
      destruct (sextet_ranges b2 b2 H2 H2) as (_ & _ & _ & _ & _ & R6).
      cbn [Base64.encode Base64URL.encode].
      rewrite (Hdigit _ _ R1), (Hdigit _ _ R3), (Hdigit _ _ R5), (Hdigit _ _ R6).
      rewrite (IH rest); [reflexivity | simpl in Hlen; lia | exact Hrest''].
Qed.

Lemma to_url_safe_digit (i : Z) (s : string) :
  0 <= i < 64 ->
  to_url_safe (String (Base64.digit i) s) = String (Base64URL.digit i) (to_url_safe s).
Proof.
  intros Hi.
  assert (Hn : exists n, i = Z.of_nat n /\ (n < 64)%nat)
    by (exists (Z.to_nat i); lia).
  destruct Hn as (n & -> & Hn).
  do 64 (destruct n as [|n]; [reflexivity|]). lia.
Qed.

Lemma fromBase64_digit (i : Z) (s : string) :
  0 <= i < 64 ->
  base64url.fromBase64 (String (Base64.digit i) s)
  = String (Base64URL.digit i) (base64url.fromBase64 s).
Proof.
  intros Hi.
  assert (Hn : exists n, i = Z.of_nat n /\ (n < 64)%nat)
    by (exists (Z.to_nat i); lia).
  destruct Hn as (n & -> & Hn).
  do 64 (destruct n as [|n]; [reflexivity|]). lia.
Qed.

Lemma bytes_in_range (buf : list byte) :
  Forall (fun b => 0 <= b < 256) (Z_of_byte <$> buf).
Proof.
  apply Forall_fmap, Forall_forall. intros b _. apply Z_of_byte_range.
Qed.

(** [base64url.encode] is base64url without padding. *)
Lemma base64url_encode_string (s : string) :
  base64url.encode (IsString s) = Base64URL.encode_bytes (TextEncoder_encode s).
Proof.
  unfold base64url.encode, Base64.Buffer_toString_base64, Base64URL.encode_bytes.
  apply (base64_encode_rewritten base64url.fromBase64 eq_refl eq_refl eq_refl
           fromBase64_digit (length (Z_of_byte <$> TextEncoder_encode s)));
    [reflexivity | apply bytes_in_range].
Qed.

(** [base64URLEncode] of a buffer is base64url without padding. *)
Lemma base64URLEncode_buffer (buf : list byte) :
  CryptoUtils.base64URLEncode (IsBuffer buf) = Base64URL.encode_bytes buf.
Proof.
  unfold CryptoUtils.base64URLEncode, base64url.encode,
    Base64.Buffer_toString_base64, Base64URL.encode_bytes.
  apply (base64_encode_rewritten to_url_safe eq_refl eq_refl eq_refl
           to_url_safe_digit (length (Z_of_byte <$> buf)));
    [reflexivity | apply bytes_in_range].
Qed.

Lemma urlencode_base64url_digit (i : Z) :
  0 <= i < 64 ->
  URL.urlencode_byte (Base64URL.digit i) = String (Base64URL.digit i) "".
Proof.
  intros Hi.
  assert (Hn : exists n, i = Z.of_nat n /\ (n < 64)%nat)
    by (exists (Z.to_nat i); lia).
  destruct Hn as (n & -> & Hn).
  do 64 (destruct n as [|n]; [reflexivity|]). lia.
Qed.

Lemma urlencode_cons_digit (i : Z) (s : string) :
  0 <= i < 64 ->
  URL.urlencode (String (Base64URL.digit i) s)
  = String (Base64URL.digit i) (URL.urlencode s).
Proof.
  intros Hi. simpl. rewrite (urlencode_base64url_digit i Hi). reflexivity.
Qed.

(** Form-urlencoding leaves a base64url text as it is. *)
Lemma urlencode_base64url (n : nat) :
  forall bs : list Z,
    (length bs <= n)%nat ->
    Forall (fun b => 0 <= b < 256) bs ->
    URL.urlencode (Base64URL.encode bs) = Base64URL.encode bs.
Proof.
  induction n as [|n IH]; intros bs Hlen Hbytes.
  - destruct bs; [reflexivity | simpl in Hlen; lia].
  - destruct bs as [|b0 [|b1 [|b2 rest]]]; [reflexivity| | |].
    + inversion_clear Hbytes as [|? ? H0 _].
      destruct (sextet_ranges b0 b0 H0 H0) as (R1 & R2 & _).
      cbn [Base64URL.encode].
      rewrite (urlencode_cons_digit _ _ R1), (urlencode_cons_digit _ _ R2).
      reflexivity.
    + inversion_clear Hbytes as [|? ? H0 Hrest].
      inversion_clear Hrest as [|? ? H1 _].
      destruct (sextet_ranges b0 b1 H0 H1) as (R1 & _ & R3 & _).
      destruct (sextet_ranges b1 b1 H1 H1) as (_ & _ & _ & R4 & _).
      cbn [Base64URL.encode].
      rewrite (urlencode_cons_digit _ _ R1), (urlencode_cons_digit _ _ R3),
        (urlencode_cons_digit _ _ R4).
      reflexivity.
    + inversion_clear Hbytes as [|? ? H0 Hrest].
      inversion_clear Hrest as [|? ? H1 Hrest'].
      inversion_clear Hrest' as [|? ? H2 Hrest''].
      destruct (sextet_ranges b0 b1 H0 H1) as (R1 & _ & R3 & _).
      destruct (sextet_ranges b1 b2 H1 H2) as (_ & _ & _ & _ & R5 & _).
      destruct (sextet_ranges b2 b2 H2 H2) as (_ & _ & _ & _ & _ & R6).
      cbn [Base64URL.encode].
      rewrite (urlencode_cons_digit _ _ R1), (urlencode_cons_digit _ _ R3),
        (urlencode_cons_digit _ _ R5), (urlencode_cons_digit _ _ R6).
      rewrite (IH rest); [reflexivity | simpl in Hlen; lia | exact Hrest''].
Qed.

Lemma urlencode_getCodeChallenge (verifier : string) :
  URL.urlencode (CryptoUtils.getCodeChallenge verifier)
  = CryptoUtils.getCodeChallenge verifier.
Proof.
  unfold CryptoUtils.getCodeChallenge. rewrite base64URLEncode_buffer.
  unfold Base64URL.encode_bytes.
  apply (urlencode_base64url
           (length (Z_of_byte <$> SHA256.sha256 (TextEncoder_encode verifier))));
    [reflexivity | apply bytes_in_range].
Qed.

(** ** Where a parameter stands in the text of a URL *)

Lemma contains_inside (needle s before after : string) :
  contains needle s -> contains needle (before +:+ s +:+ after).
Proof.
  intros (p & q & ->). exists (before +:+ p), (q +:+ after).
  rewrite !append_assoc. reflexivity.
Qed.

Lemma append_empty_r (s : string) : s +:+ "" = s.
Proof.
  induction s as [|a s IH]; [reflexivity|].
  change (String a (s +:+ "") = String a s). now rewrite IH.
Qed.

Lemma join_cons (sep x : string) (l : list string) :
  l <> [] -> JS.join sep (x :: l) = x +:+ sep +:+ JS.join sep l.
Proof. destruct l; [congruence | reflexivity]. Qed.

Lemma join_contains (sep x : string) (l : list string) :
  x ∈ l -> contains x (JS.join sep l).
Proof.
  induction l as [|y l IH]; intros Hin.
  - apply elem_of_nil in Hin. contradiction.
  - destruct l as [|z l].
    + apply list_elem_of_singleton in Hin as ->.
      exists "", "". rewrite append_empty_r. reflexivity.
    + rewrite join_cons by discriminate.
      apply elem_of_cons in Hin as [-> | Hin].
      * exists "", (sep +:+ JS.join sep (z :: l)). reflexivity.
      * apply (contains_inside x _ (y +:+ sep) "" ) in IH; [|exact Hin].
        rewrite append_empty_r, append_assoc in IH. exact IH.
Qed.

Lemma toString_contains (u : URL.t) (k v : string) :
  (k, v) ∈ URL.searchParams u ->
  contains (URL.urlencode k +:+ "=" +:+ URL.urlencode v) (URL.toString u).
Proof.
  intros Hin. unfold URL.toString.
  destruct (URL.searchParams u) as [|p ps] eqn:Hps.
  - apply elem_of_nil in Hin. contradiction.
  - rewrite <- (append_assoc (URL.base u) "?").
    apply contains_inside. unfold URL.serialize. apply join_contains.
    apply (list_elem_of_fmap_2
             (fun kv : string * string =>
                URL.urlencode kv.1 +:+ "=" +:+ URL.urlencode kv.2)
             (p :: ps) (k, v)).
    exact Hin.
Qed.

(** ** The authorization URL *)

Lemma append_customParams_searchParams (cps : list (string * ParamValue)) (u : URL.t) :
  append_customParams cps u
  = URL.Make (URL.base u) (URL.searchParams u ++ custom_parameters (Some cps))
      (URL.hash u).
Proof.
  unfold append_customParams, custom_parameters.
  revert u. induction cps as [|kv cps IH]; intros u; simpl.
  - rewrite app_nil_r. destruct u; reflexivity.
  - rewrite IH.
    destruct (negb (String.eqb kv.1 "") && ParamValue_ne_empty kv.2); simpl.
    + rewrite <- app_assoc. reflexivity.
    + reflexivity.
Qed.

(** [authorizeRequest] in closed form. *)
Lemma authorizeRequest_run (env : Environment) (w : World)
    (config : option (list (string * ParamValue))) (u0 : URL.t) :
  let endpoint := oidcProviderMetaData (dataLayer w) !! AUTHORIZATION_ENDPOINT in
  JS.blank endpoint = false ->
  URL_parse env (JS.interpolate endpoint) = Some u0 ->
  authorizeRequest env config w
  = (Ok (URL.Make (URL.base u0)
           (URL.searchParams u0 ++ authorize_parameters env w config)
           (URL.hash u0)),
     authorize_world env w).
Proof.
  intros endpoint Hblank Hparse. subst endpoint.
  unfold authorizeRequest, new_URL. run. simpl.
  rewrite Hblank, Hparse. simpl.
  unfold authorize_parameters, authorize_world, scope_parameter,
    config_with_mandatory_scope, push_scope, draw_code_verifier,
    generated_verifier.
  run.
  destruct w as [d hc net rc]. destruct d as [iid c md sess tmp]. simpl.
  destruct c as [cid csec sin sout sc rm pr pkce cookies cert ov eps bu]. simpl.
  assert (Hcustom : forall u,
             match config with
             | Some cps => append_customParams cps u
             | None => u
             end
             = URL.Make (URL.base u) (URL.searchParams u ++ custom_parameters config)
                 (URL.hash u)).
  { intros u. destruct config as [cps|].
    - apply append_customParams_searchParams.
    - simpl. rewrite app_nil_r. destruct u; reflexivity. }
  destruct sc as [sc|]; [destruct (0 <? length sc)%nat eqn:Hlen;
    [destruct (JS.includes sc OIDC_SCOPE) eqn:Hinc|]|];
    destruct (config_by_reference env); simpl;
    destruct (JS.truthy rm); destruct pkce; destruct (JS.truthy pr); simpl;
    rewrite Hcustom; unfold URL.append; simpl;
    rewrite <- ?app_assoc; simpl; reflexivity.
Qed.

Lemma authorize_world_metadata (env : Environment) (w : World) :
  oidcProviderMetaData (dataLayer (authorize_world env w))
  = oidcProviderMetaData (dataLayer w).
Proof.
  unfold authorize_world.
  destruct (config_by_reference env), (enablePKCE (configData (dataLayer w)));
    reflexivity.
Qed.

Lemma authorize_world_config (env : Environment) (w : World) :
  configData (dataLayer (authorize_world env w))
  = if config_by_reference env
    then config_with_mandatory_scope (configData (dataLayer w))
    else configData (dataLayer w).
Proof.
  unfold authorize_world.
  destruct (config_by_reference env), (enablePKCE (configData (dataLayer w)));
    reflexivity.
Qed.

Lemma getAuthorizationURL_run (env : Environment) (w : World)
    (config : option (list (string * ParamValue))) (u0 : URL.t) :
  let endpoint := oidcProviderMetaData (dataLayer w) !! AUTHORIZATION_ENDPOINT in
  JS.blank endpoint = false ->
  URL_parse env (JS.interpolate endpoint) = Some u0 ->
  getAuthorizationURL env config w
  = (Ok (URL.toString
           (URL.Make (URL.base u0)
              (URL.searchParams u0 ++ authorize_parameters env w config)
              (URL.hash u0))),
     authorize_world env w).
Proof.
  intros endpoint Hblank Hparse.
  unfold getAuthorizationURL. run.
  rewrite (authorizeRequest_run env w config u0 Hblank Hparse). reflexivity.
Qed.

Lemma pkce_parameters_appended (env : Environment) (w : World)
    (config : option (list (string * ParamValue))) (l : list (string * string)) :
  enablePKCE (configData (dataLayer w)) = true ->
  ("code_challenge_method", "S256") ∈ l ++ authorize_parameters env w config
  /\ ("code_challenge", CryptoUtils.getCodeChallenge (generated_verifier env w))
     ∈ l ++ authorize_parameters env w config.
Proof.
  intros Hpkce. unfold authorize_parameters. rewrite Hpkce.
  destruct (JS.truthy (responseMode (configData (dataLayer w))));
    split; set_solver.
Qed.

(** C1. With PKCE enabled and a usable authorization endpoint (present,
    not blank, parsed by the platform, and carrying no code_challenge or
    code_challenge_method parameter of its own), a call of
    [getAuthorizationURL] returns the text of a URL and leaves a verifier
    V in temporary data such that the code_challenge parameter of that URL
    is [getCodeChallenge V] and its code_challenge_method is S256; both
    stand in the returned text as they are; and [getCodeChallenge V] is
    the base64url encoding without padding of the SHA-256 digest of the
    UTF-8 bytes of V. *)
Theorem getAuthorizationURL_stores_matching_verifier
    (env : Environment) (w : World)
    (config : option (list (string * ParamValue))) (u0 : URL.t) :
  let endpoint := oidcProviderMetaData (dataLayer w) !! AUTHORIZATION_ENDPOINT in
  enablePKCE (configData (dataLayer w)) = true ->
  JS.blank endpoint = false ->
  URL_parse env (JS.interpolate endpoint) = Some u0 ->
  URL.get u0 "code_challenge" = None ->
  URL.get u0 "code_challenge_method" = None ->
  exists (V : string) (u : URL.t) (w' : World),
    getAuthorizationURL env config w = (Ok (URL.toString u), w')
    /\ temporaryData (dataLayer w') !! PKCE_CODE_VERIFIER = Some (VStr V)
    /\ URL.get u "code_challenge" = Some (CryptoUtils.getCodeChallenge V)
    /\ URL.get u "code_challenge_method" = Some "S256"
    /\ contains ("code_challenge=" +:+ CryptoUtils.getCodeChallenge V) (URL.toString u)
    /\ contains "code_challenge_method=S256" (URL.toString u)
    /\ CryptoUtils.getCodeChallenge V
       = Base64URL.encode_bytes (SHA256.sha256 (TextEncoder_encode V)).
Proof.
  intros endpoint Hpkce Hblank Hparse Hcc Hccm.
  exists (generated_verifier env w).
  eexists. exists (authorize_world env w).
  split; [apply (getAuthorizationURL_run env w config u0 Hblank Hparse)|].
  destruct (pkce_parameters_appended env w config (URL.searchParams u0) Hpkce)
    as [Hmethod Hchallenge].
  split; [|split; [|split; [|split; [|split]]]].
  - unfold authorize_world. rewrite Hpkce.
    destruct (config_by_reference env); simpl; apply lookup_insert_eq.
  - unfold URL.get in *. simpl. rewrite get_from_app, Hcc.
    unfold authorize_parameters. rewrite Hpkce. simpl.
    destruct (JS.truthy (responseMode (configData (dataLayer w)))); reflexivity.
  - unfold URL.get in *. simpl. rewrite get_from_app, Hccm.
    unfold authorize_parameters. rewrite Hpkce. simpl.
    destruct (JS.truthy (responseMode (configData (dataLayer w)))); reflexivity.
  - rewrite <- (urlencode_getCodeChallenge (generated_verifier env w)) at 1.
    apply (toString_contains _ "code_challenge"). exact Hchallenge.
  - apply (toString_contains _ "code_challenge_method" "S256"). exact Hmethod.
  - unfold CryptoUtils.getCodeChallenge. apply base64URLEncode_buffer.
Qed.

Lemma getAuthorizationURL_stores_matching_verifier_witness :
  exists (V : string) (u : URL.t) (w' : World),
    getAuthorizationURL (Sample.env false) None (Sample.world Sample.session)
    = (Ok (URL.toString u), w')
    /\ temporaryData (dataLayer w') !! PKCE_CODE_VERIFIER = Some (VStr V)
    /\ URL.get u "code_challenge" = Some (CryptoUtils.getCodeChallenge V)
    /\ URL.get u "code_challenge_method" = Some "S256"
    /\ contains ("code_challenge=" +:+ CryptoUtils.getCodeChallenge V) (URL.toString u)
    /\ contains "code_challenge_method=S256" (URL.toString u)
    /\ CryptoUtils.getCodeChallenge V
       = Base64URL.encode_bytes (SHA256.sha256 (TextEncoder_encode V)).
Proof.
  apply (getAuthorizationURL_stores_matching_verifier (Sample.env false)
           (Sample.world Sample.session) None
           (URL.Make "https://idp.example/oauth2/authorize" [] ""));
    vm_compute; reflexivity.
Defined.

(** ** The scope parameter over successive calls *)

Lemma successive_getAuthorizationURL_scope (env : Environment) (u0 : URL.t)
    (configs : list (option (list (string * ParamValue)))) :
  forall w : World,
    let endpoint := oidcProviderMetaData (dataLayer w) !! AUTHORIZATION_ENDPOINT in
    (scope (configData (dataLayer w)) = Some ["profile"]
     \/ scope (configData (dataLayer w)) = Some ["profile"; OIDC_SCOPE]) ->
    JS.blank endpoint = false ->
    URL_parse env (JS.interpolate endpoint) = Some u0 ->
    URL.get u0 "scope" = None ->
    Forall (fun r => exists u,
                r = Ok (URL.toString u)
                /\ URL.get u "scope" = Some "profile openid")
           (successive_getAuthorizationURL env configs w).1.
Proof.
  induction configs as [|config configs IH]; intros w endpoint Hscope Hblank Hparse Hnone.
  - constructor.
  - subst endpoint. simpl.
    rewrite (getAuthorizationURL_run env w config u0 Hblank Hparse).
    unfold settled, world_after. simpl. constructor.
    + eexists. split; [reflexivity|].
      unfold URL.get in *. simpl. rewrite get_from_app, Hnone.
      unfold authorize_parameters, scope_parameter. simpl.
      destruct Hscope as [-> | ->]; reflexivity.
    + apply IH.
      * rewrite authorize_world_config.
        destruct (config_by_reference env); [|exact Hscope].
        unfold config_with_mandatory_scope.
        destruct Hscope as [H | H]; rewrite H; simpl; right;
          [reflexivity | exact H].
      * rewrite authorize_world_metadata. exact Hblank.
      * rewrite authorize_world_metadata. exact Hparse.
      * exact Hnone.
Qed.

(** C5. With the configured scope list ["profile"] and a usable
    authorization endpoint (present, not blank, parsed by the platform,
    with no scope parameter of its own), every one of any number of
    successive calls of [getAuthorizationURL] against the same context
    returns the text of a URL whose scope parameter holds "profile" and
    the mandatory "openid" once each, whether or not the data layer
    keeps the pushed scope between the calls. *)
Theorem getAuthorizationURL_scope_exactly_once
    (env : Environment) (w : World) (u0 : URL.t)
    (configs : list (option (list (string * ParamValue)))) :
  let endpoint := oidcProviderMetaData (dataLayer w) !! AUTHORIZATION_ENDPOINT in
  scope (configData (dataLayer w)) = Some ["profile"] ->
  JS.blank endpoint = false ->
  URL_parse env (JS.interpolate endpoint) = Some u0 ->
  URL.get u0 "scope" = None ->
  length (successive_getAuthorizationURL env configs w).1 = length configs
  /\ Forall (fun r => exists u value,
                 r = Ok (URL.toString u)
                 /\ URL.get u "scope" = Some value
                 /\ occurrences "profile" (JS.split " " value) = 1%nat
                 /\ occurrences OIDC_SCOPE (JS.split " " value) = 1%nat)
            (successive_getAuthorizationURL env configs w).1.
Proof.
  intros endpoint Hscope Hblank Hparse Hnone. split.
  - clear. revert w. induction configs as [|c cs IH]; intros w; simpl;
      [reflexivity | now rewrite IH].
  - eapply Forall_impl.
    + apply (successive_getAuthorizationURL_scope env u0 configs w);
        [left; exact Hscope | exact Hblank | exact Hparse | exact Hnone].
    + intros r (u & Hr & Hget). exists u, "profile openid".
      repeat split; [exact Hr | exact Hget].
Qed.

Lemma getAuthorizationURL_scope_exactly_once_witness :
  Forall (fun r => exists u value,
              r = Ok (URL.toString u)
              /\ URL.get u "scope" = Some value
              /\ occurrences "profile" (JS.split " " value) = 1%nat
              /\ occurrences OIDC_SCOPE (JS.split " " value) = 1%nat)
         (successive_getAuthorizationURL (Sample.env true) [None; None; None]
            (Sample.world Sample.session)).1.
Proof.
  refine (proj2 (getAuthorizationURL_scope_exactly_once (Sample.env true)
                   (Sample.world Sample.session)
                   (URL.Make "https://idp.example/oauth2/authorize" [] "")
                   [None; None; None] _ _ _ _));
    vm_compute; reflexivity.
Defined.

(** ** Request bodies *)

(** C10. The bodies of the token exchange, the refresh and the revocation
    are the raw key=value texts joined by an ampersand: client ID, client
    secret, authorization code, refresh token, access token and code
    verifier stand in them as they are, whatever characters they hold.
    The authorization URL instead is the serialization of its parameter
    list, in which every name and value is form-urlencoded. *)
Theorem request_bodies_are_not_encoded
    (env : Environment) (w : World) (authorizationCode : string)
    (sessionState : option string)
    (config : option (list (string * ParamValue))) (u0 : URL.t) :
  let c := configData (dataLayer w) in
  let metadata := oidcProviderMetaData (dataLayer w) in
  let session := sessionData (dataLayer w) in
  let secret :=
    if has_text (clientSecret c)
    then ["client_secret=" +:+ JS.interpolate (clientSecret c)] else [] in
  (JS.blank (metadata !! "token_endpoint") = false ->
   exists r,
     network (world_after (requestAccessToken env authorizationCode sessionState w))
     = network w ++ [r]
     /\ method r = POST
     /\ url r = JS.interpolate (metadata !! "token_endpoint")
     /\ data r
        = Some (JS.join "&"
                  (["client_id=" +:+ clientID c] ++ secret
                   ++ ["code=" +:+ authorizationCode;
                       "grant_type=authorization_code";
                       "redirect_uri=" +:+ signInRedirectURL c]
                   ++ (if enablePKCE c
                       then ["code_verifier="
                             +:+ StoreValue_interpolate
                                   (temporaryData (dataLayer w) !! PKCE_CODE_VERIFIER)]
                       else []))))
  /\ (JS.truthy (session !! "refresh_token") = true ->
      JS.blank (metadata !! "token_endpoint") = false ->
      exists r,
        network (world_after (refreshAccessToken env w)) = network w ++ [r]
        /\ method r = POST
        /\ url r = JS.interpolate (metadata !! "token_endpoint")
        /\ data r
           = Some (JS.join "&"
                     (["client_id=" +:+ clientID c;
                       "refresh_token=" +:+ JS.interpolate (session !! "refresh_token");
                       "grant_type=refresh_token"] ++ secret)))
  /\ (JS.blank (metadata !! "revocation_endpoint") = false ->
      exists r,
        network (world_after (revokeAccessToken env w)) = network w ++ [r]
        /\ method r = POST
        /\ url r = JS.interpolate (metadata !! "revocation_endpoint")
        /\ data r
           = Some (JS.join "&"
                     ["client_id=" +:+ clientID c;
                      "token=" +:+ JS.interpolate (session !! "access_token");
                      "token_type_hint=access_token"]))
  /\ (JS.blank (metadata !! AUTHORIZATION_ENDPOINT) = false ->
      URL_parse env (JS.interpolate (metadata !! AUTHORIZATION_ENDPOINT)) = Some u0 ->
      exists u,
        settled (getAuthorizationURL env config w)
        = Ok (URL.base u +:+ "?"
              +:+ JS.join "&"
                    ((fun kv => URL.urlencode kv.1 +:+ "=" +:+ URL.urlencode kv.2)
                       <$> URL.searchParams u)
              +:+ URL.hash u)
        /\ (("client_id", clientID c) ∈ URL.searchParams u)).
Proof.
  intros c metadata session secret. subst c metadata session secret.
  split; [|split; [|split]].
  - intros Hep.
    unfold requestAccessToken, axios_post, handleTokenResponse,
      HttpsClient.getInstance, HttpsClient.getAxios, send.
    run. unfold HttpsClient.getInstance. simpl. rewrite Hep. simpl.
    destruct (JS.truthy sessionState); simpl;
      destruct (has_text (clientSecret (configData (dataLayer w)))); simpl;
      destruct (enablePKCE (configData (dataLayer w))); simpl;
      destruct (httpsClient w); simpl;
      (eexists; split;
       [ match goal with
         | |- context [transport ?e ?n ?r] => destruct (transport e n r)
         end; reflexivity
       | repeat split ]).
  - intros Hrt Hep.
    unfold refreshAccessToken, axios_post, handleTokenResponse,
      HttpsClient.getInstance, HttpsClient.getAxios, send.
    run. unfold HttpsClient.getInstance. simpl. rewrite Hrt, Hep. simpl.
    destruct (has_text (clientSecret (configData (dataLayer w)))); simpl;
      destruct (httpsClient w); simpl;
      (eexists; split;
       [ match goal with
         | |- context [transport ?e ?n ?r] => destruct (transport e n r)
         end; reflexivity
       | repeat split ]).
  - intros Hep.
    unfold revokeAccessToken, axios_post, clearUserSessionData,
      HttpsClient.getInstance, HttpsClient.getAxios, send.
    run. unfold HttpsClient.getInstance. simpl. rewrite Hep. simpl.
    destruct (httpsClient w); simpl;
      (eexists; split;
       [ match goal with
         | |- context [transport ?e ?n ?r] =>
             destruct (transport e n r) as [status body|]; simpl;
             [destruct (status =? 200); simpl|]
         end; reflexivity
       | repeat split ]).
  - intros Hblank Hparse.
    exists (URL.Make (URL.base u0)
              (URL.searchParams u0 ++ authorize_parameters env w config)
              (URL.hash u0)).
    rewrite (getAuthorizationURL_run env w config u0 Hblank Hparse).
    unfold settled. simpl. split.
    + unfold URL.toString. simpl.
      destruct (URL.searchParams u0 ++ authorize_parameters env w config) eqn:Hps.
      * apply app_eq_nil in Hps as [_ Hps]. discriminate Hps.
      * reflexivity.
    + apply elem_of_app. right. unfold authorize_parameters.
      simpl. rewrite !elem_of_cons. right. left. reflexivity.
Qed.

Lemma request_bodies_are_not_encoded_witness :
  (exists r,
      network (world_after (requestAccessToken (Sample.env false) "c&d=e" None
                              (Sample.world Sample.session)))
      = [] ++ [r]
      /\ data r
         = Some ("client_id=client&id=1&client_secret=s3cr&t&code=c&d=e"
                 +:+ "&grant_type=authorization_code"
                 +:+ "&redirect_uri=https://app.example/login"
                 +:+ "&code_verifier=old-verifier"))
  /\ (exists r,
         network (world_after (refreshAccessToken (Sample.env false)
                                 (Sample.world Sample.session)))
         = [] ++ [r]
         /\ data r
            = Some ("client_id=client&id=1&refresh_token=RT"
                    +:+ "&grant_type=refresh_token&client_secret=s3cr&t"))
  /\ (exists r,
         network (world_after (revokeAccessToken (Sample.env false)
                                 (Sample.world Sample.session)))
         = [] ++ [r]
         /\ data r
            = Some "client_id=client&id=1&token=AT&token_type_hint=access_token").
Proof.
  destruct (request_bodies_are_not_encoded (Sample.env false)
              (Sample.world Sample.session) "c&d=e" None None
              (URL.Make "https://idp.example/oauth2/authorize" [] ""))
    as (Hexchange & Hrefresh & Hrevoke & _).
  split; [|split].
  - destruct Hexchange as (r & Hnet & _ & _ & Hdata); [vm_compute; reflexivity|].
    exists r. split; [exact Hnet | rewrite Hdata; vm_compute; reflexivity].
  - destruct Hrefresh as (r & Hnet & _ & _ & Hdata);
      [vm_compute; reflexivity | vm_compute; reflexivity |].
    exists r. split; [exact Hnet | rewrite Hdata; vm_compute; reflexivity].
  - destruct Hrevoke as (r & Hnet & _ & _ & Hdata); [vm_compute; reflexivity|].
    exists r. split; [exact Hnet | rewrite Hdata; vm_compute; reflexivity].
Defined.

(** ** Exchanging the authorization code *)

(** C2. With PKCE enabled and a token endpoint that answers 200 with a
    token body whose access_token is [a], [requestAccessToken] resolves,
    for every authorization code, with a token result whose access token
    is [a]; the body is stored as the new session data and the PKCE code
    verifier is gone from temporary data. *)
Theorem requestAccessToken_stores_session_and_consumes_verifier
    (env : Environment) (w : World) (authorizationCode : string)
    (sessionState : option string) (endpoint a : string)
    (body : gmap string string) :
  enablePKCE (configData (dataLayer w)) = true ->
  oidcProviderMetaData (dataLayer w) !! "token_endpoint" = Some endpoint ->
  JS.blank (Some endpoint) = false ->
  (forall r, method r = POST -> url r = endpoint ->
             transport env (network w) r = Fulfilled 200 body) ->
  body !! "access_token" = Some a ->
  exists (response : TokenResponse) (w' : World),
    requestAccessToken env authorizationCode sessionState w = (Ok response, w')
    /\ accessToken response = Some a
    /\ sessionData (dataLayer w') = body
    /\ sessionData (dataLayer w') !! "access_token" = Some a
    /\ temporaryData (dataLayer w') !! PKCE_CODE_VERIFIER = None.
Proof.
  intros Hpkce Hep Hblank Htransport Ha.
  unfold requestAccessToken, axios_post, handleTokenResponse,
    HttpsClient.getAxios, send.
  run. unfold HttpsClient.getInstance. simpl.
  rewrite Hep, Hblank, Hpkce. simpl.
  destruct (JS.truthy sessionState); simpl;
    destruct (httpsClient w); simpl;
    match goal with
    | |- context [transport ?e ?n ?r] => rewrite (Htransport r eq_refl eq_refl)
    end; simpl;
    (do 2 eexists; split; [reflexivity|]; simpl;
     repeat split; try assumption; apply lookup_delete_eq).
Qed.

Lemma requestAccessToken_stores_session_and_consumes_verifier_witness :
  exists (response : TokenResponse) (w' : World),
    requestAccessToken (Sample.env false) "code" (Some "state")
      (Sample.world Sample.session) = (Ok response, w')
    /\ accessToken response = Some "A"
    /\ sessionData (dataLayer w') = Sample.token_body
    /\ sessionData (dataLayer w') !! "access_token" = Some "A"
    /\ temporaryData (dataLayer w') !! PKCE_CODE_VERIFIER = None.
Proof.
  apply (requestAccessToken_stores_session_and_consumes_verifier
           (Sample.env false) (Sample.world Sample.session) "code" (Some "state")
           "https://idp.example/oauth2/token" "A" Sample.token_body).
  - reflexivity.
  - vm_compute. reflexivity.
  - vm_compute. reflexivity.
  - intros r _ Hurl. simpl. unfold Sample.provider. rewrite Hurl. reflexivity.
  - vm_compute. reflexivity.
Defined.

(** ** Provider metadata *)

(** C3. [getOIDCProviderMetaData] resolves true on every invocation. When
    the discovery request is made (forced, or not yet initiated) and
    fails, by a transport error or by a status other than 200, the failure
    is not propagated: exactly one request has been issued, the stored
    metadata are the fallback endpoints (each endpoint name mapped to the
    configured base URL followed by its fixed suffix) and the initiated
    flag is set. *)
Theorem getOIDCProviderMetaData_resolves_true
    (env : Environment) (w : World) (forceInit : bool) :
  let c := configData (dataLayer w) in
  let w' := world_after (getOIDCProviderMetaData env forceInit w) in
  settled (getOIDCProviderMetaData env forceInit w) = Ok true
  /\ ((forceInit = true
       \/ StoreValue_truthy (temporaryData (dataLayer w) !! OP_CONFIG_INITIATED) = false) ->
      (forall r, method r = GET -> url r = baseUrl c +:+ WELL_KNOWN_SUFFIX env ->
                 failed (transport env (network w) r)) ->
      oidcProviderMetaData (dataLayer w')
      = (fun suffix => baseUrl c +:+ suffix) <$> SERVICE_RESOURCES env
      /\ (forall name suffix,
            SERVICE_RESOURCES env !! name = Some suffix ->
            oidcProviderMetaData (dataLayer w') !! name = Some (baseUrl c +:+ suffix))
      /\ temporaryData (dataLayer w') !! OP_CONFIG_INITIATED = Some (VBool true)
      /\ (exists r, network w' = network w ++ [r]
                    /\ method r = GET
                    /\ url r = baseUrl c +:+ WELL_KNOWN_SUFFIX env)).
Proof.
  intros c w'. subst c w'.
  unfold getOIDCProviderMetaData, resolveWellKnownEndpoint, resolveEndpoints,
    resolveFallbackEndpoints, axios_get, HttpsClient.getAxios, send.
  run. unfold HttpsClient.getInstance. simpl.
  split.
  - destruct forceInit; simpl;
      try destruct (StoreValue_truthy
                      (temporaryData (dataLayer w) !! OP_CONFIG_INITIATED)); simpl;
      try reflexivity;
      destruct (httpsClient w); simpl;
      match goal with
      | |- context [transport ?e ?n ?r] =>
          destruct (transport e n r) as [status body|]; simpl;
          [destruct (status =? 200); simpl|]
      end; reflexivity.
  - intros Hrequest Hfailed.
    assert (Hskip : (if negb forceInit
                     then StoreValue_truthy
                            (temporaryData (dataLayer w) !! OP_CONFIG_INITIATED)
                     else false) = false).
    { destruct Hrequest as [-> | ->]; [reflexivity|].
      destruct (negb forceInit); reflexivity. }
    destruct forceInit; simpl in *; try rewrite Hskip; simpl;
      destruct (httpsClient w); simpl;
      match goal with
      | |- context [transport ?e ?n ?r] =>
          pose proof (Hfailed r eq_refl eq_refl) as Hf;
          destruct (transport e n r) as [status body|]; simpl in *;
          [apply Z.eqb_neq in Hf; rewrite Hf; simpl|]
      end;
      (split; [reflexivity|]; split;
       [intros name suffix Hname; rewrite lookup_fmap, Hname; reflexivity|];
       split; [apply lookup_insert_eq|]; eexists; repeat split).
Qed.

Lemma getOIDCProviderMetaData_resolves_true_witness :
  let w' := world_after (getOIDCProviderMetaData (Sample.env false) false
                           (Sample.world Sample.session)) in
  oidcProviderMetaData (dataLayer w') !! "token_endpoint"
  = Some "https://idp.example/oauth2/token"
  /\ temporaryData (dataLayer w') !! OP_CONFIG_INITIATED = Some (VBool true).
Proof.
  destruct (proj2 (getOIDCProviderMetaData_resolves_true (Sample.env false)
                     (Sample.world Sample.session) false))
    as (_ & Hnames & Hflag & _).
  - right. vm_compute. reflexivity.
  - intros r _ Hurl. simpl. unfold Sample.provider. rewrite Hurl. exact I.
  - split; [|exact Hflag].
    apply (Hnames "token_endpoint" "/oauth2/token"). vm_compute. reflexivity.
Defined.

(** ** Revoking the access token *)

(** C4, what the code does. When the revocation endpoint answers with a
    status other than 200, [revokeAccessToken] never rejects with the
    invalid-response exception. If the transport resolves with that
    status, the invalid-response exception raised for it (code
    AUTH_CORE-RAT3-NR02) is caught by the handler that closes the request
    chain; if the transport itself rejects, that handler receives the
    transport's error. In both cases the call rejects with the network
    exception AUTH_CORE-RAT3-NR03 built from what was caught. The session
    data are left unchanged. *)
Theorem revokeAccessToken_non_200_rejects_with_network_exception
    (env : Environment) (w : World) (endpoint : string) (answer : HttpResult) :
  oidcProviderMetaData (dataLayer w) !! "revocation_endpoint" = Some endpoint ->
  JS.blank (Some endpoint) = false ->
  failed answer ->
  (forall r, method r = POST -> url r = endpoint ->
             transport env (network w) r = answer) ->
  exists (e caught : Exception) (w' : World),
    revokeAccessToken env w = (Err e, w')
    /\ e = network_exception "AUTH_CORE-RAT3-NR03" "revokeAccessToken"
             "The request to revoke access token failed."
             "The request sent to revoke the access token failed." caught
    /\ match answer with
       | Fulfilled _ _ => is_AsgardeoAuthException "AUTH_CORE-RAT3-NR02" caught
       | Rejected c m response => caught = AxiosError c m response
       end
    /\ is_AsgardeoAuthNetworkException "AUTH_CORE-RAT3-NR03" e
    /\ (forall code, ~ is_AsgardeoAuthException code e)
    /\ sessionData (dataLayer w') = sessionData (dataLayer w).
Proof.
  intros Hep Hblank Hfailed Htransport.
  unfold revokeAccessToken, axios_post, clearUserSessionData,
    HttpsClient.getAxios, send.
  run. unfold HttpsClient.getInstance. simpl.
  rewrite Hep, Hblank. simpl.
  destruct (httpsClient w); simpl;
    match goal with
    | |- context [transport ?e ?n ?r] => rewrite (Htransport r eq_refl eq_refl)
    end;
    (destruct answer as [status body | c m response]; simpl in *;
     [apply Z.eqb_neq in Hfailed; rewrite Hfailed; simpl|];
     (do 3 eexists; split; [reflexivity|];
      split; [reflexivity|]; split; [reflexivity|];
      split; [reflexivity|]; split; [intros code H; exact H | reflexivity])).
Qed.

Lemma revokeAccessToken_non_200_rejects_with_network_exception_witness :
  exists (e : Exception) (w' : World),
    revokeAccessToken (Sample.env false) (Sample.world Sample.session) = (Err e, w')
    /\ is_AsgardeoAuthNetworkException "AUTH_CORE-RAT3-NR03" e
    /\ sessionData (dataLayer w') = Sample.session.
Proof.
  destruct (revokeAccessToken_non_200_rejects_with_network_exception
              (Sample.env false) (Sample.world Sample.session)
              "https://idp.example/oauth2/revoke" (Fulfilled 204 ∅))
    as (e & caught & w' & Hrun & _ & _ & Hkind & _ & Hsession).
  - vm_compute. reflexivity.
  - vm_compute. reflexivity.
  - simpl. discriminate.
  - intros r _ Hurl. simpl. unfold Sample.provider. rewrite Hurl. reflexivity.
  - exists e, w'. split; [exact Hrun | split; [exact Hkind | exact Hsession]].
Defined.

(** ** Decoding undoes encoding *)

(** A check over a range of integers, run once and used pointwise. *)
Lemma range_check (P : Z -> bool) (n : Z) :
  forallb P (seqZ 0 n) = true ->
  forall x, 0 <= x < n -> P x = true.
Proof.
  intros Hall x Hx.
  rewrite forallb_forall in Hall. apply Hall.
  apply list_elem_of_In, elem_of_seqZ. lia.
Qed.

Lemma range_check2 (P : Z -> Z -> bool) (n m : Z) :
  forallb (fun x => forallb (P x) (seqZ 0 m)) (seqZ 0 n) = true ->
  forall x y, 0 <= x < n -> 0 <= y < m -> P x y = true.
Proof.
  intros Hall x y Hx Hy.
  apply (range_check (P x) m); [|exact Hy].
  apply (range_check (fun x => forallb (P x) (seqZ 0 m)) n Hall x Hx).
Qed.

Lemma sextet_of_digit (i : Z) :
  0 <= i < 64 ->
  Base64.sextet (Base64URL.digit i) = Some i
  /\ Ascii.eqb (Base64URL.digit i) "=" = false
  /\ Ascii.eqb (Base64URL.digit i) "." = false.
Proof.
  intros Hi.
  pose proof (range_check
                (fun i => match Base64.sextet (Base64URL.digit i) with
                          | Some j => (j =? i)
                          | None => false
                          end
                          && negb (Ascii.eqb (Base64URL.digit i) "=")
                          && negb (Ascii.eqb (Base64URL.digit i) "."))
                64 eq_refl i Hi) as Hcheck.
  apply andb_true_iff in Hcheck as [Hcheck Hdot].
  apply andb_true_iff in Hcheck as [Hsextet Hpad].
  destruct (Base64.sextet (Base64URL.digit i)) as [j|]; [|discriminate].
  apply Z.eqb_eq in Hsextet as ->.
  apply negb_true_iff in Hpad, Hdot. tauto.
Qed.

Lemma sextets_cons_digit (i : Z) (s : string) :
  0 <= i < 64 ->
  Base64.sextets (String (Base64URL.digit i) s) = i :: Base64.sextets s.
Proof.
  intros Hi. destruct (sextet_of_digit i Hi) as (Hs & Hpad & _).
  simpl. rewrite Hpad, Hs. reflexivity.
Qed.

(** The bit patterns of three bytes, regrouped into four sextets and
    back. Each identity is checked over all the bytes it mentions. *)
Lemma regroup_first (b0 b1 : Z) :
  0 <= b0 < 256 -> 0 <= b1 < 256 ->
  Z.lor (Z.shiftl (Z.shiftr b0 2) 2)
        (Z.shiftr (Z.lor (Z.shiftl (Z.land b0 3) 4) (Z.shiftr b1 4)) 4) = b0.
Proof.
  intros H0 H1. apply Z.eqb_eq.
  apply (range_check2
           (fun b0 b1 =>
              Z.lor (Z.shiftl (Z.shiftr b0 2) 2)
                (Z.shiftr (Z.lor (Z.shiftl (Z.land b0 3) 4) (Z.shiftr b1 4)) 4)
              =? b0) 256 256); [vm_compute; reflexivity | exact H0 | exact H1].
Qed.

Lemma regroup_first_alone (b0 : Z) :
  0 <= b0 < 256 ->
  Z.lor (Z.shiftl (Z.shiftr b0 2) 2) (Z.shiftr (Z.shiftl (Z.land b0 3) 4) 4) = b0.
Proof.
  intros H0. apply Z.eqb_eq.
  apply (range_check
           (fun b0 =>
              Z.lor (Z.shiftl (Z.shiftr b0 2) 2)
                (Z.shiftr (Z.shiftl (Z.land b0 3) 4) 4) =? b0) 256);
    [vm_compute; reflexivity | exact H0].
Qed.

Lemma regroup_second_high (b0 b1 : Z) :
  0 <= b0 < 256 -> 0 <= b1 < 256 ->
  Z.land (Z.lor (Z.shiftl (Z.land b0 3) 4) (Z.shiftr b1 4)) 15 = Z.shiftr b1 4.
Proof.
  intros H0 H1. apply Z.eqb_eq.
  apply (range_check2
           (fun b0 b1 =>
              Z.land (Z.lor (Z.shiftl (Z.land b0 3) 4) (Z.shiftr b1 4)) 15
              =? Z.shiftr b1 4) 256 256);
    [vm_compute; reflexivity | exact H0 | exact H1].
Qed.

Lemma regroup_second_low (b1 b2 : Z) :
  0 <= b1 < 256 -> 0 <= b2 < 256 ->
  Z.shiftr (Z.lor (Z.shiftl (Z.land b1 15) 2) (Z.shiftr b2 6)) 2 = Z.land b1 15
  /\ Z.land (Z.lor (Z.shiftl (Z.land b1 15) 2) (Z.shiftr b2 6)) 3 = Z.shiftr b2 6.
Proof.
  intros H1 H2.
  pose proof (range_check2
                (fun b1 b2 =>
                   (Z.shiftr (Z.lor (Z.shiftl (Z.land b1 15) 2) (Z.shiftr b2 6)) 2
                    =? Z.land b1 15)
                   && (Z.land (Z.lor (Z.shiftl (Z.land b1 15) 2) (Z.shiftr b2 6)) 3
                       =? Z.shiftr b2 6)) 256 256) as Hcheck.
  cbv beta in Hcheck.
  specialize (Hcheck ltac:(vm_compute; reflexivity) b1 b2 H1 H2).
  apply andb_true_iff in Hcheck as [Ha Hb].
  apply Z.eqb_eq in Ha, Hb. split; assumption.
Qed.

Lemma regroup_byte (b : Z) :
  0 <= b < 256 ->
  Z.lor (Z.shiftl (Z.shiftr b 4) 4) (Z.land b 15) = b
  /\ Z.lor (Z.shiftl (Z.shiftr b 6) 6) (Z.land b 63) = b
  /\ Z.shiftr (Z.shiftl (Z.land b 15) 2) 2 = Z.land b 15.
Proof.
  intros Hb.
  pose proof (range_check
                (fun b =>
                   (Z.lor (Z.shiftl (Z.shiftr b 4) 4) (Z.land b 15) =? b)
                   && (Z.lor (Z.shiftl (Z.shiftr b 6) 6) (Z.land b 63) =? b)
                   && (Z.shiftr (Z.shiftl (Z.land b 15) 2) 2 =? Z.land b 15)) 256)
    as Hcheck.
  cbv beta in Hcheck.
  specialize (Hcheck ltac:(vm_compute; reflexivity) b Hb).
  apply andb_true_iff in Hcheck as [Hcheck Hc].
  apply andb_true_iff in Hcheck as [Ha Hb'].
  apply Z.eqb_eq in Ha, Hb', Hc. tauto.
Qed.

(** The lenient decoder reads back what base64url without padding
    wrote. *)
Lemma bytes_of_sextets_encode (n : nat) :
  forall bs : list Z,
    (length bs <= n)%nat ->
    Forall (fun b => 0 <= b < 256) bs ->
    Base64.bytes_of_sextets (Base64.sextets (Base64URL.encode bs)) = bs.
Proof.
  induction n as [|n IH]; intros bs Hlen Hbytes.
  - destruct bs; [reflexivity | simpl in Hlen; lia].
  - destruct bs as [|b0 [|b1 [|b2 rest]]]; [reflexivity| | |].
    + inversion_clear Hbytes as [|? ? H0 _].
      destruct (sextet_ranges b0 b0 H0 H0) as (R1 & R2 & _).
      cbn [Base64URL.encode].
      rewrite (sextets_cons_digit _ _ R1), (sextets_cons_digit _ _ R2).
      cbn [Base64.sextets Base64.bytes_of_sextets].
      rewrite (regroup_first_alone b0 H0). reflexivity.
    + inversion_clear Hbytes as [|? ? H0 Hrest].
      inversion_clear Hrest as [|? ? H1 _].
      destruct (sextet_ranges b0 b1 H0 H1) as (R1 & _ & R3 & _).
      destruct (sextet_ranges b1 b1 H1 H1) as (_ & _ & _ & R4 & _).
      cbn [Base64URL.encode].
      rewrite (sextets_cons_digit _ _ R1), (sextets_cons_digit _ _ R3),
        (sextets_cons_digit _ _ R4).
      cbn [Base64.sextets Base64.bytes_of_sextets].
      rewrite (regroup_first b0 b1 H0 H1), (regroup_second_high b0 b1 H0 H1).
      destruct (regroup_byte b1 H1) as (Hb & _ & Hlow). rewrite Hlow, Hb.
      reflexivity.
    + inversion_clear Hbytes as [|? ? H0 Hrest].
      inversion_clear Hrest as [|? ? H1 Hrest'].
      inversion_clear Hrest' as [|? ? H2 Hrest''].
      destruct (sextet_ranges b0 b1 H0 H1) as (R1 & _ & R3 & _).
      destruct (sextet_ranges b1 b2 H1 H2) as (_ & _ & _ & _ & R5 & _).
      destruct (sextet_ranges b2 b2 H2 H2) as (_ & _ & _ & _ & _ & R6).
      cbn [Base64URL.encode].
      rewrite (sextets_cons_digit _ _ R1), (sextets_cons_digit _ _ R3),
        (sextets_cons_digit _ _ R5), (sextets_cons_digit _ _ R6).
      cbn [Base64.bytes_of_sextets].
      rewrite (regroup_first b0 b1 H0 H1), (regroup_second_high b0 b1 H0 H1).
      destruct (regroup_second_low b1 b2 H1 H2) as [Hlow Hhigh].
      rewrite Hlow, Hhigh.
      destruct (regroup_byte b1 H1) as (Hb1 & _ & _).
      destruct (regroup_byte b2 H2) as (_ & Hb2 & _).
      rewrite Hb1, Hb2.
      rewrite (IH rest); [reflexivity | simpl in Hlen; lia | exact Hrest''].
Qed.

Lemma sextets_replace_all (c r : ascii) (s : string) :
  Base64.sextet c = Base64.sextet r ->
  Ascii.eqb c "=" = false -> Ascii.eqb r "=" = false ->
  Base64.sextets (replace_all c (String r "") s) = Base64.sextets s.
Proof.
  intros Hsame Hc Hr. induction s as [|a s IH]; [reflexivity|].
  simpl. destruct (Ascii.eqb a c) eqn:Hac.
  - apply Ascii.eqb_eq in Hac as ->.
    change (String r "" +:+ replace_all c (String r "") s)
      with (String r (replace_all c (String r "") s)).
    simpl. rewrite Hc, Hr, IH, Hsame. reflexivity.
  - simpl. rewrite IH. reflexivity.
Qed.

Lemma sextets_padding (s t : string) :
  Base64.sextets (s +:+ String "=" t) = Base64.sextets s.
Proof.
  induction s as [|a s IH]; [reflexivity|].
  change (String a s +:+ String "=" t) with (String a (s +:+ String "=" t)).
  simpl. rewrite IH. reflexivity.
Qed.

Lemma byte_of_Z_of_byte (b : byte) : byte_of_Z (Z_of_byte b) = b.
Proof. destruct b; reflexivity. Qed.

Lemma bytes_of_Z_of_bytes (buf : list byte) :
  byte_of_Z <$> (Z_of_byte <$> buf) = buf.
Proof.
  induction buf as [|b buf IH]; [reflexivity|].
  cbn [fmap list_fmap]. rewrite byte_of_Z_of_byte. f_equal. exact IH.
Qed.

Lemma base64url_char_digit (i : Z) :
  0 <= i < 64 -> base64url_char (Base64URL.digit i) = true.
Proof.
  intros Hi.
  exact (range_check (fun i => base64url_char (Base64URL.digit i)) 64 eq_refl i Hi).
Qed.

Lemma encode_valid_and_length (n : nat) :
  forall bs : list Z,
    (length bs <= n)%nat ->
    Forall (fun b => 0 <= b < 256) bs ->
    valid_base64url (Base64URL.encode bs) = true
    /\ String.length (Base64URL.encode bs) = ((4 * length bs + 2) / 3)%nat.
Proof.
  induction n as [|n IH]; intros bs Hlen Hbytes.
  - destruct bs; [split; reflexivity | simpl in Hlen; lia].
  - destruct bs as [|b0 [|b1 [|b2 rest]]]; [split; reflexivity| | |].
    + inversion_clear Hbytes as [|? ? H0 _].
      destruct (sextet_ranges b0 b0 H0 H0) as (R1 & R2 & _).
      cbn [Base64URL.encode valid_base64url].
      rewrite (base64url_char_digit _ R1), (base64url_char_digit _ R2).
      split; reflexivity.
    + inversion_clear Hbytes as [|? ? H0 Hrest].
      inversion_clear Hrest as [|? ? H1 _].
      destruct (sextet_ranges b0 b1 H0 H1) as (R1 & _ & R3 & _).
      destruct (sextet_ranges b1 b1 H1 H1) as (_ & _ & _ & R4 & _).
      cbn [Base64URL.encode valid_base64url].
      rewrite (base64url_char_digit _ R1), (base64url_char_digit _ R3),
        (base64url_char_digit _ R4).
      split; reflexivity.
    + inversion_clear Hbytes as [|? ? H0 Hrest].
      inversion_clear Hrest as [|? ? H1 Hrest'].
      inversion_clear Hrest' as [|? ? H2 Hrest''].
      destruct (sextet_ranges b0 b1 H0 H1) as (R1 & _ & R3 & _).
      destruct (sextet_ranges b1 b2 H1 H2) as (_ & _ & _ & _ & R5 & _).
      destruct (sextet_ranges b2 b2 H2 H2) as (_ & _ & _ & _ & _ & R6).
      destruct (IH rest) as [Hvalid Hlength];
        [simpl in Hlen; lia | exact Hrest'' |].
      cbn [Base64URL.encode valid_base64url String.length].
      rewrite (base64url_char_digit _ R1), (base64url_char_digit _ R3),
        (base64url_char_digit _ R5), (base64url_char_digit _ R6), Hvalid, Hlength.
      split; [reflexivity|].
      cbn [length].
      replace (4 * S (S (S (length rest))) + 2)%nat
        with ((4 * length rest + 2) + 4 * 3)%nat by lia.
      rewrite Nat.div_add by lia. lia.
Qed.

Lemma encode_bytes_valid_and_length (buf : list byte) :
  valid_base64url (Base64URL.encode_bytes buf) = true
  /\ String.length (Base64URL.encode_bytes buf) = ((4 * length buf + 2) / 3)%nat.
Proof.
  unfold Base64URL.encode_bytes.
  destruct (encode_valid_and_length (length (Z_of_byte <$> buf)) (Z_of_byte <$> buf))
    as [Hvalid Hlength]; [reflexivity | apply bytes_in_range |].
  rewrite length_fmap in Hlength. split; assumption.
Qed.

(** ** Texts of ASCII characters

    On them the characters are the bytes, [length] is the number of
    bytes, the decoder's table index is the text itself and [padString]
    appends the padding. *)

Lemma ascii_of_Z_of_ascii (c : ascii) : ascii_of_Z (Z_of_ascii c) = c.
Proof.
  unfold ascii_of_Z, Z_of_ascii. rewrite byte_of_Z_of_byte.
  apply ascii_of_byte_of_ascii.
Qed.

Lemma chars_ascii (s : string) :
  ascii_only s = true ->
  UTF8.chars s = (fun c => String c "") <$> String.list_ascii_of_string s.
Proof.
  induction s as [|c s IH]; intros Hs; [reflexivity|].
  cbn [ascii_only] in Hs. apply andb_true_iff in Hs as [_ Hs].
  cbn [UTF8.chars String.list_ascii_of_string]. rewrite (IH Hs).
  destruct s as [|c' s']; [reflexivity|].
  cbn [ascii_only] in Hs. apply andb_true_iff in Hs as [Hc' _].
  apply Z.ltb_lt in Hc'.
  cbn [String.list_ascii_of_string fmap list_fmap UTF8.continues].
  unfold UTF8.is_continuation.
  replace (0x80 <=? Z_of_ascii c') with false by (symmetry; apply Z.leb_gt; lia).
  reflexivity.
Qed.

Lemma units_ascii (s : string) :
  ascii_only s = true ->
  UTF8.units s = Z_of_ascii <$> String.list_ascii_of_string s.
Proof.
  intros Hs. unfold UTF8.units. rewrite (chars_ascii s Hs).
  induction s as [|c s IH]; [reflexivity|].
  cbn [ascii_only] in Hs. apply andb_true_iff in Hs as [Hc Hs].
  cbn [String.list_ascii_of_string fmap list_fmap mbind list_bind].
  change (list_fmap _ _ ?f ?l) with (f <$> l).
  change (list_bind _ _ ?f ?l) with (l ≫= f).
  rewrite (IH Hs). unfold UTF8.code_units.
  cbn [String.list_ascii_of_string fmap list_fmap]. rewrite Hc. reflexivity.
Qed.

Lemma table_index_ascii (s : string) :
  ascii_only s = true -> Base64.table_index s = s.
Proof.
  intros Hs. unfold Base64.table_index. rewrite (units_ascii s Hs). clear Hs.
  induction s as [|c s IH]; [reflexivity|].
  cbn [String.list_ascii_of_string fmap list_fmap String.string_of_list_ascii].
  change (list_fmap _ _ ?f ?l) with (f <$> l).
  rewrite ascii_of_Z_of_ascii. f_equal. exact IH.
Qed.

Lemma length_ascii (s : string) :
  ascii_only s = true -> UTF8.length s = String.length s.
Proof.
  intros Hs. unfold UTF8.length. rewrite (units_ascii s Hs), length_fmap.
  clear Hs. induction s as [|c s IH]; [reflexivity|].
  simpl. rewrite IH. reflexivity.
Qed.

Lemma Buffer_write_ascii (s : string) (k : nat) :
  base64url.Buffer_write ((fun c => String c "") <$> String.list_ascii_of_string s)
    (String.length s + k)
  = s +:+ JS_repeat (String zero "") k.
Proof.
  induction s as [|c s IH]; [reflexivity|].
  cbn [String.list_ascii_of_string fmap list_fmap base64url.Buffer_write String.length].
  change (list_fmap _ _ ?f ?l) with (f <$> l).
  replace (S (String.length s) + k - 1)%nat with (String.length s + k)%nat by lia.
  rewrite IH. reflexivity.
Qed.

Lemma Buffer_prefix_app (s t : string) :
  base64url.Buffer_prefix (String.length s) (s +:+ t) = s.
Proof.
  induction s as [|c s IH]; [destruct t; reflexivity|].
  change (String c s +:+ t) with (String c (s +:+ t)).
  simpl. rewrite IH. reflexivity.
Qed.

Lemma padString_ascii (s : string) :
  ascii_only s = true ->
  base64url.padString s
  = (if Nat.eqb (String.length s mod 4) 0 then s
     else s +:+ JS_repeat "=" (4 - String.length s mod 4)).
Proof.
  intros Hs. unfold base64url.padString.
  rewrite (length_ascii s Hs), (chars_ascii s Hs).
  destruct (Nat.eqb (String.length s mod 4) 0); [reflexivity|].
  rewrite Buffer_write_ascii, Buffer_prefix_app. reflexivity.
Qed.

Lemma ascii_only_app (s t : string) :
  ascii_only s = true -> ascii_only t = true -> ascii_only (s +:+ t) = true.
Proof.
  intros Hs Ht. induction s as [|c s IH]; [exact Ht|].
  change (String c s +:+ t) with (String c (s +:+ t)).
  cbn [ascii_only] in *. apply andb_true_iff in Hs as [Hc Hs].
  rewrite Hc, (IH Hs). reflexivity.
Qed.

Lemma ascii_only_replace_all (c r : ascii) (s : string) :
  (Z_of_ascii r <? 0x80) = true ->
  ascii_only s = true -> ascii_only (replace_all c (String r "") s) = true.
Proof.
  intros Hr Hs. induction s as [|a s IH]; [reflexivity|].
  cbn [ascii_only] in Hs. apply andb_true_iff in Hs as [Ha Hs].
  cbn [replace_all]. destruct (Ascii.eqb a c).
  - change (String r "" +:+ ?t) with (String r t).
    cbn [ascii_only]. rewrite Hr, (IH Hs). reflexivity.
  - cbn [ascii_only]. rewrite Ha, (IH Hs). reflexivity.
Qed.

Lemma ascii_only_padding (k : nat) : ascii_only (JS_repeat "=" k) = true.
Proof.
  induction k as [|k IH]; [reflexivity|].
  change (JS_repeat "=" (S k)) with (String "="%char (JS_repeat "=" k)).
  cbn [ascii_only]. rewrite IH. reflexivity.
Qed.

Lemma valid_base64url_ascii (s : string) :
  valid_base64url s = true -> ascii_only s = true.
Proof.
  induction s as [|c s IH]; [reflexivity|].
  cbn [valid_base64url ascii_only]. intros H.
  apply andb_true_iff in H as [Hc Hs]. rewrite (IH Hs), andb_true_r.
  apply Z.ltb_lt. unfold base64url_char in Hc.
  rewrite !orb_true_iff, !andb_true_iff, !Z.leb_le, !Z.eqb_eq in Hc. lia.
Qed.

Lemma sextets_toBase64 (s : string) :
  ascii_only s = true ->
  Base64.sextets (Base64.table_index (base64url.toBase64 s)) = Base64.sextets s.
Proof.
  intros Hs. unfold base64url.toBase64.
  rewrite (padString_ascii s Hs).
  assert (Hpadded : ascii_only
                      (if Nat.eqb (String.length s mod 4) 0 then s
                       else s +:+ JS_repeat "=" (4 - String.length s mod 4)) = true).
  { destruct (Nat.eqb (String.length s mod 4) 0); [exact Hs|].
    apply ascii_only_app; [exact Hs | apply ascii_only_padding]. }
  rewrite table_index_ascii
    by (apply ascii_only_replace_all; [reflexivity|];
        apply ascii_only_replace_all; [reflexivity | exact Hpadded]).
  rewrite (sextets_replace_all "_" "/") by reflexivity.
  rewrite (sextets_replace_all "-" "+") by reflexivity.
  destruct (Nat.eqb (String.length s mod 4) 0) eqn:Hdiff; [reflexivity|].
  destruct (4 - String.length s mod 4)%nat as [|k] eqn:Hk.
  - pose proof (Nat.mod_upper_bound (String.length s) 4). lia.
  - change (JS_repeat "=" (S k)) with (String "=" (JS_repeat "=" k)).
    apply sextets_padding.
Qed.

(** What the encoder writes is a text of ASCII characters. *)
Lemma encode_ascii_only (bs : list Z) :
  Forall (fun b => 0 <= b < 256) bs -> ascii_only (Base64URL.encode bs) = true.
Proof.
  intros Hbytes. apply valid_base64url_ascii.
  apply (encode_valid_and_length (length bs) bs); [reflexivity | exact Hbytes].
Qed.

(** [base64url.decode] undoes [base64url.encode]. *)
Lemma base64url_decode_encode (s : string) :
  base64url.decode (base64url.encode (IsString s)) = s.
Proof.
  rewrite base64url_encode_string.
  unfold base64url.decode, base64url.Buffer_toString_utf8, Base64.Buffer_from_base64,
    Base64URL.encode_bytes.
  rewrite sextets_toBase64 by (apply encode_ascii_only, bytes_in_range).
  rewrite (bytes_of_sextets_encode (length (Z_of_byte <$> TextEncoder_encode s)));
    [|reflexivity | apply bytes_in_range].
  rewrite bytes_of_Z_of_bytes. unfold TextEncoder_encode.
  apply String.string_of_list_byte_of_string.
Qed.

Lemma encode_without_dot (n : nat) :
  forall bs : list Z,
    (length bs <= n)%nat ->
    Forall (fun b => 0 <= b < 256) bs ->
    contains_char "." (Base64URL.encode bs) = false.
Proof.
  induction n as [|n IH]; intros bs Hlen Hbytes.
  - destruct bs; [reflexivity | simpl in Hlen; lia].
  - destruct bs as [|b0 [|b1 [|b2 rest]]]; [reflexivity| | |].
    + inversion_clear Hbytes as [|? ? H0 _].
      destruct (sextet_ranges b0 b0 H0 H0) as (R1 & R2 & _).
      destruct (sextet_of_digit _ R1) as (_ & _ & D1).
      destruct (sextet_of_digit _ R2) as (_ & _ & D2).
      simpl. rewrite D1, D2. reflexivity.
    + inversion_clear Hbytes as [|? ? H0 Hrest].
      inversion_clear Hrest as [|? ? H1 _].
      destruct (sextet_ranges b0 b1 H0 H1) as (R1 & _ & R3 & _).
      destruct (sextet_ranges b1 b1 H1 H1) as (_ & _ & _ & R4 & _).
      destruct (sextet_of_digit _ R1) as (_ & _ & D1).
      destruct (sextet_of_digit _ R3) as (_ & _ & D3).
      destruct (sextet_of_digit _ R4) as (_ & _ & D4).
      simpl. rewrite D1, D3, D4. reflexivity.
    + inversion_clear Hbytes as [|? ? H0 Hrest].
      inversion_clear Hrest as [|? ? H1 Hrest'].
      inversion_clear Hrest' as [|? ? H2 Hrest''].
      destruct (sextet_ranges b0 b1 H0 H1) as (R1 & _ & R3 & _).
      destruct (sextet_ranges b1 b2 H1 H2) as (_ & _ & _ & _ & R5 & _).
      destruct (sextet_ranges b2 b2 H2 H2) as (_ & _ & _ & _ & _ & R6).
      destruct (sextet_of_digit _ R1) as (_ & _ & D1).
      destruct (sextet_of_digit _ R3) as (_ & _ & D3).
      destruct (sextet_of_digit _ R5) as (_ & _ & D5).
      destruct (sextet_of_digit _ R6) as (_ & _ & D6).
      cbn [Base64URL.encode contains_char]. rewrite D1, D3, D5, D6. simpl.
      apply IH; [simpl in Hlen; lia | exact Hrest''].
Qed.

(** ** Splitting a token at its dots *)

Lemma string_rev_onto_twice (s acc acc' : string) :
  JS.string_rev_onto (JS.string_rev_onto s acc) acc'
  = JS.string_rev_onto acc (s +:+ acc').
Proof.
  revert acc acc'. induction s as [|a s IH]; intros acc acc'; [reflexivity|].
  simpl. rewrite IH. reflexivity.
Qed.

Lemma string_rev_involutive (s : string) : JS.string_rev (JS.string_rev s) = s.
Proof.
  unfold JS.string_rev. rewrite string_rev_onto_twice. simpl.
  apply append_empty_r.
Qed.

Lemma split_onto_segment (sep : ascii) (s rest cur : string) :
  contains_char sep s = false ->
  JS.split_onto sep (s +:+ String sep rest) cur
  = JS.string_rev (JS.string_rev_onto s cur) :: JS.split_onto sep rest "".
Proof.
  revert cur. induction s as [|a s IH]; intros cur Hno.
  - simpl. rewrite Ascii.eqb_refl. reflexivity.
  - simpl in Hno. apply orb_false_iff in Hno as [Ha Hs].
    change (String a s +:+ String sep rest) with (String a (s +:+ String sep rest)).
    simpl. rewrite Ha. apply IH, Hs.
Qed.

Lemma split_token (header segment signature : string) :
  contains_char "." header = false ->
  contains_char "." segment = false ->
  JS.split "." (header +:+ "." +:+ segment +:+ "." +:+ signature) !! 1%nat
  = Some segment.
Proof.
  intros Hh Hs. unfold JS.split.
  change ("." +:+ segment +:+ "." +:+ signature)
    with (String "."%char (segment +:+ String "."%char signature)).
  rewrite (split_onto_segment "." header _ "" Hh).
  rewrite (split_onto_segment "." segment _ "" Hs).
  simpl. f_equal. apply string_rev_involutive.
Qed.
(** ** Decoding the ID token *)

Lemma split_onto_without_separator (sep : ascii) (s cur : string) :
  contains_char sep s = false ->
  length (JS.split_onto sep s cur) = 1%nat.
Proof.
  revert cur. induction s as [|a s IH]; intros cur Hno; simpl in *.
  - reflexivity.
  - apply orb_false_iff in Hno as [Ha Hs]. rewrite Ha. apply IH, Hs.
Qed.

Lemma decodeIDToken_error_kind (idToken : string) (e : Exception) :
  decodeIDToken idToken = Err e ->
  is_AsgardeoAuthException "CRYPTO_UTIL-DIT-IV01" e.
Proof.
  unfold decodeIDToken.
  destruct (decodeIDToken_try idToken); intros H; inversion H; reflexivity.
Qed.

(** C9, as the claim states it, fails: a middle segment outside the
    base64url alphabet (it holds a slash) is decoded all the same and the
    token is accepted; and a middle segment that decodes to a JSON text
    which is no object yields that value, not a claim map. *)
Lemma decodeIDToken_malformed_segment_counterexample :
  JS.split "." "h.eyJhIjoiPz8/In0.s" !! 1%nat = Some "eyJhIjoiPz8/In0"
  /\ valid_base64url "eyJhIjoiPz8/In0" = false
  /\ decodeIDToken "h.eyJhIjoiPz8/In0.s" = Ok (JSON.Object [("a", JSON.Str "???")])
  /\ decodeIDToken "h.MTIz.s" = Ok (JSON.Number "123").
Proof. vm_compute. repeat split. Qed.

(** C9, amended. For every input string [decodeIDToken] settles, and what
    it raises is always the token-decoding exception, never another one.
    It fails when the token has no dot (so no second segment) and when
    the second segment, decoded leniently (both base64 alphabets are
    accepted, characters outside them are skipped), is not a JSON text;
    otherwise it returns the parsed JSON value of the second segment,
    whatever it is, without looking at the other segments or at a
    signature. In particular a token whose second segment is the
    base64url encoding of a JSON text yields the value of that text. *)
Theorem decodeIDToken_total (idToken : string) :
  ((exists payload, decodeIDToken idToken = Ok payload)
   \/ (exists e, decodeIDToken idToken = Err e
                 /\ is_AsgardeoAuthException "CRYPTO_UTIL-DIT-IV01" e))
  /\ (contains_char "." idToken = false ->
      exists e, decodeIDToken idToken = Err e)
  /\ (forall segment,
        JS.split "." idToken !! 1%nat = Some segment ->
        JSON.parse (base64url.decode segment) = None ->
        exists e, decodeIDToken idToken = Err e)
  /\ (forall segment payload,
        JS.split "." idToken !! 1%nat = Some segment ->
        JSON.parse (base64url.decode segment) = Some payload ->
        decodeIDToken idToken = Ok payload)
  /\ (forall header segment signature signature',
        contains_char "." header = false ->
        decodeIDToken (header +:+ "." +:+ segment +:+ "." +:+ signature)
        = decodeIDToken (header +:+ "." +:+ segment +:+ "." +:+ signature'))
  /\ (forall header text signature payload,
        contains_char "." header = false ->
        JSON.parse text = Some payload ->
        decodeIDToken (header +:+ "." +:+ base64url.encode (IsString text)
                       +:+ "." +:+ signature)
        = Ok payload).
Proof.
  split; [|split; [|split; [|split; [|split]]]];
    [| | | | |
     intros header text signature payload Hno Hparse;
     unfold decodeIDToken, decodeIDToken_try;
     rewrite (split_token header _ signature Hno);
     [ rewrite base64url_decode_encode, Hparse; reflexivity
     | rewrite base64url_encode_string; unfold Base64URL.encode_bytes;
       apply (encode_without_dot
                (length (Z_of_byte <$> TextEncoder_encode text)));
       [reflexivity | apply bytes_in_range] ] ].
  - destruct (decodeIDToken idToken) as [p|e] eqn:Hrun.
    + left. exists p. reflexivity.
    + right. exists e. split; [reflexivity|].
      apply (decodeIDToken_error_kind idToken), Hrun.
  - intros Hno. unfold decodeIDToken, decodeIDToken_try.
    pose proof (split_onto_without_separator "." idToken "" Hno) as Hlen.
    unfold JS.split.
    destruct (JS.split_onto "." idToken "") as [|x [|y l]]; try discriminate.
    simpl. eexists. reflexivity.
  - intros segment Hseg Hnone. unfold decodeIDToken, decodeIDToken_try.
    rewrite Hseg, Hnone. eexists. reflexivity.
  - intros segment payload Hseg Hsome. unfold decodeIDToken, decodeIDToken_try.
    rewrite Hseg, Hsome. reflexivity.
  - intros header segment signature signature' Hno.
    unfold decodeIDToken, decodeIDToken_try.
    assert (Hsplit : forall rest cur,
               JS.split_onto "." (header +:+ "." +:+ rest) cur
               = JS.string_rev (JS.string_rev_onto header cur)
                 :: JS.split_onto "." rest "").
    { intros rest. clear - Hno. induction header as [|a h IH]; intros cur.
      - reflexivity.
      - simpl in Hno. apply orb_false_iff in Hno as [Ha Hh].
        change (String a h +:+ "." +:+ rest) with (String a (h +:+ "." +:+ rest)).
        simpl. rewrite Ha. rewrite (IH Hh). reflexivity. }
    assert (Hseg : forall sig cur,
               JS.split_onto "." (segment +:+ "." +:+ sig) cur !! 0%nat
               = JS.split_onto "." (segment +:+ "." +:+ signature) cur !! 0%nat).
    { intros sig. clear. induction segment as [|a s IH]; intros cur.
      - reflexivity.
      - change (String a s +:+ "." +:+ sig) with (String a (s +:+ "." +:+ sig)).
        change (String a s +:+ "." +:+ signature)
          with (String a (s +:+ "." +:+ signature)).
        simpl. destruct (Ascii.eqb a "."); [reflexivity | apply IH]. }
    assert (Hseg' := fun sig (cur : string) => Hseg sig "").
    unfold JS.split. rewrite !Hsplit.
    change (forall sig cur,
               (JS.string_rev (JS.string_rev_onto header cur)
                :: JS.split_onto "." (segment +:+ "." +:+ sig) "") !! 1%nat
               = (JS.string_rev (JS.string_rev_onto header cur)
                  :: JS.split_onto "." (segment +:+ "." +:+ signature) "") !! 1%nat)
      in Hseg'.
    rewrite (Hseg' signature'). reflexivity.
Qed.

Lemma decodeIDToken_total_witness :
  decodeIDToken "h.eyJhIjoiPz8_In0.s" = Ok (JSON.Object [("a", JSON.Str "???")])
  /\ (exists e, decodeIDToken "no-dot-at-all" = Err e)
  /\ (exists e, decodeIDToken "h.bm90IGpzb24.s" = Err e)
  /\ decodeIDToken ("h." +:+ base64url.encode (IsString "[true,null]") +:+ ".s")
     = Ok (JSON.Array [JSON.Bool true; JSON.Null])
  /\ base64url.decode ("e3" +:+ e_acute +:+ e_acute +:+ "0") = "{"
  /\ (exists e, decodeIDToken token_with_accents = Err e).
Proof.
  destruct (decodeIDToken_total "h.eyJhIjoiPz8_In0.s") as (_ & _ & _ & Hok & _).
  destruct (decodeIDToken_total "no-dot-at-all") as (_ & Hnodot & _).
  destruct (decodeIDToken_total "h.bm90IGpzb24.s")
    as (_ & _ & Hbad & _ & _ & Hencoded).
  destruct (decodeIDToken_total token_with_accents) as (_ & _ & Haccents & _).
  split; [|split; [|split; [|split; [|split]]]].
  - apply (Hok "eyJhIjoiPz8_In0"); vm_compute; reflexivity.
  - apply Hnodot. vm_compute. reflexivity.
  - apply (Hbad "bm90IGpzb24"); vm_compute; reflexivity.
  - apply (Hencoded "h" "[true,null]" "s"); vm_compute; reflexivity.
  - vm_compute. reflexivity.
  - apply (Haccents ("e3" +:+ e_acute +:+ e_acute +:+ "0")); vm_compute; reflexivity.
Defined.

(* ===================================================================== *)
(** * Further properties of the code *)
(* ===================================================================== *)

(* ===================================================================== *)
(** * Further properties *)
(* ===================================================================== *)

(** ** The encoder of CryptoUtils *)

Lemma base64URLEncode_string (s : string) :
  CryptoUtils.base64URLEncode (IsString s)
  = Base64URL.encode_bytes (TextEncoder_encode s).
Proof.
  unfold CryptoUtils.base64URLEncode, base64url.encode,
    Base64.Buffer_toString_base64, Base64URL.encode_bytes.
  apply (base64_encode_rewritten to_url_safe eq_refl eq_refl eq_refl
           to_url_safe_digit (length (Z_of_byte <$> TextEncoder_encode s)));
    [reflexivity | apply bytes_in_range].
Qed.

Lemma base64URLEncode_value (value : BufferOrString) :
  CryptoUtils.base64URLEncode value = Base64URL.encode_bytes (bytes_of_value value).
Proof.
  destruct value; [apply base64URLEncode_buffer | apply base64URLEncode_string].
Qed.

Lemma base64url_encode_value (value : BufferOrString) :
  base64url.encode value = Base64URL.encode_bytes (bytes_of_value value).
Proof.
  destruct value as [buf|s]; [|apply base64url_encode_string].
  unfold base64url.encode, Base64.Buffer_toString_base64, Base64URL.encode_bytes.
  apply (base64_encode_rewritten base64url.fromBase64 eq_refl eq_refl eq_refl
           fromBase64_digit (length (Z_of_byte <$> buf)));
    [reflexivity | apply bytes_in_range].
Qed.

(** X1. [base64URLEncode] yields base64url without padding for a buffer
    and for a string alike: its result holds only letters, digits, [-]
    and [_], is as long as the rounded-up four thirds of the byte count,
    and is what [base64url.encode] gave already, so that the three
    replacements of [base64URLEncode] never change anything. *)
Theorem base64URLEncode_url_safe (value : BufferOrString) :
  CryptoUtils.base64URLEncode value = base64url.encode value
  /\ CryptoUtils.base64URLEncode value = Base64URL.encode_bytes (bytes_of_value value)
  /\ valid_base64url (CryptoUtils.base64URLEncode value) = true
  /\ String.length (CryptoUtils.base64URLEncode value)
     = ((4 * length (bytes_of_value value) + 2) / 3)%nat.
Proof.
  rewrite base64url_encode_value, base64URLEncode_value.
  destruct (encode_bytes_valid_and_length (bytes_of_value value)) as [Hv Hl].
  repeat split; assumption.
Qed.

(** ** The size of verifier and challenge *)

Lemma compress_length (h block : list Z) : length (SHA256.compress h block) = 8%nat.
Proof. reflexivity. Qed.

Lemma foldl_compress_length (blocks : list (list Z)) :
  forall h, length h = 8%nat -> length (foldl SHA256.compress h blocks) = 8%nat.
Proof.
  induction blocks as [|b blocks IH]; intros h Hh; [exact Hh|].
  simpl. apply IH, compress_length.
Qed.

Lemma sha256_length (msg : list byte) : length (SHA256.sha256 msg) = 32%nat.
Proof.
  unfold SHA256.sha256, SHA256.digest_words.
  rewrite length_fmap.
  pose proof (foldl_compress_length
                (SHA256.chunks
                   (length (SHA256.words_of_bytes (SHA256.pad (Z_of_byte <$> msg)))) 16
                   (SHA256.words_of_bytes (SHA256.pad (Z_of_byte <$> msg))))
                SHA256.H0 eq_refl) as Hlen.
  destruct (foldl SHA256.compress SHA256.H0 _) as [|a [|b [|c [|d [|e [|f [|g [|h [|? ?]]]]]]]]];
    try discriminate Hlen.
  reflexivity.
Qed.

(** X2. Whatever the verifier, the code challenge is 43 characters long
    and holds only letters, digits, [-] and [_]: the size and alphabet
    RFC 7636 gives an S256 challenge. *)
Theorem getCodeChallenge_size_and_alphabet (verifier : string) :
  String.length (CryptoUtils.getCodeChallenge verifier) = 43%nat
  /\ valid_base64url (CryptoUtils.getCodeChallenge verifier) = true.
Proof.
  unfold CryptoUtils.getCodeChallenge. rewrite base64URLEncode_buffer.
  destruct (encode_bytes_valid_and_length
              (SHA256.sha256 (TextEncoder_encode verifier))) as [Hv Hl].
  rewrite sha256_length in Hl. split; [exact Hl | exact Hv].
Qed.

Lemma hex_stringify_length (bs : list byte) :
  String.length (Hex.stringify bs) = (2 * length bs)%nat.
Proof.
  induction bs as [|b bs IH]; [reflexivity|].
  cbn [Hex.stringify String.length length]. rewrite IH. lia.
Qed.

Lemma TextEncoder_encode_length (s : string) :
  length (TextEncoder_encode s) = String.length s.
Proof.
  unfold TextEncoder_encode.
  induction s as [|a s IH]; [reflexivity|].
  cbn. f_equal. exact IH.
Qed.

Lemma string_length_app (s t : string) :
  String.length (s +:+ t) = (String.length s + String.length t)%nat.
Proof.
  induction s as [|c s IH]; [reflexivity|].
  change (String c s +:+ t) with (String c (s +:+ t)). simpl. rewrite IH. reflexivity.
Qed.

Lemma fromCharCodes_length (octets : list byte) :
  String.length (String_fromCharCodes octets)
  = (length octets + high_octets octets)%nat.
Proof.
  induction octets as [|b octets IH]; [reflexivity|].
  cbn [String_fromCharCodes foldr]. fold (String_fromCharCodes octets).
  rewrite string_length_app, IH. unfold high_octets. rewrite filter_cons.
  pose proof (Z_of_byte_range b) as Hb. unfold UTF8.encode.
  destruct (decide (0x80 <= Z_of_byte b)) as [Hhigh | Hlow].
  - replace (Z_of_byte b <? 0x80) with false by (symmetry; apply Z.ltb_ge; lia).
    replace (Z_of_byte b <? 0x800) with true by (symmetry; apply Z.ltb_lt; lia).
    cbn [String.length length]. lia.
  - replace (Z_of_byte b <? 0x80) with true by (symmetry; apply Z.ltb_lt; lia).
    cbn [String.length length]. lia.
Qed.

Lemma high_octets_bound (octets : list byte) :
  (high_octets octets <= length octets)%nat.
Proof. unfold high_octets. apply length_filter. Qed.

(** X3. When the random source hands out the 32 octets asked for, the
    code verifier holds only letters, digits, [-] and [_] and is between
    43 and 86 characters long, within the 43 to 128 characters RFC 7636
    allows. It has 43 characters in the browser environment, where the
    octets come as a buffer; 86 in the React Native environment, where the
    hexadecimal text of the octets is encoded; and in the Node
    environment, where the octets come as a string of 32 characters that
    is encoded from its UTF-8 bytes, the rounded-up four thirds of 32 plus
    the number of octets above 127. An unknown or missing environment is
    served like the browser. *)
Theorem getCodeVerifier_size_and_alphabet
    (draw : RandomSource -> nat -> list byte) (e : option RuntimeEnvironments) :
  (forall src, length (draw src 32%nat) = 32%nat) ->
  String.length (getCodeVerifier draw e)
  = (match e with
     | Some ReactNative => 86
     | Some Node => (4 * (32 + high_octets (draw secure_random_bytes 32)) + 2) / 3
     | _ => 43
     end)%nat
  /\ (43 <= String.length (getCodeVerifier draw e) <= 86)%nat
  /\ valid_base64url (getCodeVerifier draw e) = true
  /\ getCodeVerifier draw None = getCodeVerifier draw (Some Browser).
Proof.
  intros Hdraw.
  assert (Hlen : String.length (getCodeVerifier draw e)
                 = (match e with
                    | Some ReactNative => 86
                    | Some Node =>
                        (4 * (32 + high_octets (draw secure_random_bytes 32)) + 2) / 3
                    | _ => 43
                    end)%nat).
  { unfold getCodeVerifier.
    destruct e as [[| |]|]; rewrite base64URLEncode_value;
      rewrite (proj2 (encode_bytes_valid_and_length _)); simpl bytes_of_value;
      rewrite ?TextEncoder_encode_length, ?hex_stringify_length,
        ?fromCharCodes_length, Hdraw; reflexivity. }
  split; [exact Hlen|]. split.
  { rewrite Hlen.
    pose proof (high_octets_bound (draw secure_random_bytes 32%nat)) as Hhigh.
    rewrite Hdraw in Hhigh.
    destruct e as [[| |]|]; try lia.
    split; [apply Nat.div_le_lower_bound; lia | apply Nat.Div0.div_le_upper_bound; lia]. }
  split; [|reflexivity].
  unfold getCodeVerifier.
  destruct e as [[| |]|]; rewrite base64URLEncode_value;
    apply encode_bytes_valid_and_length.
Qed.

Lemma getCodeVerifier_size_and_alphabet_witness :
  String.length (getCodeVerifier (fun src n => Sample.entropy src 0 n) None) = 43%nat
  /\ String.length (getCodeVerifier (fun src n => Sample.entropy src 0 n)
                      (Some ReactNative)) = 86%nat
  /\ String.length (getCodeVerifier (fun src n => Sample.entropy src 0 n)
                      (Some Node)) = 43%nat
  /\ String.length (getCodeVerifier (fun src n => replicate n (byte_of_Z 255))
                      (Some Node)) = 86%nat.
Proof.
  split; [|split; [|split]].
  - apply (getCodeVerifier_size_and_alphabet (fun src n => Sample.entropy src 0 n) None).
    intros src. reflexivity.
  - apply (getCodeVerifier_size_and_alphabet (fun src n => Sample.entropy src 0 n)
             (Some ReactNative)).
    intros src. reflexivity.
  - apply (getCodeVerifier_size_and_alphabet (fun src n => Sample.entropy src 0 n)
             (Some Node)).
    intros src. reflexivity.
  - apply (getCodeVerifier_size_and_alphabet (fun src n => replicate n (byte_of_Z 255))
             (Some Node)).
    intros src. reflexivity.
Defined.

(** X4. What [base64URLEncode] writes, [base64url.decode] (the decoder
    [decodeIDToken] uses) reads back: a string comes back as it was, and
    so do the bytes of a buffer. *)
Theorem base64URLEncode_decode_round_trip (value : BufferOrString) :
  Base64.Buffer_from_base64 (base64url.toBase64 (CryptoUtils.base64URLEncode value))
  = bytes_of_value value
  /\ (forall s, value = IsString s ->
                base64url.decode (CryptoUtils.base64URLEncode value) = s).
Proof.
  assert (Hbytes : Base64.Buffer_from_base64
                     (base64url.toBase64 (CryptoUtils.base64URLEncode value))
                   = bytes_of_value value).
  { rewrite base64URLEncode_value.
    unfold Base64.Buffer_from_base64, Base64URL.encode_bytes.
    rewrite sextets_toBase64 by (apply encode_ascii_only, bytes_in_range).
    rewrite (bytes_of_sextets_encode (length (Z_of_byte <$> bytes_of_value value)));
      [|reflexivity | apply bytes_in_range].
    apply bytes_of_Z_of_bytes. }
  split; [exact Hbytes|].
  intros s ->. unfold base64url.decode, base64url.Buffer_toString_utf8.
  rewrite Hbytes. simpl. unfold TextEncoder_encode.
  apply String.string_of_list_byte_of_string.
Qed.

Lemma base64URLEncode_decode_round_trip_witness :
  base64url.decode (CryptoUtils.base64URLEncode (IsString "any text?")) = "any text?".
Proof.
  exact (proj2 (base64URLEncode_decode_round_trip (IsString "any text?"))
           "any text?" eq_refl).
Defined.

(** ** The authorization URL: failures, own and custom parameters *)

(** X5. Without a usable authorization endpoint [getAuthorizationURL]
    fails and leaves everything as it was: a missing or blank endpoint
    raises the endpoint-not-found exception, a text the platform cannot
    parse raises its [TypeError]; in both cases no verifier is drawn or
    stored and the configured scope list is not touched. *)
Theorem getAuthorizationURL_without_endpoint
    (env : Environment) (w : World)
    (config : option (list (string * ParamValue))) :
  let endpoint := oidcProviderMetaData (dataLayer w) !! AUTHORIZATION_ENDPOINT in
  (JS.blank endpoint = true ->
   exists e, getAuthorizationURL env config w = (Err e, w)
             /\ is_AsgardeoAuthException "AUTH_CORE-GAU-NF01" e)
  /\ (JS.blank endpoint = false ->
      URL_parse env (JS.interpolate endpoint) = None ->
      exists message, getAuthorizationURL env config w = (Err (TypeError message), w)).
Proof.
  intros endpoint. subst endpoint. split.
  - intros Hblank. unfold getAuthorizationURL, authorizeRequest. run. simpl.
    rewrite Hblank. simpl. eexists. split; reflexivity.
  - intros Hblank Hparse. unfold getAuthorizationURL, authorizeRequest, new_URL.
    run. simpl. rewrite Hblank, Hparse. simpl. eexists. reflexivity.
Qed.

Lemma getAuthorizationURL_without_endpoint_witness :
  exists e,
    getAuthorizationURL (Sample.env false) None (Sample.fresh_process Sample.store_A)
    = (Err e, Sample.fresh_process Sample.store_A)
    /\ is_AsgardeoAuthException "AUTH_CORE-GAU-NF01" e.
Proof.
  apply (proj1 (getAuthorizationURL_without_endpoint (Sample.env false)
                  (Sample.fresh_process Sample.store_A) None)).
  reflexivity.
Defined.

Lemma custom_parameters_elem (cps : list (string * ParamValue)) (k s : string) :
  (k, s) ∈ custom_parameters (Some cps)
  <-> exists v, (k, v) ∈ cps /\ k <> "" /\ ParamValue_ne_empty v = true
                /\ s = ParamValue_toString v.
Proof.
  unfold custom_parameters. rewrite list_elem_of_bind. split.
  - intros ([k' v] & Hin & Hcps). simpl in Hin.
    destruct (String.eqb k' "") eqn:Hk; simpl in Hin;
      [apply elem_of_nil in Hin; contradiction|].
    destruct (ParamValue_ne_empty v) eqn:Hv;
      [|apply elem_of_nil in Hin; contradiction].
    apply list_elem_of_singleton in Hin. inversion Hin; subst.
    exists v. repeat split; try assumption.
    apply String.eqb_neq. exact Hk.
  - intros (v & Hcps & Hk & Hv & ->). exists (k, v). split; [|exact Hcps].
    simpl. apply String.eqb_neq in Hk. rewrite Hk, Hv. simpl.
    apply list_elem_of_singleton. reflexivity.
Qed.

Lemma authorize_parameters_split (env : Environment) (w : World)
    (config : option (list (string * ParamValue))) :
  authorize_parameters env w config
  = authorize_parameters env w None ++ custom_parameters config.
Proof.
  unfold authorize_parameters. simpl custom_parameters at 2.
  rewrite app_nil_r, <- !app_assoc. reflexivity.
Qed.

(** X6. Parameters a caller passes cannot displace the engine's own: for
    an endpoint without a query, whatever custom parameters are given,
    reading response_type, client_id, scope and redirect_uri off the
    returned URL yields "code", the configured client ID, the computed
    scope and the sign-in redirect URL, because the custom parameters are
    appended after them. *)
Theorem getAuthorizationURL_own_parameters_first
    (env : Environment) (w : World)
    (config : option (list (string * ParamValue))) (u0 : URL.t) :
  let endpoint := oidcProviderMetaData (dataLayer w) !! AUTHORIZATION_ENDPOINT in
  let c := configData (dataLayer w) in
  JS.blank endpoint = false ->
  URL_parse env (JS.interpolate endpoint) = Some u0 ->
  URL.searchParams u0 = [] ->
  exists u,
    settled (getAuthorizationURL env config w) = Ok (URL.toString u)
    /\ URL.get u "response_type" = Some "code"
    /\ URL.get u "client_id" = Some (clientID c)
    /\ URL.get u "scope" = Some (scope_parameter c)
    /\ URL.get u "redirect_uri" = Some (signInRedirectURL c)
    /\ (forall k v, config = Some [(k, v)] -> k <> "" ->
                    ParamValue_ne_empty v = true ->
                    (k, ParamValue_toString v) ∈ URL.searchParams u).
Proof.
  intros endpoint c Hblank Hparse Hquery. subst endpoint c.
  eexists. rewrite (getAuthorizationURL_run env w config u0 Hblank Hparse).
  unfold settled, URL.get. simpl. rewrite Hquery. simpl.
  repeat split.
  intros k v -> Hk Hv. rewrite authorize_parameters_split.
  apply elem_of_app. right.
  apply custom_parameters_elem. exists v. repeat split; try assumption.
  apply list_elem_of_singleton. reflexivity.
Qed.

Lemma getAuthorizationURL_own_parameters_first_witness :
  exists u,
    settled (getAuthorizationURL (Sample.env false)
               (Some [("client_id", PStr "someone-else")])
               (Sample.world Sample.session))
    = Ok (URL.toString u)
    /\ URL.get u "client_id" = Some "client&id=1"
    /\ ("client_id", "someone-else") ∈ URL.searchParams u.
Proof.
  destruct (getAuthorizationURL_own_parameters_first (Sample.env false)
              (Sample.world Sample.session)
              (Some [("client_id", PStr "someone-else")])
              (URL.Make "https://idp.example/oauth2/authorize" [] ""))
    as (u & Hrun & _ & Hid & _ & _ & Hcustom);
    [vm_compute; reflexivity | vm_compute; reflexivity | reflexivity |].
  exists u. split; [exact Hrun|]. split; [exact Hid|].
  apply (Hcustom "client_id" (PStr "someone-else")); [reflexivity | discriminate | reflexivity].
Defined.

Lemma custom_parameters_in_order (cps : list (string * ParamValue)) :
  custom_parameters (Some cps)
  = (fun kv => (kv.1, ParamValue_toString kv.2))
      <$> filter (fun kv => kv.1 <> "" /\ ParamValue_ne_empty kv.2 = true) cps.
Proof.
  unfold custom_parameters. induction cps as [|[k v] cps IH]; [reflexivity|].
  cbn [mbind list_bind]. change (list_bind _ _ ?f ?l) with (l ≫= f).
  rewrite IH, filter_cons. cbn [fst snd].
  destruct (String.eqb k "") eqn:Hk.
  - apply String.eqb_eq in Hk. rewrite decide_False by tauto. reflexivity.
  - apply String.eqb_neq in Hk.
    destruct (ParamValue_ne_empty v) eqn:Hv; cbn [negb andb].
    + rewrite decide_True by (split; [exact Hk | reflexivity]). reflexivity.
    + rewrite decide_False by (intros [_ H]; discriminate H). reflexivity.
Qed.

(** X7. The query of the returned URL is the query of the endpoint, then
    the parameters of the engine, then the custom parameters: of these
    exactly the entries with a non-empty name and a value other than the
    empty string and [false], each with the text of its value ([true] as
    "true"), in the caller's order and after all parameters of the
    engine. An entry with an empty name, an empty value or [false] adds
    nothing, and the parameters of the engine do not depend on the custom
    ones. *)
Theorem getAuthorizationURL_custom_parameters
    (env : Environment) (w : World)
    (customParams : list (string * ParamValue)) (u0 : URL.t) :
  let endpoint := oidcProviderMetaData (dataLayer w) !! AUTHORIZATION_ENDPOINT in
  let kept :=
    filter (fun kv => kv.1 <> "" /\ ParamValue_ne_empty kv.2 = true) customParams in
  JS.blank endpoint = false ->
  URL_parse env (JS.interpolate endpoint) = Some u0 ->
  exists u own,
    settled (getAuthorizationURL env (Some customParams) w) = Ok (URL.toString u)
    /\ URL.searchParams u
       = URL.searchParams u0 ++ own
         ++ ((fun kv => (kv.1, ParamValue_toString kv.2)) <$> kept)
    /\ (exists u', settled (getAuthorizationURL env None w) = Ok (URL.toString u')
                   /\ URL.searchParams u' = URL.searchParams u0 ++ own)
    /\ (forall k v, (k, v) ∈ customParams -> k <> "" ->
                    ParamValue_ne_empty v = true ->
                    (k, ParamValue_toString v) ∈ URL.searchParams u)
    /\ (forall k s, (k, s) ∈ URL.searchParams u ->
                    (k, s) ∈ URL.searchParams u0
                    \/ (k, s) ∈ own
                    \/ exists v, (k, v) ∈ customParams /\ k <> ""
                                 /\ ParamValue_ne_empty v = true
                                 /\ s = ParamValue_toString v)
    /\ (forall s, ("", s) ∈ URL.searchParams u ->
                  ("", s) ∈ URL.searchParams u0).
Proof.
  intros endpoint kept Hblank Hparse. subst endpoint kept.
  eexists. exists (authorize_parameters env w None).
  rewrite (getAuthorizationURL_run env w (Some customParams) u0 Hblank Hparse).
  rewrite (getAuthorizationURL_run env w None u0 Hblank Hparse).
  unfold settled. simpl.
  pose proof (authorize_parameters_split env w (Some customParams)) as Hsplit.
  assert (Hall : forall k s,
             (k, s) ∈ URL.searchParams u0 ++ authorize_parameters env w (Some customParams) ->
             (k, s) ∈ URL.searchParams u0
             \/ (k, s) ∈ authorize_parameters env w None
             \/ exists v, (k, v) ∈ customParams /\ k <> ""
                          /\ ParamValue_ne_empty v = true
                          /\ s = ParamValue_toString v).
  { intros k s Hin. rewrite Hsplit in Hin.
    apply elem_of_app in Hin as [Hin | Hin]; [left; exact Hin|].
    apply elem_of_app in Hin as [Hin | Hin]; [right; left; exact Hin|].
    right. right. apply custom_parameters_elem. exact Hin. }
  split; [reflexivity|].
  split; [rewrite Hsplit, custom_parameters_in_order; reflexivity|].
  split; [eexists; split; reflexivity|].
  split; [|split].
  - intros k v Hin Hk Hv. rewrite Hsplit.
    apply elem_of_app. right. apply elem_of_app. right.
    apply custom_parameters_elem. exists v. repeat split; assumption.
  - exact Hall.
  - intros s Hin. destruct (Hall "" s Hin) as [H | [H | (v & _ & Hk & _)]].
    + exact H.
    + exfalso. unfold authorize_parameters in H. simpl custom_parameters in H.
      rewrite app_nil_r in H.
      destruct (JS.truthy (responseMode (configData (dataLayer w)))),
        (enablePKCE (configData (dataLayer w))),
        (JS.truthy (prompt (configData (dataLayer w))));
        simpl in H; rewrite ?elem_of_cons in H;
        repeat match goal with
               | H : _ \/ _ |- _ => destruct H as [H | H]
               | H : (_, _) = (_, _) |- _ => discriminate H
               | H : _ ∈ [] |- _ => apply elem_of_nil in H; contradiction
               end.
    + congruence.
Qed.

Lemma getAuthorizationURL_custom_parameters_witness :
  exists u own,
    settled (getAuthorizationURL (Sample.env false)
               (Some [("fidp", PStr "google"); ("flag", PBool false);
                      ("", PStr "x"); ("force", PBool true); ("empty", PStr "")])
               (Sample.world Sample.session))
    = Ok (URL.toString u)
    /\ URL.searchParams u = own ++ [("fidp", "google"); ("force", "true")].
Proof.
  destruct (getAuthorizationURL_custom_parameters (Sample.env false)
              (Sample.world Sample.session)
              [("fidp", PStr "google"); ("flag", PBool false);
               ("", PStr "x"); ("force", PBool true); ("empty", PStr "")]
              (URL.Make "https://idp.example/oauth2/authorize" [] ""))
    as (u & own & Hrun & Hquery & _);
    [vm_compute; reflexivity | vm_compute; reflexivity |].
  exists u, own. split; [exact Hrun|]. rewrite Hquery. reflexivity.
Defined.

(** ** The verifier slot *)

(** X8. The verifier is kept in a single slot: of two successive calls
    of [getAuthorizationURL] with PKCE enabled, the second draws anew
    from the random source and overwrites what the first stored, so that
    afterwards the stored verifier answers the challenge of the second
    URL only. *)
Theorem getAuthorizationURL_overwrites_verifier
    (env : Environment) (w : World)
    (config1 config2 : option (list (string * ParamValue))) (u0 : URL.t) :
  let endpoint := oidcProviderMetaData (dataLayer w) !! AUTHORIZATION_ENDPOINT in
  let r1 := getAuthorizationURL env config1 w in
  let r2 := getAuthorizationURL env config2 (world_after r1) in
  let V1 := getCodeVerifier (fun src n => random_bytes env src (random_calls w) n) None in
  let V2 :=
    getCodeVerifier (fun src n => random_bytes env src (S (random_calls w)) n) None in
  enablePKCE (configData (dataLayer w)) = true ->
  JS.blank endpoint = false ->
  URL_parse env (JS.interpolate endpoint) = Some u0 ->
  URL.get u0 "code_challenge" = None ->
  exists u1 u2,
    settled r1 = Ok (URL.toString u1)
    /\ settled r2 = Ok (URL.toString u2)
    /\ URL.get u1 "code_challenge" = Some (CryptoUtils.getCodeChallenge V1)
    /\ URL.get u2 "code_challenge" = Some (CryptoUtils.getCodeChallenge V2)
    /\ temporaryData (dataLayer (world_after r1)) !! PKCE_CODE_VERIFIER = Some (VStr V1)
    /\ temporaryData (dataLayer (world_after r2)) !! PKCE_CODE_VERIFIER = Some (VStr V2)
    /\ random_calls (world_after r2) = S (S (random_calls w)).
Proof.
  intros endpoint r1 r2 V1 V2 Hpkce Hblank Hparse Hcc.
  subst endpoint r1 r2 V1 V2.
  pose proof (getAuthorizationURL_run env w config1 u0 Hblank Hparse) as E1.
  assert (Hpkce' : enablePKCE (configData (dataLayer (authorize_world env w))) = true).
  { rewrite authorize_world_config.
    destruct (config_by_reference env); [|exact Hpkce].
    unfold config_with_mandatory_scope.
    destruct (scope (configData (dataLayer w))) as [sc|]; [|exact Hpkce].
    destruct ((0 <? length sc)%nat && negb (JS.includes sc OIDC_SCOPE));
      exact Hpkce. }
  assert (Hdraw : forall w', enablePKCE (configData (dataLayer w')) = true ->
                      random_calls (authorize_world env w') = S (random_calls w')).
  { intros w' Hp. unfold authorize_world. rewrite Hp.
    destruct (config_by_reference env); reflexivity. }
  pose proof (Hdraw w Hpkce) as Hcalls.
  assert (E2 := getAuthorizationURL_run env (authorize_world env w) config2 u0).
  rewrite authorize_world_metadata in E2. specialize (E2 Hblank Hparse).
  unfold settled, world_after. rewrite E1. cbn [fst snd]. rewrite E2. cbn [fst snd].
  do 2 eexists. split; [reflexivity|]. split; [reflexivity|].
  assert (Hget : forall w' config,
             enablePKCE (configData (dataLayer w')) = true ->
             URL.get_from (URL.searchParams u0 ++ authorize_parameters env w' config)
               "code_challenge"
             = Some (CryptoUtils.getCodeChallenge (generated_verifier env w'))).
  { intros w' config Hp. unfold URL.get in Hcc. rewrite get_from_app, Hcc.
    unfold authorize_parameters. rewrite Hp. simpl.
    destruct (JS.truthy (responseMode (configData (dataLayer w')))); reflexivity. }
  assert (Hstored : forall w',
             enablePKCE (configData (dataLayer w')) = true ->
             temporaryData (dataLayer (authorize_world env w')) !! PKCE_CODE_VERIFIER
             = Some (VStr (generated_verifier env w'))).
  { intros w' Hp. unfold authorize_world. rewrite Hp.
    destruct (config_by_reference env); simpl; apply lookup_insert_eq. }
  split; [apply (Hget w config1 Hpkce)|].
  split; [unfold URL.get; simpl; rewrite (Hget _ config2 Hpkce');
          unfold generated_verifier; rewrite Hcalls; reflexivity|].
  split; [apply (Hstored w Hpkce)|].
  split; [rewrite (Hstored _ Hpkce'); unfold generated_verifier;
          rewrite Hcalls; reflexivity|].
  rewrite (Hdraw _ Hpkce'), Hcalls. reflexivity.
Qed.

Lemma getAuthorizationURL_overwrites_verifier_witness :
  let r1 := getAuthorizationURL (Sample.env true) None (Sample.world Sample.session) in
  let r2 := getAuthorizationURL (Sample.env true) None (world_after r1) in
  temporaryData (dataLayer (world_after r2)) !! PKCE_CODE_VERIFIER
  = Some (VStr "CAgICAgICAgICAgICAgICAgICAgICAgICAgICAgICAg").
Proof.
  cbv zeta.
  destruct (getAuthorizationURL_overwrites_verifier (Sample.env true)
              (Sample.world Sample.session) None None
              (URL.Make "https://idp.example/oauth2/authorize" [] ""))
    as (u1 & u2 & _ & _ & _ & _ & _ & Hstored & _);
    [reflexivity | vm_compute; reflexivity | vm_compute; reflexivity | reflexivity |].
  rewrite Hstored. vm_compute. reflexivity.
Defined.

(** X9. With PKCE disabled [getAuthorizationURL] draws no verifier and
    writes nothing to temporary data (a verifier stored earlier stays
    where it is), and the URL carries no code_challenge and no
    code_challenge_method unless the endpoint or the caller supplies
    one. *)
Theorem getAuthorizationURL_without_pkce
    (env : Environment) (w : World) (u0 : URL.t) :
  let endpoint := oidcProviderMetaData (dataLayer w) !! AUTHORIZATION_ENDPOINT in
  let r := getAuthorizationURL env None w in
  enablePKCE (configData (dataLayer w)) = false ->
  JS.blank endpoint = false ->
  URL_parse env (JS.interpolate endpoint) = Some u0 ->
  URL.get u0 "code_challenge" = None ->
  URL.get u0 "code_challenge_method" = None ->
  exists u,
    settled r = Ok (URL.toString u)
    /\ URL.get u "code_challenge" = None
    /\ URL.get u "code_challenge_method" = None
    /\ temporaryData (dataLayer (world_after r)) = temporaryData (dataLayer w)
    /\ random_calls (world_after r) = random_calls w
    /\ network (world_after r) = network w.
Proof.
  intros endpoint r Hpkce Hblank Hparse Hcc Hccm. subst endpoint r.
  rewrite (getAuthorizationURL_run env w None u0 Hblank Hparse).
  unfold settled, world_after. simpl fst. simpl snd.
  eexists. split; [reflexivity|].
  unfold URL.get in *. simpl URL.searchParams.
  rewrite !get_from_app, Hcc, Hccm.
  unfold authorize_parameters, authorize_world. rewrite Hpkce. simpl.
  destruct (JS.truthy (responseMode (configData (dataLayer w)))),
    (JS.truthy (prompt (configData (dataLayer w)))),
    (config_by_reference env); repeat split.
Qed.

Lemma getAuthorizationURL_without_pkce_witness :
  exists u,
    settled (getAuthorizationURL (Sample.env false) None world_without_pkce)
    = Ok (URL.toString u)
    /\ URL.get u "code_challenge" = None
    /\ temporaryData (dataLayer (world_after
                                   (getAuthorizationURL (Sample.env false) None
                                      world_without_pkce)))
       !! PKCE_CODE_VERIFIER = Some (VStr "stale").
Proof.
  destruct (getAuthorizationURL_without_pkce (Sample.env false) world_without_pkce
              (URL.Make "https://idp.example/oauth2/authorize" [] ""))
    as (u & Hrun & Hcc & _ & Htemp & _);
    [reflexivity | vm_compute; reflexivity | vm_compute; reflexivity
     | reflexivity | reflexivity |].
  exists u. split; [exact Hrun|]. split; [exact Hcc|].
  rewrite Htemp. reflexivity.
Defined.

(** ** The scope parameter in general *)

Lemma includes_elem (l : list string) (x : string) :
  JS.includes l x = true <-> x ∈ l.
Proof.
  unfold JS.includes. rewrite existsb_exists. split.
  - intros (y & Hin & Heq). apply String.eqb_eq in Heq as ->.
    apply list_elem_of_In. exact Hin.
  - intros Hin. exists x. split; [apply list_elem_of_In; exact Hin|].
    apply String.eqb_refl.
Qed.

(** X10. For every configuration the scope parameter is the configured
    scopes joined by single spaces, in their order, with the mandatory
    "openid" appended when (and only when) it is not among them; a
    configuration without scopes, or with an empty list, yields "openid"
    alone. *)
Theorem getAuthorizationURL_scope_parameter
    (env : Environment) (w : World)
    (config : option (list (string * ParamValue))) (u0 : URL.t) :
  let endpoint := oidcProviderMetaData (dataLayer w) !! AUTHORIZATION_ENDPOINT in
  let configured := default [] (scope (configData (dataLayer w))) in
  JS.blank endpoint = false ->
  URL_parse env (JS.interpolate endpoint) = Some u0 ->
  URL.get u0 "scope" = None ->
  exists u scopes,
    settled (getAuthorizationURL env config w) = Ok (URL.toString u)
    /\ URL.get u "scope" = Some (JS.join " " scopes)
    /\ OIDC_SCOPE ∈ scopes
    /\ (OIDC_SCOPE ∈ configured -> scopes = configured)
    /\ (OIDC_SCOPE ∉ configured -> scopes = configured ++ [OIDC_SCOPE]).
Proof.
  intros endpoint configured Hblank Hparse Hnone. subst endpoint configured.
  rewrite (getAuthorizationURL_run env w config u0 Hblank Hparse).
  unfold settled. simpl fst.
  assert (Hget : forall u : URL.t,
             URL.searchParams u = URL.searchParams u0 ++ authorize_parameters env w config ->
             URL.get u "scope" = Some (scope_parameter (configData (dataLayer w)))).
  { intros u Hu. unfold URL.get in *. rewrite Hu, get_from_app, Hnone. reflexivity. }
  eexists.
  unfold scope_parameter in Hget.
  destruct (scope (configData (dataLayer w))) as [sc|]; simpl default.
  - destruct sc as [|s sc].
    + exists [OIDC_SCOPE]. split; [reflexivity|]. split; [apply Hget; reflexivity|].
      split; [apply list_elem_of_singleton; reflexivity|].
      split; [intros H; apply elem_of_nil in H; contradiction | reflexivity].
    + change (0 <? length (s :: sc))%nat with true in Hget. cbv iota in Hget.
      destruct (JS.includes (s :: sc) OIDC_SCOPE) eqn:Hinc.
      * exists (s :: sc). split; [reflexivity|]. split; [apply Hget; reflexivity|].
        apply includes_elem in Hinc.
        split; [exact Hinc|]. split; [reflexivity | intros H; contradiction].
      * exists ((s :: sc) ++ [OIDC_SCOPE]).
        split; [reflexivity|]. split; [apply Hget; reflexivity|].
        assert (Hnot : OIDC_SCOPE ∉ s :: sc).
        { intros H. apply includes_elem in H. congruence. }
        split; [apply elem_of_app; right; apply list_elem_of_singleton; reflexivity|].
        split; [intros H; contradiction | reflexivity].
  - exists [OIDC_SCOPE]. split; [reflexivity|]. split; [apply Hget; reflexivity|].
    split; [apply list_elem_of_singleton; reflexivity|].
    split; [intros H; apply elem_of_nil in H; contradiction | reflexivity].
Qed.

Lemma getAuthorizationURL_scope_parameter_witness :
  exists u,
    settled (getAuthorizationURL (Sample.env false) None world_without_pkce)
    = Ok (URL.toString u)
    /\ URL.get u "scope" = Some "openid".
Proof.
  destruct (getAuthorizationURL_scope_parameter (Sample.env false) world_without_pkce
              None (URL.Make "https://idp.example/oauth2/authorize" [] ""))
    as (u & scopes & Hrun & Hget & _ & _ & Hadd);
    [vm_compute; reflexivity | vm_compute; reflexivity | reflexivity |].
  exists u. split; [exact Hrun|].
  rewrite Hget, Hadd; [reflexivity|].
  intros H. apply elem_of_nil in H. exact H.
Defined.

(** ** The token exchange step by step *)

(** What [requestAccessToken] does once the token endpoint is there: the
    one request it sends, and the world it leaves, by the answer of the
    transport. *)
Lemma requestAccessToken_run (env : Environment) (w : World)
    (authorizationCode : string) (sessionState : option string) :
  let c := configData (dataLayer w) in
  let metadata := oidcProviderMetaData (dataLayer w) in
  let run := requestAccessToken env authorizationCode sessionState w in
  let noted :=
    if JS.truthy sessionState
    then <[SESSION_STATE := JS.interpolate sessionState]> (sessionData (dataLayer w))
    else sessionData (dataLayer w) in
  JS.blank (metadata !! "token_endpoint") = false ->
  exists r,
    network (world_after run) = network w ++ [r]
    /\ method r = POST
    /\ url r = JS.interpolate (metadata !! "token_endpoint")
    /\ withCredentials r = sendCookiesInRequests c
    /\ data r
       = Some (JS.join "&"
                 ((["client_id=" +:+ clientID c]
                   ++ (if has_text (clientSecret c)
                       then ["client_secret=" +:+ JS.interpolate (clientSecret c)]
                       else [])
                   ++ ["code=" +:+ authorizationCode;
                       "grant_type=authorization_code";
                       "redirect_uri=" +:+ signInRedirectURL c])
                  ++ (if enablePKCE c
                      then ["code_verifier="
                            +:+ StoreValue_interpolate
                                  (temporaryData (dataLayer w) !! PKCE_CODE_VERIFIER)]
                      else [])))
    /\ temporaryData (dataLayer (world_after run))
       = (if enablePKCE c
          then delete PKCE_CODE_VERIFIER (temporaryData (dataLayer w))
          else temporaryData (dataLayer w))
    /\ configData (dataLayer (world_after run)) = c
    /\ oidcProviderMetaData (dataLayer (world_after run)) = metadata
    /\ random_calls (world_after run) = random_calls w
    /\ match transport env (network w) r with
       | Fulfilled _ body =>
           (exists tokens, settled run = Ok tokens)
           /\ sessionData (dataLayer (world_after run)) = body
       | Rejected code message response =>
           settled run
           = Err (network_exception "AUTH_CORE-RAT1-NR03" "requestAccessToken"
                    "Requesting access token failed"
                    "The request to get the access token from the server failed."
                    (AxiosError code message response))
           /\ sessionData (dataLayer (world_after run)) = noted
       end.
Proof.
  intros c metadata run noted Hep. subst c metadata run noted.
  unfold requestAccessToken, axios_post, handleTokenResponse,
    HttpsClient.getInstance, HttpsClient.getAxios, send.
  run. unfold HttpsClient.getInstance. simpl. rewrite Hep. simpl.
  destruct (JS.truthy sessionState); simpl;
    destruct (has_text (clientSecret (configData (dataLayer w)))); simpl;
    destruct (enablePKCE (configData (dataLayer w))); simpl;
    destruct (httpsClient w); simpl;
    match goal with
    | |- context [transport ?e ?n ?r] =>
        exists r; destruct (transport e n r); simpl
    end;
    repeat split; eexists; reflexivity.
Qed.

(** X11. Authorization and exchange fit together: after
    [getAuthorizationURL] with PKCE enabled, the next [requestAccessToken]
    closes its request body with code_verifier=V for the very verifier V
    whose S256 challenge stands in the URL, and removes V from temporary
    data whatever the token endpoint answers. *)
Theorem authorize_then_exchange_sends_the_verifier
    (env : Environment) (w : World)
    (config : option (list (string * ParamValue))) (u0 : URL.t)
    (authorizationCode : string) (sessionState : option string) :
  let metadata := oidcProviderMetaData (dataLayer w) in
  let r1 := getAuthorizationURL env config w in
  let r2 := requestAccessToken env authorizationCode sessionState (world_after r1) in
  enablePKCE (configData (dataLayer w)) = true ->
  JS.blank (metadata !! AUTHORIZATION_ENDPOINT) = false ->
  URL_parse env (JS.interpolate (metadata !! AUTHORIZATION_ENDPOINT)) = Some u0 ->
  URL.get u0 "code_challenge" = None ->
  JS.blank (metadata !! "token_endpoint") = false ->
  exists (u : URL.t) (V : string) (fields : list string) (r : Request),
    settled r1 = Ok (URL.toString u)
    /\ URL.get u "code_challenge" = Some (CryptoUtils.getCodeChallenge V)
    /\ network (world_after r2) = network w ++ [r]
    /\ url r = JS.interpolate (metadata !! "token_endpoint")
    /\ data r = Some (JS.join "&" (fields ++ ["code_verifier=" +:+ V]))
    /\ temporaryData (dataLayer (world_after r2)) !! PKCE_CODE_VERIFIER = None.
Proof.
  intros metadata r1 r2 Hpkce Hblank Hparse Hcc Hep. subst metadata r1 r2.
  pose proof (getAuthorizationURL_run env w config u0 Hblank Hparse) as E1.
  assert (Hpkce' : enablePKCE (configData (dataLayer (authorize_world env w))) = true).
  { rewrite authorize_world_config.
    destruct (config_by_reference env); [|exact Hpkce].
    unfold config_with_mandatory_scope.
    destruct (scope (configData (dataLayer w))) as [sc|]; [|exact Hpkce].
    destruct ((0 <? length sc)%nat && negb (JS.includes sc OIDC_SCOPE));
      exact Hpkce. }
  assert (Hnet : network (authorize_world env w) = network w).
  { unfold authorize_world. rewrite Hpkce.
    destruct (config_by_reference env); reflexivity. }
  assert (Hstored : temporaryData (dataLayer (authorize_world env w)) !! PKCE_CODE_VERIFIER
                    = Some (VStr (generated_verifier env w))).
  { unfold authorize_world. rewrite Hpkce.
    destruct (config_by_reference env); simpl; apply lookup_insert_eq. }
  assert (Hw1 : world_after (getAuthorizationURL env config w) = authorize_world env w)
    by (rewrite E1; reflexivity).
  assert (Hs1 : settled (getAuthorizationURL env config w)
                = Ok (URL.toString
                        (URL.Make (URL.base u0)
                           (URL.searchParams u0 ++ authorize_parameters env w config)
                           (URL.hash u0))))
    by (rewrite E1; reflexivity).
  rewrite Hw1, Hs1. clear E1 Hw1 Hs1.
  destruct (requestAccessToken_run env (authorize_world env w) authorizationCode
              sessionState)
    as (r & Hsent & _ & Hurl & _ & Hdata & Htemp & _);
    [rewrite authorize_world_metadata; exact Hep|].
  rewrite Hpkce', Hstored in Hdata. rewrite Hpkce' in Htemp.
  rewrite authorize_world_metadata in Hurl. rewrite Hnet in Hsent.
  eexists. exists (generated_verifier env w). eexists. exists r.
  split; [reflexivity|].
  split.
  { unfold URL.get in *. cbn [URL.searchParams]. rewrite get_from_app, Hcc.
    unfold authorize_parameters. rewrite Hpkce. simpl.
    destruct (JS.truthy (responseMode (configData (dataLayer w)))); reflexivity. }
  split; [exact Hsent|]. split; [exact Hurl|].
  split; [exact Hdata|].
  rewrite Htemp. apply lookup_delete_eq.
Qed.

Lemma authorize_then_exchange_sends_the_verifier_witness :
  let r1 := getAuthorizationURL (Sample.env false) None (Sample.world Sample.session) in
  let r2 := requestAccessToken (Sample.env false) "code" None (world_after r1) in
  exists (u : URL.t) (V : string) (fields : list string) (r : Request),
    settled r1 = Ok (URL.toString u)
    /\ URL.get u "code_challenge" = Some (CryptoUtils.getCodeChallenge V)
    /\ network (world_after r2) = network (Sample.world Sample.session) ++ [r]
    /\ url r = JS.interpolate
                 (oidcProviderMetaData (dataLayer (Sample.world Sample.session))
                    !! "token_endpoint")
    /\ data r = Some (JS.join "&" (fields ++ ["code_verifier=" +:+ V]))
    /\ temporaryData (dataLayer (world_after r2)) !! PKCE_CODE_VERIFIER = None.
Proof.
  apply (authorize_then_exchange_sends_the_verifier (Sample.env false)
           (Sample.world Sample.session) None
           (URL.Make "https://idp.example/oauth2/authorize" [] "") "code" None).
  - reflexivity.
  - vm_compute. reflexivity.
  - vm_compute. reflexivity.
  - reflexivity.
  - vm_compute. reflexivity.
Defined.

(** X12. The verifier is used once. With PKCE enabled a call of
    [requestAccessToken] removes the stored verifier even when the
    transport fails, so the request of a second call (a retry after a
    network error, say) ends with the text code_verifier=undefined. *)
Theorem requestAccessToken_retry_sends_undefined_verifier
    (env : Environment) (w : World) (code1 code2 : string)
    (state1 state2 : option string) :
  let metadata := oidcProviderMetaData (dataLayer w) in
  let r1 := requestAccessToken env code1 state1 w in
  let r2 := requestAccessToken env code2 state2 (world_after r1) in
  enablePKCE (configData (dataLayer w)) = true ->
  JS.blank (metadata !! "token_endpoint") = false ->
  exists (first second : Request) (fields : list string),
    network (world_after r2) = network w ++ [first; second]
    /\ data second = Some (JS.join "&" (fields ++ ["code_verifier=undefined"]))
    /\ "code=" +:+ code2 ∈ fields.
Proof.
  intros metadata r1 r2 Hpkce Hep. subst metadata r1 r2.
  destruct (requestAccessToken_run env w code1 state1 Hep)
    as (first & Hsent1 & _ & _ & _ & _ & Htemp1 & Hconfig1 & Hmeta1 & _).
  rewrite Hpkce in Htemp1.
  set (w1 := world_after (requestAccessToken env code1 state1 w)) in *.
  destruct (requestAccessToken_run env w1 code2 state2)
    as (second & Hsent2 & _ & _ & _ & Hdata2 & _);
    [rewrite Hmeta1; exact Hep|].
  rewrite Hconfig1, Hpkce, Htemp1, lookup_delete_eq in Hdata2.
  exists first, second. eexists.
  split; [rewrite Hsent2, Hsent1, <- app_assoc; reflexivity|].
  split; [exact Hdata2|].
  apply elem_of_app. right.
  destruct (has_text (clientSecret (configData (dataLayer w))));
    simpl; rewrite !elem_of_cons; tauto.
Qed.

Lemma requestAccessToken_retry_sends_undefined_verifier_witness :
  let w := Sample.world Sample.session in
  let r1 := requestAccessToken (Sample.env false) "code" None w in
  let r2 := requestAccessToken (Sample.env false) "code" None (world_after r1) in
  exists (first second : Request) (fields : list string),
    network (world_after r2) = network w ++ [first; second]
    /\ data second = Some (JS.join "&" (fields ++ ["code_verifier=undefined"]))
    /\ "code=" +:+ "code" ∈ fields.
Proof.
  apply (requestAccessToken_retry_sends_undefined_verifier (Sample.env false)
           (Sample.world Sample.session) "code" "code" None None).
  - reflexivity.
  - vm_compute. reflexivity.
Defined.

(** X13. Without a usable endpoint (absent, empty or blank) the three
    token requests fail before anything happens: [requestAccessToken]
    rejects with AUTH_CORE-RAT1-NF01 without recording the session state
    or touching the verifier, [revokeAccessToken] with AUTH_CORE-RAT3-NF01,
    and [refreshAccessToken], when a refresh token is stored, with
    AUTH_CORE-RAT2-NF02; the world is the one before the call. *)
Theorem token_requests_without_endpoint
    (env : Environment) (w : World) (authorizationCode : string)
    (sessionState : option string) :
  let metadata := oidcProviderMetaData (dataLayer w) in
  (JS.blank (metadata !! "token_endpoint") = true ->
   (exists e, requestAccessToken env authorizationCode sessionState w = (Err e, w)
              /\ is_AsgardeoAuthException "AUTH_CORE-RAT1-NF01" e)
   /\ (JS.truthy (sessionData (dataLayer w) !! "refresh_token") = true ->
       exists e, refreshAccessToken env w = (Err e, w)
                 /\ is_AsgardeoAuthException "AUTH_CORE-RAT2-NF02" e))
  /\ (JS.blank (metadata !! "revocation_endpoint") = true ->
      exists e, revokeAccessToken env w = (Err e, w)
                /\ is_AsgardeoAuthException "AUTH_CORE-RAT3-NF01" e).
Proof.
  intros metadata. subst metadata. split; [intros Hep; split|intros Hep].
  - unfold requestAccessToken. run. simpl. rewrite Hep.
    eexists. split; reflexivity.
  - intros Hrt. unfold refreshAccessToken. run. simpl. rewrite Hrt, Hep. simpl.
    eexists. split; reflexivity.
  - unfold revokeAccessToken. run. simpl. rewrite Hep.
    eexists. split; reflexivity.
Qed.

Lemma token_requests_without_endpoint_witness :
  (exists e, requestAccessToken (Sample.env false) "code" (Some "state")
               world_without_endpoints = (Err e, world_without_endpoints)
             /\ is_AsgardeoAuthException "AUTH_CORE-RAT1-NF01" e)
  /\ (exists e, revokeAccessToken (Sample.env false) world_without_endpoints
                = (Err e, world_without_endpoints)
                /\ is_AsgardeoAuthException "AUTH_CORE-RAT3-NF01" e).
Proof.
  destruct (token_requests_without_endpoint (Sample.env false)
              world_without_endpoints "code" (Some "state")) as [Htoken Hrevoke].
  split.
  - apply Htoken. vm_compute. reflexivity.
  - apply Hrevoke. vm_compute. reflexivity.
Defined.

(** X14. When the transport rejects the token request,
    [requestAccessToken] rejects with the network exception
    AUTH_CORE-RAT1-NR03 carrying the error's code (the empty text when it
    has none), message, status and data. By then the session state passed
    in has been recorded in the session data; the rest of the session is
    as before. *)
Theorem requestAccessToken_transport_failure
    (env : Environment) (w : World) (authorizationCode : string)
    (sessionState : option string) (code : option string) (message : string)
    (response : option (Z * gmap string string)) :
  let metadata := oidcProviderMetaData (dataLayer w) in
  let run := requestAccessToken env authorizationCode sessionState w in
  JS.blank (metadata !! "token_endpoint") = false ->
  (forall r, method r = POST -> url r = JS.interpolate (metadata !! "token_endpoint") ->
             transport env (network w) r = Rejected code message response) ->
  settled run
  = Err (AsgardeoAuthNetworkException "AUTH_CORE-RAT1-NR03" "authentication-core"
           "requestAccessToken" "Requesting access token failed"
           "The request to get the access token from the server failed."
           (default "" code) (Some message) (fst <$> response) (snd <$> response))
  /\ sessionData (dataLayer (world_after run))
     = (if JS.truthy sessionState
        then <[SESSION_STATE := JS.interpolate sessionState]> (sessionData (dataLayer w))
        else sessionData (dataLayer w))
  /\ length (network (world_after run)) = S (length (network w)).
Proof.
  intros metadata run Hep Htransport. subst metadata run.
  destruct (requestAccessToken_run env w authorizationCode sessionState Hep)
    as (r & Hsent & Hmethod & Hurl & _ & _ & _ & _ & _ & _ & Hanswer).
  rewrite (Htransport r Hmethod Hurl) in Hanswer.
  destruct Hanswer as [Hsettled Hsession].
  split; [rewrite Hsettled; reflexivity|].
  split; [exact Hsession|].
  rewrite Hsent, length_app. simpl. lia.
Qed.

Lemma requestAccessToken_transport_failure_witness :
  settled (requestAccessToken (Sample.env false) "code" (Some "state")
             world_with_unreachable_endpoints)
  = Err (AsgardeoAuthNetworkException "AUTH_CORE-RAT1-NR03" "authentication-core"
           "requestAccessToken" "Requesting access token failed"
           "The request to get the access token from the server failed."
           "ECONNREFUSED" (Some "connect ECONNREFUSED") None None).
Proof.
  refine (proj1 (requestAccessToken_transport_failure (Sample.env false)
                   world_with_unreachable_endpoints "code" (Some "state")
                   (Some "ECONNREFUSED") "connect ECONNREFUSED" None _ _)).
  - vm_compute. reflexivity.
  - intros r _ Hurl. simpl. unfold Sample.provider. rewrite Hurl. reflexivity.
Defined.

(** ** Refreshing and revoking *)

(** X15. A refresh that the transport rejects fails with the network
    exception AUTH_CORE-RAT2-NR03, built from the transport's error, after
    exactly one request; the stored session (the refresh token with it)
    and the temporary data are what they were. *)
Theorem refreshAccessToken_transport_failure
    (env : Environment) (w : World) (code : option string) (message : string)
    (response : option (Z * gmap string string)) :
  let metadata := oidcProviderMetaData (dataLayer w) in
  let run := refreshAccessToken env w in
  JS.truthy (sessionData (dataLayer w) !! "refresh_token") = true ->
  JS.blank (metadata !! "token_endpoint") = false ->
  (forall r, method r = POST -> url r = JS.interpolate (metadata !! "token_endpoint") ->
             transport env (network w) r = Rejected code message response) ->
  settled run
  = Err (AsgardeoAuthNetworkException "AUTH_CORE-RAT2-NR03" "authentication-core"
           "refreshAccessToken" "Refresh access token request failed."
           "The request to refresh the access token failed."
           (default "" code) (Some message) (fst <$> response) (snd <$> response))
  /\ dataLayer (world_after run) = dataLayer w
  /\ length (network (world_after run)) = S (length (network w)).
Proof.
  intros metadata run Hrt Hep Htransport. subst metadata run.
  unfold refreshAccessToken, axios_post, handleTokenResponse,
    HttpsClient.getInstance, HttpsClient.getAxios, send.
  run. unfold HttpsClient.getInstance. simpl. rewrite Hrt, Hep. simpl.
  destruct (has_text (clientSecret (configData (dataLayer w)))); simpl;
    destruct (httpsClient w); simpl;
    match goal with
    | |- context [transport ?e ?n ?r] => rewrite (Htransport r eq_refl eq_refl)
    end; simpl;
    (split; [reflexivity|]; split; [reflexivity|];
     rewrite length_app; simpl; lia).
Qed.

Lemma refreshAccessToken_transport_failure_witness :
  let run := refreshAccessToken (Sample.env false) world_with_unreachable_endpoints in
  settled run
  = Err (AsgardeoAuthNetworkException "AUTH_CORE-RAT2-NR03" "authentication-core"
           "refreshAccessToken" "Refresh access token request failed."
           "The request to refresh the access token failed."
           "ECONNREFUSED" (Some "connect ECONNREFUSED") None None)
  /\ dataLayer (world_after run) = dataLayer world_with_unreachable_endpoints.
Proof.
  destruct (refreshAccessToken_transport_failure (Sample.env false)
              world_with_unreachable_endpoints
              (Some "ECONNREFUSED") "connect ECONNREFUSED" None)
    as (Hsettled & Hstore & _).
  - vm_compute. reflexivity.
  - vm_compute. reflexivity.
  - intros r _ Hurl. simpl. unfold Sample.provider. rewrite Hurl. reflexivity.
  - split; [exact Hsettled | exact Hstore].
Defined.

(** X16. [revokeAccessToken] does not look whether there is a token to
    revoke: with no access token in the session it still sends its
    request, whose body then reads token=undefined; and the body never
    carries the client secret. *)
Theorem revokeAccessToken_without_access_token
    (env : Environment) (w : World) :
  let c := configData (dataLayer w) in
  let metadata := oidcProviderMetaData (dataLayer w) in
  JS.blank (metadata !! "revocation_endpoint") = false ->
  sessionData (dataLayer w) !! "access_token" = None ->
  exists r,
    network (world_after (revokeAccessToken env w)) = network w ++ [r]
    /\ url r = JS.interpolate (metadata !! "revocation_endpoint")
    /\ data r
       = Some ("client_id=" +:+ clientID c
               +:+ "&token=undefined&token_type_hint=access_token").
Proof.
  intros c metadata Hep Hnone. subst c metadata.
  unfold revokeAccessToken, axios_post, clearUserSessionData,
    HttpsClient.getInstance, HttpsClient.getAxios, send.
  run. unfold HttpsClient.getInstance. simpl. rewrite Hep. simpl.
  rewrite Hnone.
  destruct (httpsClient w); simpl;
    (eexists; split;
     [ match goal with
       | |- context [transport ?e ?n ?r] =>
           destruct (transport e n r) as [status body|]; simpl;
           [destruct (status =? 200); simpl|]
       end; reflexivity
     | split; [reflexivity|];
       simpl; rewrite !join_cons by discriminate;
       rewrite !append_assoc; reflexivity ]).
Qed.

Lemma revokeAccessToken_without_access_token_witness :
  exists r,
    network (world_after (revokeAccessToken (Sample.env false) (Sample.world ∅)))
    = [] ++ [r]
    /\ data r
       = Some "client_id=client&id=1&token=undefined&token_type_hint=access_token".
Proof.
  destruct (revokeAccessToken_without_access_token (Sample.env false) (Sample.world ∅))
    as (r & Hsent & _ & Hdata).
  - vm_compute. reflexivity.
  - reflexivity.
  - exists r. split; [exact Hsent | exact Hdata].
Defined.

(** ** Discovery is done once *)

(** X17. Whatever a call of [getOIDCProviderMetaData] met (a cached
    result, an answer of the well-known endpoint, a failure), it leaves
    the initiated flag set: a following call that is not forced resolves
    true at once, sends nothing and changes nothing. A forced call sends
    its one request even then. *)
Theorem getOIDCProviderMetaData_is_cached
    (env : Environment) (w : World) (forceInit : bool) :
  let w1 := world_after (getOIDCProviderMetaData env forceInit w) in
  getOIDCProviderMetaData env false w1 = (Ok true, w1)
  /\ length (network (world_after (getOIDCProviderMetaData env true w1)))
     = S (length (network w1)).
Proof.
  cbv zeta.
  assert (Hflag : StoreValue_truthy
                    (temporaryData
                       (dataLayer (world_after (getOIDCProviderMetaData env forceInit w)))
                     !! OP_CONFIG_INITIATED) = true).
  { unfold getOIDCProviderMetaData, resolveWellKnownEndpoint, resolveEndpoints,
      resolveFallbackEndpoints, axios_get, HttpsClient.getAxios, send.
    run. unfold HttpsClient.getInstance. simpl.
    destruct forceInit; simpl;
      try (destruct (StoreValue_truthy
                       (temporaryData (dataLayer w) !! OP_CONFIG_INITIATED)) eqn:Hwas;
           simpl; [exact Hwas|]);
      destruct (httpsClient w); simpl;
      match goal with
      | |- context [transport ?e ?n ?r] =>
          destruct (transport e n r) as [status body|]; simpl;
          [destruct (status =? 200); simpl|]
      end; rewrite lookup_insert_eq; reflexivity. }
  set (w1 := world_after (getOIDCProviderMetaData env forceInit w)) in *.
  clearbody w1. split.
  - unfold getOIDCProviderMetaData. run. simpl. rewrite Hflag. reflexivity.
  - unfold getOIDCProviderMetaData, resolveWellKnownEndpoint, resolveEndpoints,
      resolveFallbackEndpoints, axios_get, HttpsClient.getAxios, send.
    run. unfold HttpsClient.getInstance. simpl.
    destruct (httpsClient w1); simpl;
      match goal with
      | |- context [transport ?e ?n ?r] =>
          destruct (transport e n r) as [status body|]; simpl;
          [destruct (status =? 200); simpl|]
      end; rewrite length_app; simpl; lia.
Qed.

(** ** Whose trust anchor and whose cookie policy *)

(** X18. Once the transport client exists, the requests of a context take
    the trust anchor (the agent) from that client, whatever certificate
    the context's own configuration names. The cookie policy of a token
    request is the context's own [sendCookiesInRequests]; the discovery
    request, sent without options, has the policy the client was built
    with. *)
Theorem requests_use_the_existing_client
    (env : Environment) (w : World) (client : HttpsClient_t)
    (authorizationCode : string) (sessionState : option string) :
  let c := configData (dataLayer w) in
  httpsClient w = Some client ->
  JS.blank (oidcProviderMetaData (dataLayer w) !! "token_endpoint") = false ->
  (exists r,
      network (world_after (requestAccessToken env authorizationCode sessionState w))
      = network w ++ [r]
      /\ agent r = defaults_httpsAgent (axiosInstance client)
      /\ withCredentials r = sendCookiesInRequests c)
  /\ (exists r,
         network (world_after (getOIDCProviderMetaData env true w)) = network w ++ [r]
         /\ method r = GET
         /\ agent r = defaults_httpsAgent (axiosInstance client)
         /\ withCredentials r = defaults_withCredentials (axiosInstance client))
  /\ httpsClient (world_after (requestAccessToken env authorizationCode sessionState w))
     = Some client.
Proof.
  intros c Hclient Hep. subst c. split; [|split].
  - unfold requestAccessToken, axios_post, handleTokenResponse,
      HttpsClient.getInstance, HttpsClient.getAxios, send.
    run. unfold HttpsClient.getInstance. simpl. rewrite Hep. simpl.
    destruct (JS.truthy sessionState); simpl;
      destruct (has_text (clientSecret (configData (dataLayer w)))); simpl;
      destruct (enablePKCE (configData (dataLayer w))); simpl;
      rewrite Hclient; simpl;
      match goal with
      | |- context [transport ?e ?n ?r] =>
          exists r; destruct (transport e n r); simpl
      end; repeat split.
  - unfold getOIDCProviderMetaData, resolveWellKnownEndpoint, resolveEndpoints,
      resolveFallbackEndpoints, axios_get, HttpsClient.getAxios, send.
    run. unfold HttpsClient.getInstance. simpl. rewrite Hclient. simpl.
    match goal with
    | |- context [transport ?e ?n ?r] =>
        exists r; destruct (transport e n r) as [status body|]; simpl;
        [destruct (status =? 200); simpl|]
    end; repeat split.
  - unfold requestAccessToken, axios_post, handleTokenResponse,
      HttpsClient.getInstance, HttpsClient.getAxios, send.
    run. unfold HttpsClient.getInstance. simpl. rewrite Hep. simpl.
    destruct (JS.truthy sessionState); simpl;
      destruct (has_text (clientSecret (configData (dataLayer w)))); simpl;
      destruct (enablePKCE (configData (dataLayer w))); simpl;
      rewrite Hclient; simpl;
      match goal with
      | |- context [transport ?e ?n ?r] => destruct (transport e n r); simpl
      end; exact Hclient.
Qed.

Lemma requests_use_the_existing_client_witness :
  exists r,
    network (world_after (requestAccessToken (Sample.env false) "code" None
                            world_B_after_A))
    = [] ++ [r]
    /\ agent r = Some {| ca := "CERT-A" |}
    /\ withCredentials r = false.
Proof.
  destruct (requests_use_the_existing_client (Sample.env false) world_B_after_A
              (HttpsClient.create Sample.store_A) "code" None)
    as ((r & Hsent & Hagent & Hcookies) & _).
  - reflexivity.
  - vm_compute. reflexivity.
  - exists r. split; [exact Hsent|]. split; [exact Hagent | exact Hcookies].
Defined.

(** ** Signing out *)

(** X19. [signOut] hands out what [getSignOutURL] computes. When that
    fails, [signOut] fails with the same exception and the session is
    kept; when it succeeds the session data are cleared, after which the
    context is not authenticated and a second [signOut] fails for want of
    an ID token. *)
Theorem signOut_once
    (env : Environment) (w : World) :
  (forall e w', getSignOutURL env w = (Err e, w') -> signOut env w = (Err e, w))
  /\ (forall signOutURL w',
        getSignOutURL env w = (Ok signOutURL, w') ->
        let run := signOut env w in
        settled run = Ok signOutURL
        /\ sessionData (dataLayer (world_after run)) = ∅
        /\ configData (dataLayer (world_after run)) = configData (dataLayer w)
        /\ network (world_after run) = network w
        /\ settled (isAuthenticated (world_after run)) = Ok false
        /\ exists e, settled (signOut env (world_after run)) = Err e
                     /\ is_AsgardeoAuthException "AUTH_CORE-GSOU-NF02" e).
Proof.
  unfold signOut, isAuthenticated, getAccessToken, clearUserSessionData, getSignOutURL.
  run. simpl.
  destruct (JS.blank (oidcProviderMetaData (dataLayer w) !! "end_session_endpoint"))
    eqn:Hep; simpl.
  { split; [intros e w' H; inversion H; reflexivity | intros u w' H; discriminate]. }
  destruct (JS.blank (sessionData (dataLayer w) !! "id_token")) eqn:Hid; simpl.
  { split; [intros e w' H; inversion H; reflexivity | intros u w' H; discriminate]. }
  destruct (JS.blank match signOutRedirectURL (configData (dataLayer w)) with
                     | Some u => Some u
                     | None => Some (signInRedirectURL (configData (dataLayer w)))
                     end) eqn:Hcb; simpl.
  { split; [intros e w' H; inversion H; reflexivity | intros u w' H; discriminate]. }
  split; [intros e w' H; discriminate|].
  intros u w' H. inversion H; subst. simpl. rewrite Hep. simpl.
  repeat split. eexists. split; reflexivity.
Qed.

Lemma signOut_once_witness :
  let run := signOut (Sample.env false) (Sample.world Sample.session) in
  settled run
  = Ok ("https://idp.example/oidc/logout?id_token_hint=h.e30.s"
        +:+ "&post_logout_redirect_uri=https://app.example/login"
        +:+ "&state=sign_out_success")
  /\ sessionData (dataLayer (world_after run)) = ∅.
Proof.
  destruct (proj2 (signOut_once (Sample.env false) (Sample.world Sample.session))
              ("https://idp.example/oidc/logout?id_token_hint=h.e30.s"
               +:+ "&post_logout_redirect_uri=https://app.example/login"
               +:+ "&state=sign_out_success")
              (Sample.world Sample.session))
    as (Hsettled & Hsession & _).
  - vm_compute. reflexivity.
  - split; [exact Hsettled | exact Hsession].
Defined.

(** ** The decoded ID token of the session *)

(** X20. [getDecodedIDToken] only reads: the world after is the world
    before. With no ID token in the session it rejects with the
    token-decoding exception CRYPTO_UTIL-DIT-IV01, and it never rejects
    with anything else; with a stored token whose second segment is the
    base64url encoding of a JSON text it resolves with the value of that
    text. *)
Theorem getDecodedIDToken_reads_the_session (w : World) :
  world_after (getDecodedIDToken w) = w
  /\ (forall e, settled (getDecodedIDToken w) = Err e ->
                is_AsgardeoAuthException "CRYPTO_UTIL-DIT-IV01" e)
  /\ (sessionData (dataLayer w) !! "id_token" = None ->
      exists e, settled (getDecodedIDToken w) = Err e)
  /\ (forall header text signature payload,
        contains_char "." header = false ->
        JSON.parse text = Some payload ->
        sessionData (dataLayer w) !! "id_token"
        = Some (header +:+ "." +:+ base64url.encode (IsString text)
                +:+ "." +:+ signature) ->
        settled (getDecodedIDToken w) = Ok payload).
Proof.
  split; [|split; [|split]];
    [| | | intros header text signature payload Hno Hparse Hstored];
    unfold getDecodedIDToken, settle, decodeIDToken_of; run; unfold gets;
    cbv beta iota zeta.
  - destruct (sessionData (dataLayer w) !! "id_token") as [token|]; simpl;
      [destruct (decodeIDToken token)|]; reflexivity.
  - intros e. destruct (sessionData (dataLayer w) !! "id_token") as [token|]; simpl.
    + destruct (decodeIDToken token) eqn:Hrun; simpl; intros H; inversion H; subst.
      apply (decodeIDToken_error_kind token), Hrun.
    + intros H. inversion H. reflexivity.
  - intros Hnone. rewrite Hnone. simpl. eexists. reflexivity.
  - rewrite Hstored. unfold decodeIDToken, decodeIDToken_try.
    rewrite (split_token header _ signature Hno).
    + rewrite base64url_decode_encode, Hparse. reflexivity.
    + rewrite base64url_encode_string. unfold Base64URL.encode_bytes.
      apply (encode_without_dot (length (Z_of_byte <$> TextEncoder_encode text)));
        [reflexivity | apply bytes_in_range].
Qed.

Lemma getDecodedIDToken_reads_the_session_witness :
  (exists e, settled (getDecodedIDToken (Sample.world ∅)) = Err e)
  /\ settled (getDecodedIDToken
                (Sample.world
                   {[ "id_token" := "h" +:+ "."
                                    +:+ base64url.encode (IsString "[true,null]")
                                    +:+ "." +:+ "s" ]}))
     = Ok (JSON.Array [JSON.Bool true; JSON.Null]).
Proof.
  split.
  - apply (getDecodedIDToken_reads_the_session (Sample.world ∅)). reflexivity.
  - apply (proj2 (proj2 (proj2 (getDecodedIDToken_reads_the_session _)))
             "h" "[true,null]" "s").
    + reflexivity.
    + vm_compute. reflexivity.
    + apply lookup_singleton_eq.
Defined.

(** ** Choosing the key of an ID token *)

Section JWKProperties.

Variable number_text : string -> string.
Variable Key : Type.
Variable keystore_get : string -> string -> string -> string -> Key.

Lemma find_first_match (kid : option JSON.t) (before after : list JWKInterface)
    (key : JWKInterface) :
  Forall (fun k => JSValue.strict_equal_string kid (jwk_kid k) = false) before ->
  JSValue.strict_equal_string kid (jwk_kid key) = true ->
  List.find (fun k => JSValue.strict_equal_string kid (jwk_kid k))
    (before ++ key :: after) = Some key.
Proof.
  intros Hbefore Hkey. induction Hbefore as [|k before Hk _ IH]; simpl.
  - rewrite Hkey. reflexivity.
  - rewrite Hk. exact IH.
Qed.

Lemma find_no_match (kid : option JSON.t) (keys : list JWKInterface) :
  Forall (fun k => JSValue.strict_equal_string kid (jwk_kid k) = false) keys ->
  List.find (fun k => JSValue.strict_equal_string kid (jwk_kid k)) keys = None.
Proof.
  intros Hkeys. induction Hkeys as [|k keys Hk _ IH]; simpl.
  - reflexivity.
  - rewrite Hk. exact IH.
Qed.

(** X21. When the header of the token is a JSON object whose [kid] is a
    string, [getJWKForTheIdToken] returns the key-store entry built from
    the first key of the list carrying that [kid] (its alg, e, kty and n),
    whatever follows it in the list, another key of the same [kid]
    included. *)
Theorem getJWKForTheIdToken_first_match
    (jwtHeader kid : string) (members : list (string * JSON.t))
    (before after : list JWKInterface) (key : JWKInterface) :
  JSON.parse (base64url.decode jwtHeader) = Some (JSON.Object members) ->
  JSValue.last_member "kid" members = Some (JSON.Str kid) ->
  Forall (fun k => jwk_kid k <> kid) before ->
  jwk_kid key = kid ->
  getJWKForTheIdToken number_text Key keystore_get jwtHeader (before ++ key :: after)
  = Returned (keystore_get (jwk_alg key) (jwk_e key) (jwk_kty key) (jwk_n key)).
Proof.
  intros Hparse Hkid Hbefore Hkey.
  unfold getJWKForTheIdToken, parse_header. rewrite Hparse. simpl. rewrite Hkid.
  rewrite find_first_match; [reflexivity | | ].
  - eapply Forall_impl; [exact Hbefore|].
    intros k Hk. simpl. apply String.eqb_neq. congruence.
  - simpl. apply String.eqb_eq. congruence.
Qed.


(** X23. A header that is not an object with a string [kid] never yields
    a key. If its decoded text is not JSON, or is the JSON text null, the
    call throws (a SyntaxError, a TypeError) instead of returning a
    rejected promise, for every list of keys; if it is another JSON value
    without a [kid], the call returns the promise rejected with
    CRYPTO_UTIL-GTFTIT-IV01, for every list of keys. *)
Theorem getJWKForTheIdToken_without_kid
    (jwtHeader : string) (keys : list JWKInterface) :
  let run := getJWKForTheIdToken number_text Key keystore_get jwtHeader keys in
  (JSON.parse (base64url.decode jwtHeader) = None ->
   exists message, run = Thrown (SyntaxError message))
  /\ (JSON.parse (base64url.decode jwtHeader) = Some JSON.Null ->
      exists message, run = Thrown (TypeError message))
  /\ (forall headerJSON,
        JSON.parse (base64url.decode jwtHeader) = Some headerJSON ->
        JSValue.property "kid" headerJSON = Ok None ->
        exists e, run = RejectedWith e
                  /\ is_AsgardeoAuthException "CRYPTO_UTIL-GTFTIT-IV01" e).
Proof.
  cbv zeta. unfold getJWKForTheIdToken, parse_header.
  split; [|split].
  - intros Hparse. rewrite Hparse. eexists. reflexivity.
  - intros Hparse. rewrite Hparse. simpl. eexists. reflexivity.
  - intros headerJSON Hparse Hkid. rewrite Hparse, Hkid.
    rewrite find_no_match; [eexists; split; reflexivity|].
    apply Forall_forall. intros k _. reflexivity.
Qed.

End JWKProperties.

Lemma getJWKForTheIdToken_first_match_witness :
  getJWKForTheIdToken id (list string) sample_keystore_get sample_header sample_keys
  = Returned ["RS384"; "AQAB"; "RSA"; "n2"].
Proof.
  apply (getJWKForTheIdToken_first_match id (list string) sample_keystore_get
           sample_header "k2" [("alg", JSON.Str "RS256"); ("kid", JSON.Str "k2")]
           [{| jwk_kty := "RSA"; jwk_alg := "RS256"; jwk_e := "AQAB"; jwk_kid := "k1";
               jwk_n := "n1" |}]
           [{| jwk_kty := "RSA"; jwk_alg := "RS512"; jwk_e := "AQAB"; jwk_kid := "k2";
               jwk_n := "n3" |}]
           {| jwk_kty := "RSA"; jwk_alg := "RS384"; jwk_e := "AQAB"; jwk_kid := "k2";
              jwk_n := "n2" |}).
  - vm_compute. reflexivity.
  - reflexivity.
  - constructor; [discriminate | constructor].
  - reflexivity.
Defined.


Lemma getJWKForTheIdToken_without_kid_witness :
  (exists message,
      getJWKForTheIdToken id (list string) sample_keystore_get "bnVsbA" sample_keys
      = Thrown (TypeError message))
  /\ (exists e,
         getJWKForTheIdToken id (list string) sample_keystore_get "e30" sample_keys
         = RejectedWith e
         /\ is_AsgardeoAuthException "CRYPTO_UTIL-GTFTIT-IV01" e)
  /\ (exists message,
         getJWKForTheIdToken id (list string) sample_keystore_get header_with_accent
           sample_keys
         = Thrown (SyntaxError message))
  /\ (exists message,
         getJWKForTheIdToken id (list string) sample_keystore_get
           ("e3" +:+ e_acute +:+ e_acute +:+ "0") sample_keys
         = Thrown (SyntaxError message)).
Proof.
  split; [|split; [|split]].
  - apply (getJWKForTheIdToken_without_kid id (list string) sample_keystore_get
             "bnVsbA" sample_keys).
    vm_compute. reflexivity.
  - apply (proj2 (proj2 (getJWKForTheIdToken_without_kid id (list string)
                           sample_keystore_get "e30" sample_keys))
             (JSON.Object [])).
    + vm_compute. reflexivity.
    + reflexivity.
  - apply (getJWKForTheIdToken_without_kid id (list string) sample_keystore_get
             header_with_accent sample_keys).
    vm_compute. reflexivity.
  - apply (getJWKForTheIdToken_without_kid id (list string) sample_keystore_get
             ("e3" +:+ e_acute +:+ e_acute +:+ "0") sample_keys).
    vm_compute. reflexivity.
Defined.

(** ** Custom grants *)

Section CustomGrantProperties.

Variable env : Environment.
Variable replaceCustomGrantTemplateTags : string -> M string.

(** The template tags are replaced by reading the stores: the helper
    resolves with a text that depends on the world only and leaves the
    world as it is. *)
Variable substituted : World -> string -> string.
Hypothesis replace_reads :
  forall value w, replaceCustomGrantTemplateTags value w = (Ok (substituted w value), w).

Lemma substitute_entries_run (entries : list (string * string)) (w : World) :
  substitute_entries replaceCustomGrantTemplateTags entries w
  = (Ok ((fun kv => kv.1 +:+ "=" +:+ substituted w kv.2) <$> entries), w).
Proof.
  induction entries as [|[key value] rest IH]; [reflexivity|].
  cbn [substitute_entries]. run. rewrite replace_reads, IH. reflexivity.
Qed.

Lemma blank_has_no_text (x : option string) :
  JS.blank x = true ->
  JS.truthy x && negb (Nat.eqb (String.length (JS.trim (JS.interpolate x))) 0) = false.
Proof.
  destruct x as [s|]; [|reflexivity]. unfold JS.blank, JS.truthy, JS.interpolate.
  destruct (String.eqb s ""); [reflexivity|]. simpl. intros ->. reflexivity.
Qed.

Lemma text_is_not_blank (x : option string) :
  JS.blank x = false ->
  JS.truthy x && negb (Nat.eqb (String.length (JS.trim (JS.interpolate x))) 0) = true.
Proof.
  destruct x as [s|]; [|discriminate]. unfold JS.blank, JS.truthy, JS.interpolate.
  destruct (String.eqb s ""); [discriminate|]. simpl. intros ->. reflexivity.
Qed.

(** X24. [requestCustomGrant] posts to the token endpoint of its
    parameters when that has text, to the token endpoint of the provider
    metadata otherwise. When neither has text it rejects with
    AUTH_CORE-RCG-NF01 before anything is done: nothing is substituted,
    no client is built, nothing is sent. *)
Theorem requestCustomGrant_endpoint
    (customGrantParams : CustomGrantConfig) (w : World) :
  let own := grant_tokenEndpoint customGrantParams in
  let discovered := oidcProviderMetaData (dataLayer w) !! "token_endpoint" in
  let run := requestCustomGrant env replaceCustomGrantTemplateTags customGrantParams w in
  (JS.blank own = false ->
   exists r, network (world_after run) = network w ++ [r]
             /\ url r = JS.interpolate own)
  /\ (JS.blank own = true -> JS.blank discovered = false ->
      exists r, network (world_after run) = network w ++ [r]
                /\ url r = JS.interpolate discovered)
  /\ (JS.blank own = true -> JS.blank discovered = true ->
      exists e, run = (Err e, w)
                /\ is_AsgardeoAuthException "AUTH_CORE-RCG-NF01" e).
Proof.
  cbv zeta. unfold requestCustomGrant, handleTokenResponse, HttpsClient.getHttpsAgent, send.
  split; [|split].
  - intros Hown. run. unfold gets, HttpsClient.getInstance. cbv beta iota zeta.
    rewrite (text_is_not_blank _ Hown), Hown, substitute_entries_run.
    destruct (httpsClient w), (attachToken customGrantParams); simpl;
      match goal with
      | |- context [transport ?e ?n ?r] =>
          exists r; destruct (transport e n r) as [status body|]; simpl;
          [destruct (status =? 200); simpl;
           [destruct (returnsSession customGrantParams)|]|]
      end; split; reflexivity.
  - intros Hown Hfound. run. unfold gets, HttpsClient.getInstance. cbv beta iota zeta.
    rewrite (blank_has_no_text _ Hown), Hfound, substitute_entries_run.
    destruct (httpsClient w), (attachToken customGrantParams); simpl;
      match goal with
      | |- context [transport ?e ?n ?r] =>
          exists r; destruct (transport e n r) as [status body|]; simpl;
          [destruct (status =? 200); simpl;
           [destruct (returnsSession customGrantParams)|]|]
      end; split; reflexivity.
  - intros Hown Hfound. run. unfold gets. cbv beta iota zeta.
    rewrite (blank_has_no_text _ Hown), Hfound.
    eexists. split; reflexivity.
Qed.

(** X25. The request of [requestCustomGrant] is a POST whose body is the
    entries of [data], each as key=value with the template tags of the
    value replaced, joined by an ampersand in the order of the entries
    and not encoded. With [attachToken] the headers end with an
    Authorization header of the stored access token, which reads
    Bearer undefined when the session has none; without it there is no
    such header. The agent is that of the transport client. *)
Theorem requestCustomGrant_request
    (customGrantParams : CustomGrantConfig) (w : World) (endpoint : string) :
  let c := configData (dataLayer w) in
  let run := requestCustomGrant env replaceCustomGrantTemplateTags customGrantParams w in
  grant_tokenEndpoint customGrantParams = Some endpoint ->
  JS.blank (Some endpoint) = false ->
  exists r,
    network (world_after run) = network w ++ [r]
    /\ method r = POST
    /\ data r
       = Some (JS.join "&"
                 ((fun kv => kv.1 +:+ "=" +:+ substituted w kv.2)
                    <$> grant_data customGrantParams))
    /\ headers r
       = getTokenRequestHeaders
         ++ (if attachToken customGrantParams
             then [("Authorization",
                    "Bearer "
                    +:+ JS.interpolate (sessionData (dataLayer w) !! "access_token"))]
             else [])
    /\ withCredentials r = sendCookiesInRequests c
    /\ agent r
       = httpsAgent (default (HttpsClient.create (dataLayer w)) (httpsClient w)).
Proof.
  intros c run Hown Htext. subst c run.
  unfold requestCustomGrant, handleTokenResponse, HttpsClient.getHttpsAgent, send.
  run. unfold gets, HttpsClient.getInstance. cbv beta iota zeta.
  rewrite Hown, (text_is_not_blank _ Htext), Htext, substitute_entries_run.
  destruct (httpsClient w), (attachToken customGrantParams); simpl;
    match goal with
    | |- context [transport ?e ?n ?r] =>
        exists r; destruct (transport e n r) as [status body|]; simpl;
        [destruct (status =? 200); simpl;
         [destruct (returnsSession customGrantParams)|]|]
    end; repeat split; rewrite ?app_nil_r; reflexivity.
Qed.

(** X26. How a custom grant ends. Answered with 200 and [returnsSession]
    off, the call resolves with the response as received and the session
    data stay as they were. Answered with another status, it rejects with
    the network exception AUTH_CORE-RCG-NR04, into which the handler
    closing the request chain has wrapped the invalid-status exception
    AUTH_CORE-RCG-NR02; the session data stay as they were. *)
Theorem requestCustomGrant_outcome
    (customGrantParams : CustomGrantConfig) (w : World) (endpoint : string)
    (status : Z) (body : gmap string string) :
  let run := requestCustomGrant env replaceCustomGrantTemplateTags customGrantParams w in
  grant_tokenEndpoint customGrantParams = Some endpoint ->
  JS.blank (Some endpoint) = false ->
  (forall r, method r = POST -> url r = endpoint ->
             transport env (network w) r = Fulfilled status body) ->
  (status = 200 -> returnsSession customGrantParams = false ->
   settled run = Ok (inr (200, body))
   /\ sessionData (dataLayer (world_after run)) = sessionData (dataLayer w))
  /\ (status <> 200 ->
      settled run
      = Err (AsgardeoAuthNetworkException "AUTH_CORE-RCG-NR04" "authentication-core"
               "requestCustomGrant" "The custom grant request failed."
               "The request sent to get the custom grant failed."
               "AUTH_CORE-RCG-NR02"
               (Some "Invalid response status received for the custom grant request.")
               None None)
      /\ sessionData (dataLayer (world_after run)) = sessionData (dataLayer w)).
Proof.
  intros run Hown Htext Htransport. subst run.
  unfold requestCustomGrant, handleTokenResponse, HttpsClient.getHttpsAgent, send.
  run. unfold gets, HttpsClient.getInstance. cbv beta iota zeta.
  rewrite Hown, (text_is_not_blank _ Htext), Htext, substitute_entries_run.
  split.
  - intros -> Hraw. rewrite Hraw.
    destruct (httpsClient w), (attachToken customGrantParams); simpl;
      match goal with
      | |- context [transport ?e ?n ?r] => rewrite (Htransport r eq_refl eq_refl)
      end; simpl; split; reflexivity.
  - intros Hstatus. apply Z.eqb_neq in Hstatus.
    destruct (httpsClient w), (attachToken customGrantParams); simpl;
      match goal with
      | |- context [transport ?e ?n ?r] => rewrite (Htransport r eq_refl eq_refl)
      end; simpl; rewrite Hstatus; simpl; split; reflexivity.
Qed.

End CustomGrantProperties.

Lemma requestCustomGrant_endpoint_witness :
  (exists r,
      network (world_after (requestCustomGrant (Sample.env false) sample_replace
                              sample_grant (Sample.world Sample.session)))
      = [] ++ [r]
      /\ url r = "https://idp.example/oauth2/revoke")
  /\ (exists e,
         requestCustomGrant (Sample.env false) sample_replace
           {| grant_tokenEndpoint := Some "  "; grant_data := [];
              attachToken := false; returnsSession := false |}
           world_without_endpoints
         = (Err e, world_without_endpoints)
         /\ is_AsgardeoAuthException "AUTH_CORE-RCG-NF01" e).
Proof.
  split.
  - apply (requestCustomGrant_endpoint (Sample.env false) sample_replace
             sample_substituted (fun value w => eq_refl) sample_grant
             (Sample.world Sample.session)).
    vm_compute. reflexivity.
  - apply (requestCustomGrant_endpoint (Sample.env false) sample_replace
             sample_substituted (fun value w => eq_refl)
             {| grant_tokenEndpoint := Some "  "; grant_data := [];
                attachToken := false; returnsSession := false |}
             world_without_endpoints);
      vm_compute; reflexivity.
Defined.

Lemma requestCustomGrant_request_witness :
  exists r,
    network (world_after (requestCustomGrant (Sample.env false) sample_replace
                            sample_grant (Sample.world ∅)))
    = [] ++ [r]
    /\ data r = Some "grant_type=account_switch&token=undefined&note=a&b=c"
    /\ headers r
       = [("Content-Type", "application/x-www-form-urlencoded");
          ("Authorization", "Bearer undefined")].
Proof.
  destruct (requestCustomGrant_request (Sample.env false) sample_replace
              sample_substituted (fun value w => eq_refl) sample_grant
              (Sample.world ∅) "https://idp.example/oauth2/revoke")
    as (r & Hsent & _ & Hdata & Hheaders & _).
  - reflexivity.
  - vm_compute. reflexivity.
  - exists r. split; [exact Hsent|]. split; [exact Hdata | exact Hheaders].
Defined.

Lemma requestCustomGrant_outcome_witness :
  settled (requestCustomGrant (Sample.env false) sample_replace sample_grant
             (Sample.world Sample.session))
  = Err (AsgardeoAuthNetworkException "AUTH_CORE-RCG-NR04" "authentication-core"
           "requestCustomGrant" "The custom grant request failed."
           "The request sent to get the custom grant failed."
           "AUTH_CORE-RCG-NR02"
           (Some "Invalid response status received for the custom grant request.")
           None None).
Proof.
  refine (proj1 (proj2 (requestCustomGrant_outcome (Sample.env false) sample_replace
                          sample_substituted (fun value w => eq_refl) sample_grant
                          (Sample.world Sample.session)
                          "https://idp.example/oauth2/revoke" 204 ∅ _ _ _) _)).
  - reflexivity.
  - vm_compute. reflexivity.
  - intros r _ Hurl. simpl. unfold Sample.provider. rewrite Hurl. reflexivity.
  - discriminate.
Defined.

(** ** Updating the configuration *)

(** X27. [updateConfig] never rejects, and it goes to the network only
    when the update names endpoints without overriding discovery: it then
    forces one discovery request, even if discovery had been done. In
    every other case nothing is sent; an update without endpoints leaves
    the provider metadata and the initiated flag as they were. *)
Theorem updateConfig_network
    (env : Environment) (config : PartialConfig) (w : World) :
  let run := updateConfig env config w in
  let override := default false (set_overrideWellEndpointConfig config) in
  settled run = Ok tt
  /\ length (network (world_after run))
     = (length (network w)
        + (if override then 0
           else match set_endpoints config with Some _ => 1 | None => 0 end))%nat
  /\ sessionData (dataLayer (world_after run)) = sessionData (dataLayer w)
  /\ (set_endpoints config = None ->
      oidcProviderMetaData (dataLayer (world_after run))
      = oidcProviderMetaData (dataLayer w)
      /\ temporaryData (dataLayer (world_after run)) = temporaryData (dataLayer w)).
Proof.
  cbv zeta.
  unfold updateConfig, getOIDCProviderMetaData, resolveWellKnownEndpoint,
    resolveEndpoints, resolveFallbackEndpoints, axios_get, HttpsClient.getAxios, send.
  run. unfold HttpsClient.getInstance. simpl.
  destruct (default false (set_overrideWellEndpointConfig config)); simpl;
    destruct (set_endpoints config) as [eps|]; simpl;
    try (repeat split; try discriminate; lia).
  destruct (httpsClient w); simpl;
    match goal with
    | |- context [transport ?e ?n ?r] =>
        destruct (transport e n r) as [status body|]; simpl;
        [destruct (status =? 200); simpl|]
    end;
    (repeat split; try discriminate; rewrite length_app; simpl; lia).
Qed.

(** ** The basic user information *)

(** X28. [getBasicUserInfo] lays the user information derived from the ID
    token over the allowed scopes and the session state of the session,
    after dropping the properties of the user information that are
    undefined, empty or null: a property with a value is handed out as it
    is, a dropped one is not handed out (for the two session properties
    the session's value shows instead), and the world is not changed. *)
Theorem getBasicUserInfo_properties
    (getAuthenticatedUserInfo : option string -> Result (gmap string (option JSON.t)))
    (w : World) (user : gmap string (option JSON.t)) :
  let session := sessionData (dataLayer w) in
  getAuthenticatedUserInfo (session !! "id_token") = Ok user ->
  exists info,
    getBasicUserInfo getAuthenticatedUserInfo w = (Ok info, w)
    /\ (forall name value,
          user !! name = Some value -> is_empty_claim value = false ->
          info !! name = Some value)
    /\ (forall name,
          name <> "allowedScopes" -> name <> "sessionState" ->
          (user !! name = None
           \/ exists value, user !! name = Some value /\ is_empty_claim value = true) ->
          info !! name = None)
    /\ (user !! "allowedScopes" = None ->
        info !! "allowedScopes" = Some (JSON.Str <$> session !! "scope"))
    /\ (user !! "sessionState" = None ->
        info !! "sessionState" = Some (JSON.Str <$> session !! "session_state")).
Proof.
  intros session Huser. subst session.
  unfold getBasicUserInfo, settle. run. unfold gets. cbv beta iota zeta.
  rewrite Huser. eexists. split; [reflexivity|].
  split; [|split; [|split]].
  - intros name value Hname Hvalue. apply lookup_union_Some_l.
    apply map_lookup_filter_Some. split; assumption.
  - intros name Hscopes Hstate Hdropped.
    apply lookup_union_None. split.
    + apply map_lookup_filter_None. destruct Hdropped as [Hnone | (value & Hsome & Hempty)].
      * left. exact Hnone.
      * right. intros value' Hsome'. simpl. congruence.
    + rewrite lookup_insert_ne by congruence. rewrite lookup_singleton_ne; congruence.
  - intros Hnone. rewrite lookup_union_r.
    + apply lookup_insert_eq.
    + apply map_lookup_filter_None. left. exact Hnone.
  - intros Hnone. rewrite lookup_union_r.
    + rewrite lookup_insert_ne by discriminate. apply lookup_singleton_eq.
    + apply map_lookup_filter_None. left. exact Hnone.
Qed.

Lemma getBasicUserInfo_properties_witness :
  exists info,
    getBasicUserInfo sample_user_info (Sample.world Sample.token_body)
    = (Ok info, Sample.world Sample.token_body)
    /\ info !! "username" = Some (Some (JSON.Str "alice"))
    /\ info !! "email" = None
    /\ info !! "allowedScopes" = Some (Some (JSON.Str "openid")).
Proof.
  destruct (getBasicUserInfo_properties sample_user_info
              (Sample.world Sample.token_body)
              (list_to_map [("username", Some (JSON.Str "alice"));
                            ("email", Some (JSON.Str ""));
                            ("tenantDomain", None); ("displayName", Some JSON.Null)]))
    as (info & Hrun & Hkept & Hdropped & Hscopes & _); [reflexivity|].
  exists info. split; [exact Hrun|]. split; [|split].
  - apply Hkept; reflexivity.
  - apply Hdropped; [discriminate | discriminate |].
    right. exists (Some (JSON.Str "")). split; reflexivity.
  - rewrite Hscopes; reflexivity.
Defined.

(** ** The sign-out request of the session module *)

Section SignOutRequestProperties.

Variable Store : Type.
Variable getEndSessionEndpoint : Store -> option string.
Variable getSessionParameter : string -> Store -> option string.
Variable endAuthenticatedSession : Store -> Store.
Variable resetOPConfiguration : Store -> Store.
Variable sessionStorage_length : Store -> nat.
Variable ID_TOKEN : string.

(** X29. [sendSignOutRequest] checks the logout endpoint, then the ID
    token; when one is missing or blank it hands back a promise rejected
    with its own message, and the page is untouched: the session is not
    ended and the callback is not run. Otherwise the session is ended and
    the provider configuration reset first, the callback runs on that
    state, and last the page is sent to
    endpoint?id_token_hint=token&post_logout_redirect_uri=callbackURL,
    whatever address the callback had set. *)
Theorem sendSignOutRequest_steps
    (callbackURL : option string) (callback : option (Page Store -> Page Store))
    (page : Page Store) :
  let logoutEndpoint := getEndSessionEndpoint (page_store Store page) in
  let idToken := getSessionParameter ID_TOKEN (page_store Store page) in
  let ended :=
    {| page_store :=
         resetOPConfiguration (endAuthenticatedSession (page_store Store page));
       location_href := location_href Store page |} in
  (JS.blank logoutEndpoint = true ->
   (sendSignOutRequest Store getEndSessionEndpoint getSessionParameter
     endAuthenticatedSession resetOPConfiguration ID_TOKEN)
     callbackURL callback page
   = (RejectedError "Invalid logout endpoint found.", page))
  /\ (JS.blank logoutEndpoint = false -> JS.blank idToken = true ->
      (sendSignOutRequest Store getEndSessionEndpoint getSessionParameter
     endAuthenticatedSession resetOPConfiguration ID_TOKEN)
     callbackURL callback page
      = (RejectedError "Invalid id_token found.", page))
  /\ (forall endpoint token,
        logoutEndpoint = Some endpoint -> idToken = Some token ->
        JS.blank (Some endpoint) = false -> JS.blank (Some token) = false ->
        exists page',
          (sendSignOutRequest Store getEndSessionEndpoint getSessionParameter
     endAuthenticatedSession resetOPConfiguration ID_TOKEN)
     callbackURL callback page = (ReturnedUndefined, page')
          /\ page_store Store page'
             = page_store Store (from_option (fun f => f ended) ended callback)
          /\ location_href Store page'
             = Some (endpoint +:+ "?id_token_hint=" +:+ token
                     +:+ "&post_logout_redirect_uri=" +:+ JS.interpolate callbackURL)).
Proof.
  cbv zeta. unfold sendSignOutRequest.
  split; [|split].
  - intros Hep. rewrite Hep. reflexivity.
  - intros Hep Hid. rewrite Hep, Hid. reflexivity.
  - intros endpoint token Hep Hid Hep' Hid'. rewrite Hep, Hid, Hep', Hid'.
    eexists. split; [reflexivity|]. split.
    + destruct callback; reflexivity.
    + simpl. rewrite !append_assoc. reflexivity.
Qed.

(** X30. [handleSignOut] with an empty session storage returns a promise
    rejected with its own message and touches nothing. Otherwise a
    rejection of [sendSignOutRequest] is passed on. When
    [sendSignOutRequest] goes through, it has returned nothing to call
    [catch] on: the page has been sent to the logout address and the
    session ended, and the call ends by throwing. *)
Theorem handleSignOut_ends
    (callbackURL : option string) (callback : option (Page Store -> Page Store))
    (page : Page Store) :
  (sessionStorage_length (page_store Store page) = 0%nat ->
   (handleSignOut Store getEndSessionEndpoint getSessionParameter
     endAuthenticatedSession resetOPConfiguration sessionStorage_length ID_TOKEN)
     callbackURL callback page = (EndsRejected "No login sessions.", page))
  /\ (sessionStorage_length (page_store Store page) <> 0%nat ->
      forall message page',
        (sendSignOutRequest Store getEndSessionEndpoint getSessionParameter
     endAuthenticatedSession resetOPConfiguration ID_TOKEN)
     callbackURL callback page = (RejectedError message, page') ->
        (handleSignOut Store getEndSessionEndpoint getSessionParameter
     endAuthenticatedSession resetOPConfiguration sessionStorage_length ID_TOKEN)
     callbackURL callback page = (EndsRejected message, page))
  /\ (sessionStorage_length (page_store Store page) <> 0%nat ->
      forall page',
        (sendSignOutRequest Store getEndSessionEndpoint getSessionParameter
     endAuthenticatedSession resetOPConfiguration ID_TOKEN)
     callbackURL callback page = (ReturnedUndefined, page') ->
        exists message address,
          (handleSignOut Store getEndSessionEndpoint getSessionParameter
     endAuthenticatedSession resetOPConfiguration sessionStorage_length ID_TOKEN)
     callbackURL callback page = (EndsThrowing message, page')
          /\ location_href Store page' = Some address).
Proof.
  unfold handleSignOut.
  split; [|split].
  - intros ->. reflexivity.
  - intros Hsome message page' Hsent. apply Nat.eqb_neq in Hsome. rewrite Hsome, Hsent.
    f_equal. revert Hsent. unfold sendSignOutRequest.
    destruct (JS.blank (getEndSessionEndpoint (page_store Store page)));
      [intros H; inversion H; reflexivity|].
    destruct (JS.blank (getSessionParameter ID_TOKEN (page_store Store page)));
      intros H; inversion H; reflexivity.
  - intros Hsome page' Hsent. apply Nat.eqb_neq in Hsome. rewrite Hsome, Hsent.
    do 2 eexists. split; [reflexivity|].
    revert Hsent. unfold sendSignOutRequest.
    destruct (JS.blank (getEndSessionEndpoint (page_store Store page)));
      [discriminate|].
    destruct (JS.blank (getSessionParameter ID_TOKEN (page_store Store page)));
      [discriminate|].
    intros H. inversion H. reflexivity.
Qed.

End SignOutRequestProperties.

Lemma sendSignOutRequest_steps_witness :
  exists page',
    sendSignOutRequest (gmap string string)
      (fun _ => Some "https://idp.example/oidc/logout") (fun key store => store !! key)
      (fun _ => ∅) (fun store => store) "id_token" None None sample_page
    = (ReturnedUndefined, page')
    /\ page_store _ page' = ∅
    /\ location_href _ page'
       = Some ("https://idp.example/oidc/logout?id_token_hint=TOKEN"
               +:+ "&post_logout_redirect_uri=undefined").
Proof.
  destruct (sendSignOutRequest_steps (gmap string string)
              (fun _ => Some "https://idp.example/oidc/logout")
              (fun key store => store !! key)
              (fun _ => ∅) (fun store => store) "id_token" None None sample_page)
    as (_ & _ & Hgoes).
  destruct (Hgoes "https://idp.example/oidc/logout" "TOKEN")
    as (page' & Hrun & Hstore & Hhref); try (vm_compute; reflexivity).
  exists page'. split; [exact Hrun|]. split; [exact Hstore | exact Hhref].
Defined.

Lemma handleSignOut_ends_witness :
  handleSignOut (gmap string string)
    (fun _ => Some "https://idp.example/oidc/logout") (fun key store => store !! key)
    (fun _ => ∅) (fun store => store) (fun store => 0%nat) "id_token" None None
    sample_page
  = (EndsRejected "No login sessions.", sample_page).
Proof.
  apply (handleSignOut_ends (gmap string string)
           (fun _ => Some "https://idp.example/oidc/logout")
           (fun key store => store !! key)
           (fun _ => ∅) (fun store => store) (fun store => 0%nat) "id_token"
           None None sample_page).
  reflexivity.
Defined.
